(** * cloud-init 0.7.9: the sysconfig network renderer (net/sysconfig.py)

    A shallow embedding of the renderer's data model (ConfigMap, Route,
    NetInterface) and of the rendering passes that populate it, followed by
    the properties of the renderer that the specification states.

    Python objects are mutated in place; here every method takes the object
    and returns the updated one.  Exceptions are values of [exn], carried by
    the [result] monad. *)

From stdpp Require Import base strings list sorting pretty.
From Stdlib Require Import Ascii ZArith Lia.

(** ** Python values and exceptions *)

(** The scalars that the renderer stores in a ConfigMap or reads from a
    subnet or route dictionary. *)
Inductive value : Type :=
| VStr (s : string)
| VBool (b : bool)
| VInt (z : Z)
| VNone.

Global Instance value_eq_dec : EqDecision value.
Proof. solve_decision. Defined.

Inductive exn : Type :=
| ValueError (msg : string)
| KeyError (key : string)
| TypeError (msg : string).

Inductive result (A : Type) : Type :=
| Ok (a : A)
| Raise (e : exn).
Arguments Ok {A} a.
Arguments Raise {A} e.

Definition bind {A B : Type} (m : result A) (k : A → result B) : result B :=
  match m with
  | Ok a => k a
  | Raise e => Raise e
  end.

Notation "'let*' x ':=' m 'in' k" := (bind m (λ x, k))
  (at level 10, x pattern, m at level 100, k at level 200).

(** The value that a computation returns, if it returns. *)
Definition returned {A : Type} (m : result A) : option A :=
  match m with
  | Ok a => Some a
  | Raise _ => None
  end.

(** A [for] loop whose body may raise: the state is threaded through the
    items from left to right and the first exception ends the loop. *)
Fixpoint for_each {A S : Type} (body : S → A → result S) (items : list A)
    (st : S) : result S :=
  match items with
  | [] => Ok st
  | x :: rest => let* st' := body st x in for_each body rest st'
  end.

(** ** Strings *)

Definition nl : string := String "010"%char "".
Definition dquote : string := String "034"%char "".

(** [needle in s]. *)
Fixpoint str_contains (needle s : string) : bool :=
  String.prefix needle s ||
  match s with
  | EmptyString => false
  | String _ s' => str_contains needle s'
  end.

Definition startswith (pre s : string) : bool := String.prefix pre s.

Definition endswith (suf s : string) : bool :=
  let n := String.length s in
  let m := String.length suf in
  (m <=? n)%nat && String.eqb (String.substring (n - m) m s) suf.

(** [s.replace(old, new)] for a non-empty [old]: the occurrences are
    replaced from left to right without overlap; [skip] counts the
    characters of a matched occurrence that are still to be dropped. *)
Fixpoint str_replace_go (old new s : string) (skip : nat) : string :=
  match s with
  | EmptyString => EmptyString
  | String c s' =>
      match skip with
      | S k => str_replace_go old new s' k
      | O =>
          if String.prefix old s
          then new +:+ str_replace_go old new s' (String.length old - 1)
          else String c (str_replace_go old new s' 0)
      end
  end.

Definition str_replace (old new s : string) : string :=
  str_replace_go old new s 0.

(** [sep.join(parts)]. *)
Definition str_join (sep : string) (parts : list string) : string :=
  String.concat sep parts.

(** The concatenation of the pieces of a text. *)
Definition str_concat (parts : list string) : string :=
  foldr String.app "" parts.

(** A string is a text whose characters have a code point below 256, and
    a character stands for its code point.  On a text the class [\s] of the
    [re] module is the one of [str.isspace]: [ \t\n\r\f\v], the four
    separators U+001C to U+001F, the next line U+0085 and the no-break
    space U+00A0. *)
Definition is_whitespace (c : ascii) : bool :=
  match c with
  | " " | "009" | "010" | "011" | "012" | "013"
  | "028" | "029" | "030" | "031" | "133" | "160" => true
  | _ => false
  end%char.

(** [re.search(r"\s", s)] as a truth value. *)
Fixpoint has_whitespace (s : string) : bool :=
  match s with
  | EmptyString => false
  | String c s' => is_whitespace c || has_whitespace s'
  end.

(** [str(v)]. *)
Definition py_str (v : value) : string :=
  match v with
  | VStr s => s
  | VBool true => "True"
  | VBool false => "False"
  | VInt z => pretty z
  | VNone => "None"
  end.

(** Truth value of [v] in a condition. *)
Definition truthy (v : value) : bool :=
  match v with
  | VStr s => negb (String.eqb s "")
  | VBool b => b
  | VInt z => negb (z =? 0)%Z
  | VNone => false
  end.

Definition opt_truthy (o : option value) : bool :=
  match o with
  | Some v => truthy v
  | None => false
  end.

(** [a == b]: booleans are the integers 0 and 1, a string never equals a
    number, [None] equals only itself. *)
Definition py_eq (a b : value) : bool :=
  match a, b with
  | VStr x, VStr y => String.eqb x y
  | VNone, VNone => true
  | VInt x, VInt y => (x =? y)%Z
  | VInt x, VBool y => (x =? Z.b2z y)%Z
  | VBool x, VInt y => (Z.b2z x =? y)%Z
  | VBool x, VBool y => Bool.eqb x y
  | _, _ => false
  end.

(** ** Dictionaries

    A [dict] keeps its items in insertion order, one item per key:
    assigning to a key that is present replaces its value in place,
    assigning to a new key appends an item. *)

Definition dict (V : Type) : Type := list (string * V).

Fixpoint dict_set {V : Type} (k : string) (v : V) (d : dict V) : dict V :=
  match d with
  | [] => [(k, v)]
  | (k', v') :: d' =>
      if decide (k = k') then (k, v) :: d' else (k', v') :: dict_set k v d'
  end.

(** [d.get(k)]. *)
Fixpoint dict_get {V : Type} (k : string) (d : dict V) : option V :=
  match d with
  | [] => None
  | (k', v') :: d' => if decide (k = k') then Some v' else dict_get k d'
  end.

(** [d[k]]. *)
Definition dict_getitem {V : Type} (k : string) (d : dict V) : result V :=
  match dict_get k d with
  | Some v => Ok v
  | None => Raise (KeyError k)
  end.

(** [d.pop(k, None)], the value dropped. *)
Fixpoint dict_pop {V : Type} (k : string) (d : dict V) : dict V :=
  match d with
  | [] => []
  | (k', v') :: d' =>
      if decide (k = k') then d' else (k', v') :: dict_pop k d'
  end.

Definition dict_keys {V : Type} (d : dict V) : list string := d.*1.

(** [sorted(keys)]: ascending order of the strings, character code by
    character code. *)
Definition sorted (keys : list string) : list string :=
  merge_sort String.le keys.

(** Strictly ascending order of two keys. *)
Definition str_lt : relation string := strict String.le.

(** The items of a dictionary never share a key. *)
Definition dict_wf {V : Type} (d : dict V) : Prop := NoDup (dict_keys d).

(** Two dictionaries hold the same key-value mapping. *)
Definition same_mapping {V : Type} (d1 d2 : dict V) : Prop :=
  ∀ k, dict_get k d1 = dict_get k d2.

(** ** Module-level helpers *)

Definition header_text : string :=
  "Created by cloud-init on instance boot automatically, do not edit.".

Definition _make_header (sep : string) : string :=
  str_join nl
    (map (λ line, if negb (String.eqb line "") then sep +:+ " " +:+ line
                  else sep)
         [header_text; ""]).

Definition _quote_value (value : string) : string :=
  if has_whitespace value then
    if startswith dquote value && endswith dquote value then value
    else dquote +:+ value +:+ dquote
  else value.

(** What the specification says of the values of a serialized store: a
    string contains whitespace, a string starts and ends with a double
    quote, and the text that stands for a value. *)
Definition whitespace_codes : list nat :=
  [9; 10; 11; 12; 13; 28; 29; 30; 31; 32; 133; 160]%nat.

Definition contains_whitespace (s : string) : Prop :=
  ∃ pre c post, s = pre +:+ String c post
                ∧ nat_of_ascii c ∈ whitespace_codes.

Definition double_quoted (s : string) : Prop :=
  (∃ t, s = dquote +:+ t) ∧ (∃ t, s = t +:+ dquote).

Definition stringified (v : value) : string :=
  match v with
  | VBool true => "yes"
  | VBool false => "no"
  | VStr s => s
  | VInt z => pretty z
  | VNone => "None"
  end.

(** ** ConfigMap *)

Module ConfigMap.

Definition _bool_map (b : bool) : string := if b then "yes" else "no".

Definition __init__ : dict value := [].

Definition __setitem__ (self : dict value) (key : string) (v : value)
  : dict value := dict_set key v self.

Definition __getitem__ (self : dict value) (key : string) : result value :=
  dict_getitem key self.

Definition drop (self : dict value) (key : string) : dict value :=
  dict_pop key self.

Definition __len__ (self : dict value) : nat := List.length self.

(** The string written after [KEY=]: a boolean goes through [_bool_map],
    and whatever is not a string by then goes through [str]. *)
Definition render_value (v : value) : string :=
  let v := match v with
           | VBool b => VStr (_bool_map b)
           | _ => v
           end in
  match v with
  | VStr s => s
  | _ => py_str v
  end.

Definition line (self : dict value) (key : string) : result string :=
  let* v := dict_getitem key self in
  Ok (key +:+ "=" +:+ _quote_value (render_value v) +:+ nl).

Definition to_string (self : dict value) : result string :=
  let buf := _make_header "#" in
  let buf := if bool_decide (self ≠ []) then buf +:+ nl else buf in
  for_each (λ buf key, let* l := line self key in Ok (buf +:+ l))
           (sorted (dict_keys self)) buf.

(** The store operations of the specification. *)
Inductive op : Type :=
| OpSet (key : string) (v : value)
| OpRemove (key : string).

Definition apply (self : dict value) (o : op) : dict value :=
  match o with
  | OpSet k v => __setitem__ self k v
  | OpRemove k => drop self k
  end.

Definition run (ops : list op) : dict value := foldl apply __init__ ops.

(** The keys of the [KEY=VALUE] lines of [to_string], in the order in
    which they are written. *)
Definition emitted_keys (self : dict value) : list string :=
  sorted (dict_keys self).

(** The [KEY=VALUE] line of a key of the store. *)
Definition line_text (self : dict value) (key : string) : string :=
  match dict_get key self with
  | Some v => key +:+ "=" +:+ _quote_value (render_value v) +:+ nl
  | None => ""
  end.

End ConfigMap.

(** ** Route *)

Module Route.

Record t : Type := mk {
  _conf : dict value;
  last_idx : Z;
  has_set_default_ipv4 : bool;
  has_set_default_ipv6 : bool;
  _route_name : string;
  _base_sysconf_dir : string;
}.

Definition __init__ (route_name base_sysconf_dir : string) : t :=
  {| _conf := ConfigMap.__init__;
     last_idx := 1;
     has_set_default_ipv4 := false;
     has_set_default_ipv6 := false;
     _route_name := route_name;
     _base_sysconf_dir := base_sysconf_dir |}.

Definition set_conf (self : t) (conf : dict value) : t :=
  {| _conf := conf;
     last_idx := last_idx self;
     has_set_default_ipv4 := has_set_default_ipv4 self;
     has_set_default_ipv6 := has_set_default_ipv6 self;
     _route_name := _route_name self;
     _base_sysconf_dir := _base_sysconf_dir self |}.

Definition set_last_idx (self : t) (i : Z) : t :=
  {| _conf := _conf self;
     last_idx := i;
     has_set_default_ipv4 := has_set_default_ipv4 self;
     has_set_default_ipv6 := has_set_default_ipv6 self;
     _route_name := _route_name self;
     _base_sysconf_dir := _base_sysconf_dir self |}.

Definition set_has_set_default_ipv4 (self : t) (b : bool) : t :=
  {| _conf := _conf self;
     last_idx := last_idx self;
     has_set_default_ipv4 := b;
     has_set_default_ipv6 := has_set_default_ipv6 self;
     _route_name := _route_name self;
     _base_sysconf_dir := _base_sysconf_dir self |}.

Definition set_has_set_default_ipv6 (self : t) (b : bool) : t :=
  {| _conf := _conf self;
     last_idx := last_idx self;
     has_set_default_ipv4 := has_set_default_ipv4 self;
     has_set_default_ipv6 := b;
     _route_name := _route_name self;
     _base_sysconf_dir := _base_sysconf_dir self |}.

Definition __setitem__ (self : t) (key : string) (v : value) : t :=
  set_conf self (ConfigMap.__setitem__ (_conf self) key v).

Definition __len__ (self : t) : nat := ConfigMap.__len__ (_conf self).

Definition copy (self : t) : t :=
  let r := __init__ (_route_name self) (_base_sysconf_dir self) in
  let r := set_conf r (_conf self) in
  let r := set_last_idx r (last_idx self) in
  let r := set_has_set_default_ipv4 r (has_set_default_ipv4 self) in
  set_has_set_default_ipv6 r (has_set_default_ipv6 self).

Definition path_ipv4 (self : t) : string :=
  _base_sysconf_dir self +:+ "/network-scripts/route-" +:+ _route_name self.

Definition path_ipv6 (self : t) : string :=
  _base_sysconf_dir self +:+ "/network-scripts/route6-" +:+ _route_name self.

Definition is_ipv6_route (address : string) : bool :=
  str_contains ":" address.

(** One turn of the loop of [to_string] over the sorted keys; the state
    is the buffer and [reindex]. *)
Definition to_string_step (conf : dict value) (proto : string)
    (st : string * Z) (key : string) : result (string * Z) :=
  let '(buf, reindex) := st in
  if str_contains "ADDRESS" key then
    let index := str_replace "ADDRESS" "" key in
    let* address := dict_getitem key conf in
    let address_value := py_str address in
    if String.eqb proto "ipv4" && negb (is_ipv6_route address_value) then
      let* netmask := dict_getitem ("NETMASK" +:+ index) conf in
      let netmask_value := py_str netmask in
      let* gateway := dict_getitem ("GATEWAY" +:+ index) conf in
      let gateway_value := py_str gateway in
      let reindex := (reindex + 1)%Z in
      let buf := buf +:+ "ADDRESS" +:+ pretty reindex +:+ "="
                     +:+ _quote_value address_value +:+ nl in
      let buf := buf +:+ "GATEWAY" +:+ pretty reindex +:+ "="
                     +:+ _quote_value gateway_value +:+ nl in
      let buf := buf +:+ "NETMASK" +:+ pretty reindex +:+ "="
                     +:+ _quote_value netmask_value +:+ nl in
      Ok (buf, reindex)
    else if String.eqb proto "ipv6" && is_ipv6_route address_value then
      let* netmask := dict_getitem ("NETMASK" +:+ index) conf in
      let netmask_value := py_str netmask in
      let* gateway := dict_getitem ("GATEWAY" +:+ index) conf in
      let gateway_value := py_str gateway in
      Ok (buf +:+ address_value +:+ "/" +:+ netmask_value +:+ " via "
              +:+ gateway_value +:+ nl, reindex)
    else Ok (buf, reindex)
  else Ok (buf, reindex).

Definition to_string (self : t) (proto : string) : result string :=
  if negb (bool_decide (proto ∈ ["ipv4"; "ipv6"])) then
    Raise (ValueError ("Unknown protocol '" +:+ proto +:+ "'"))
  else
    let buf := _make_header "#" in
    let buf := if bool_decide (_conf self ≠ []) then buf +:+ nl else buf in
    let* (buf, _) :=
      for_each (to_string_step (_conf self) proto)
               (sorted (dict_keys (_conf self))) (buf, (-1)%Z) in
    Ok buf.

(** The text that the specification gives for [to_string]: the keys that
    contain [ADDRESS], in ascending order; those whose address is of the
    family asked for; for IPv4 three lines per key, numbered from 0 in
    that order; for IPv6 one line per key. *)
Definition index_of (key : string) : string := str_replace "ADDRESS" "" key.

Definition text_of (conf : dict value) (key : string) : string :=
  match dict_get key conf with
  | Some v => py_str v
  | None => ""
  end.

Definition address_keys (conf : dict value) : list string :=
  List.filter (str_contains "ADDRESS") (sorted (dict_keys conf)).

(** An address with a colon among its characters. *)
Definition has_colon (address : string) : bool :=
  existsb (Ascii.eqb ":") (String.list_ascii_of_string address).

Definition is_ipv6_entry (conf : dict value) (key : string) : bool :=
  has_colon (text_of conf key).

Definition ipv4_keys (conf : dict value) : list string :=
  List.filter (λ key, negb (is_ipv6_entry conf key)) (address_keys conf).

Definition ipv6_keys (conf : dict value) : list string :=
  List.filter (is_ipv6_entry conf) (address_keys conf).

(** The entry of [key] has its netmask and its gateway. *)
Definition complete (conf : dict value) (key : string) : Prop :=
  is_Some (dict_get ("NETMASK" +:+ index_of key) conf)
  ∧ is_Some (dict_get ("GATEWAY" +:+ index_of key) conf).

Fixpoint enumerate {A : Type} (start : Z) (items : list A) : list (Z * A) :=
  match items with
  | [] => []
  | x :: rest => (start, x) :: enumerate (start + 1) rest
  end.

Definition ipv4_lines (conf : dict value) (entry : Z * string) : string :=
  let '(i, key) := entry in
  "ADDRESS" +:+ pretty i +:+ "=" +:+ _quote_value (text_of conf key) +:+ nl
  +:+ "GATEWAY" +:+ pretty i +:+ "="
  +:+ _quote_value (text_of conf ("GATEWAY" +:+ index_of key)) +:+ nl
  +:+ "NETMASK" +:+ pretty i +:+ "="
  +:+ _quote_value (text_of conf ("NETMASK" +:+ index_of key)) +:+ nl.

Definition ipv6_line (conf : dict value) (key : string) : string :=
  text_of conf key +:+ "/" +:+ text_of conf ("NETMASK" +:+ index_of key)
  +:+ " via " +:+ text_of conf ("GATEWAY" +:+ index_of key) +:+ nl.

Definition preamble (conf : dict value) : string :=
  _make_header "#" +:+ (if bool_decide (conf ≠ []) then nl else "").

Definition serialize_ipv4 (conf : dict value) : string :=
  preamble conf
  +:+ str_concat (ipv4_lines conf <$> enumerate 0 (ipv4_keys conf)).

Definition serialize_ipv6 (conf : dict value) : string :=
  preamble conf +:+ str_concat (ipv6_line conf <$> ipv6_keys conf).

End Route.

(** ** NetInterface *)

Module NetInterface.

#[local] Set Warnings "-register-all".

Inductive t : Type := mk {
  _conf : dict value;
  children : list t;
  routes : Route.t;
  _kind : string;
  _iface_name : string;
  _base_sysconf_dir : string;
}.

Definition iface_types : dict string :=
  [("ethernet", "Ethernet"); ("bond", "Bond"); ("bridge", "Bridge")].

Definition set_conf (self : t) (conf : dict value) : t :=
  mk conf (children self) (routes self) (_kind self) (_iface_name self)
     (_base_sysconf_dir self).

Definition set_routes (self : t) (r : Route.t) : t :=
  mk (_conf self) (children self) r (_kind self) (_iface_name self)
     (_base_sysconf_dir self).

Definition set_children (self : t) (cs : list t) : t :=
  mk (_conf self) cs (routes self) (_kind self) (_iface_name self)
     (_base_sysconf_dir self).

Definition __setitem__ (self : t) (key : string) (v : value) : t :=
  set_conf self (ConfigMap.__setitem__ (_conf self) key v).

Definition __getitem__ (self : t) (key : string) : result value :=
  ConfigMap.__getitem__ (_conf self) key.

Definition drop (self : t) (key : string) : t :=
  set_conf self (ConfigMap.drop (_conf self) key).

Definition __len__ (self : t) : nat := ConfigMap.__len__ (_conf self).

Definition to_string (self : t) : result string :=
  ConfigMap.to_string (_conf self).

Definition name (self : t) : string := _iface_name self.

(** The setter of the property [name]. *)
Definition set_name (self : t) (iface_name : string) : t :=
  let self := mk (_conf self) (children self) (routes self) (_kind self)
                 iface_name (_base_sysconf_dir self) in
  __setitem__ self "DEVICE" (VStr iface_name).

Definition kind (self : t) : string := _kind self.

(** The setter of the property [kind]. *)
Definition set_kind (self : t) (kind : string) : result t :=
  match dict_get kind iface_types with
  | None => Raise (ValueError kind)
  | Some label =>
      let self := mk (_conf self) (children self) (routes self) kind
                     (_iface_name self) (_base_sysconf_dir self) in
      Ok (__setitem__ self "TYPE" (VStr label))
  end.

(** The attributes [_kind], [_iface_name] and [_base_sysconf_dir] do not
    exist before the constructor assigns them; the empty string stands for
    them until then and is never read. *)
Definition __init__ (iface_name base_sysconf_dir kind : string) : result t :=
  let self := mk ConfigMap.__init__ []
                 (Route.__init__ iface_name base_sysconf_dir) "" "" "" in
  let* self := set_kind self kind in
  let self := mk (_conf self) (children self) (routes self) (_kind self)
                 iface_name (_base_sysconf_dir self) in
  let self := __setitem__ self "DEVICE" (VStr iface_name) in
  Ok (mk (_conf self) (children self) (routes self) (_kind self)
         (_iface_name self) base_sysconf_dir).

Definition path (self : t) : string :=
  _base_sysconf_dir self +:+ "/network-scripts/ifcfg-" +:+ name self.

Definition copy (self : t) (copy_children copy_routes : bool) : result t :=
  let* c := __init__ (name self) (_base_sysconf_dir self) (_kind self) in
  let c := set_conf c (_conf self) in
  let c := if copy_children then set_children c (children self) else c in
  let c := if copy_routes then set_routes c (Route.copy (routes self))
           else c in
  Ok c.

(** The operations on an interface configuration: the two property
    setters and the item assignment and removal it inherits. *)
Inductive op : Type :=
| SetKind (kind : string)
| SetName (iface_name : string)
| SetItem (key : string) (v : value)
| Drop (key : string).

(** An operation that raises leaves the object as it was. *)
Definition apply (self : t) (o : op) : t :=
  match o with
  | SetKind k => match set_kind self k with Ok s => s | Raise _ => self end
  | SetName n => set_name self n
  | SetItem k v => __setitem__ self k v
  | Drop k => drop self k
  end.

Definition valid_kind (kind : string) : Prop :=
  kind ∈ ["ethernet"; "bond"; "bridge"].

(** The label of a kind: Ethernet, Bond or Bridge. *)
Definition label_of (kind : string) : option string :=
  if String.eqb kind "ethernet" then Some "Ethernet"
  else if String.eqb kind "bond" then Some "Bond"
  else if String.eqb kind "bridge" then Some "Bridge"
  else None.

(** [TYPE] holds the label of the current kind and [DEVICE] holds the
    current name. *)
Definition mirrors (self : t) : Prop :=
  (∃ label, label_of (kind self) = Some label
            ∧ dict_get "TYPE" (_conf self) = Some (VStr label))
  ∧ dict_get "DEVICE" (_conf self) = Some (VStr (name self)).

(** Item assignment or removal aimed at [TYPE] or [DEVICE], the two keys
    that the setters own. *)
Definition writes_own_key (o : op) : bool :=
  match o with
  | SetItem k _ | Drop k => bool_decide (k = "TYPE" ∨ k = "DEVICE")
  | _ => false
  end.

End NetInterface.

(** ** The network state handed to the renderer

    Subnets, routes and interfaces are dictionaries in the source; a field
    is [None] when the key is missing.  [type] and [address] are the
    strings that the renderer takes them to be; the other fields are
    whatever scalar the network state carries. *)

Record route : Type := mk_route {
  rt_network : option value;
  rt_netmask : option value;
  rt_gateway : option value;
}.

Record subnet : Type := mk_subnet {
  sn_type : option string;
  sn_address : option string;
  sn_netmask : option value;
  sn_ipv4 : option value;
  sn_ipv6 : option value;
  sn_routes : option (list route);
}.

Record iface : Type := mk_iface {
  if_name : string;
  if_mac_address : option value;
  if_mtu : option value;
  if_subnets : option (list subnet);
}.

(** [d[key]] on one of these records. *)
Definition field {A : Type} (key : string) (o : option A) : result A :=
  match o with
  | Some a => Ok a
  | None => Raise (KeyError key)
  end.

Definition _subnet_is_ipv6 (sn : subnet) : result bool :=
  let* ty := field "type" (sn_type sn) in
  if endswith "6" ty then Ok true
  else if String.eqb ty "static" then
    let* address := field "address" (sn_address sn) in
    if str_contains ":" address then Ok true else Ok false
  else Ok false.

Definition _is_default_route (r : route) : result bool :=
  let* network := field "network" (rt_network r) in
  let* first :=
    if py_eq network (VStr "::") then
      let* netmask := field "netmask" (rt_netmask r) in
      Ok (py_eq netmask (VInt 0))
    else Ok false in
  if first then Ok true
  else
    let* second :=
      if py_eq network (VStr "0.0.0.0") then
        let* netmask := field "netmask" (rt_netmask r) in
        Ok (py_eq netmask (VStr "0.0.0.0"))
      else Ok false in
    if second then Ok true else Ok false.

(** The canonical all-zeros route of a family: [0.0.0.0] with the netmask
    [0.0.0.0], or [::] with a netmask equal to the number 0. *)
Definition canonical_default (r : route) : Prop :=
  (rt_network r = Some (VStr "::")
   ∧ ∃ nm, rt_netmask r = Some nm ∧ py_eq nm (VInt 0) = true)
  ∨ (rt_network r = Some (VStr "0.0.0.0")
     ∧ rt_netmask r = Some (VStr "0.0.0.0")).

(** ** Renderer *)

Module Renderer.

Definition iface_defaults : list (string * value) :=
  [("ONBOOT", VBool false); ("USERCTL", VBool false);
   ("BOOTPROTO", VStr "none")].

Definition _render_iface_shared (ifc : iface) (iface_cfg : NetInterface.t)
  : NetInterface.t :=
  let iface_cfg :=
    foldl (λ cfg kv, NetInterface.__setitem__ cfg kv.1 kv.2)
          iface_cfg iface_defaults in
  foldl (λ cfg (p : option value * string),
           match p.1 with
           | Some old_value =>
               if bool_decide (old_value ≠ VNone)
               then NetInterface.__setitem__ cfg p.2 old_value
               else cfg
           | None => cfg
           end)
        iface_cfg
        [(if_mac_address ifc, "HWADDR"); (if_mtu ifc, "MTU")].

Definition unknown_subnet_type (sn : subnet) (iface_cfg : NetInterface.t)
  : exn :=
  ValueError ("Unknown subnet type '"
              +:+ match sn_type sn with Some ty => ty | None => "None" end
              +:+ "' found for interface '"
              +:+ NetInterface.name iface_cfg +:+ "'").

(** The subnet types that the renderer knows. *)
Definition known_subnet_type (sn : subnet) : bool :=
  bool_decide (sn_type sn ∈ [Some "dhcp6"; Some "dhcp4"; Some "dhcp";
                             Some "static"]).

(** A static subnet of a validated network state carries its address. *)
Definition static_has_address (sn : subnet) : Prop :=
  sn_type sn = Some "static" → is_Some (sn_address sn).

(** The first loop of [_render_subnets]: the base values. *)
Definition subnet_base (iface_cfg : NetInterface.t) (sn : subnet)
  : result NetInterface.t :=
  let subnet_type := sn_type sn in
  if bool_decide (subnet_type = Some "dhcp6") then
    let iface_cfg := NetInterface.__setitem__ iface_cfg "IPV6INIT"
                       (VBool true) in
    let iface_cfg := NetInterface.__setitem__ iface_cfg "DHCPV6C"
                       (VBool true) in
    Ok (NetInterface.__setitem__ iface_cfg "BOOTPROTO" (VStr "none"))
  else if bool_decide (subnet_type ∈ [Some "dhcp4"; Some "dhcp"]) then
    Ok (NetInterface.__setitem__ iface_cfg "BOOTPROTO" (VStr "none"))
  else if bool_decide (subnet_type = Some "static") then
    let* is6 := _subnet_is_ipv6 sn in
    if is6 then Ok (NetInterface.__setitem__ iface_cfg "IPV6INIT"
                      (VBool true))
    else Ok iface_cfg
  else Raise (unknown_subnet_type sn iface_cfg).

(** The text that an IPv6 static subnet contributes: the address, followed
    by [/] and the netmask when the subnet has a netmask whose string is
    not empty. *)
Definition ipv6_cidr (sn : subnet) : result string :=
  let has_netmask :=
    match sn_netmask sn with
    | Some nm => negb (String.eqb (py_str nm) "")
    | None => false
    end in
  if has_netmask then
    let* address := field "address" (sn_address sn) in
    let* nm := field "netmask" (sn_netmask sn) in
    Ok (address +:+ "/" +:+ py_str nm)
  else field "address" (sn_address sn).

(** [a + b] where [b] is a string. *)
Definition add_str (a : value) (b : string) : result string :=
  match a with
  | VStr s => Ok (s +:+ b)
  | _ => Raise (TypeError "unsupported operand type(s) for +")
  end.

(** The second loop of [_render_subnets]: the static addresses.  The state
    is the interface configuration with [ipv4_index] and [ipv6_index]. *)
Definition subnet_static (st : NetInterface.t * Z * Z) (sn : subnet)
  : result (NetInterface.t * Z * Z) :=
  let '(iface_cfg, ipv4_index, ipv6_index) := st in
  let subnet_type := sn_type sn in
  if bool_decide (subnet_type = Some "dhcp6") then Ok st
  else if bool_decide (subnet_type ∈ [Some "dhcp4"; Some "dhcp"]) then Ok st
  else if bool_decide (subnet_type = Some "static") then
    let* is6 := _subnet_is_ipv6 sn in
    if is6 then
      let ipv6_index := (ipv6_index + 1)%Z in
      let* cidr := ipv6_cidr sn in
      if (ipv6_index =? 0)%Z then
        Ok (NetInterface.__setitem__ iface_cfg "IPV6ADDR" (VStr cidr),
            ipv4_index, ipv6_index)
      else if (ipv6_index =? 1)%Z then
        Ok (NetInterface.__setitem__ iface_cfg "IPV6ADDR_SECONDARIES"
              (VStr cidr), ipv4_index, ipv6_index)
      else
        let* old := NetInterface.__getitem__ iface_cfg
                      "IPV6ADDR_SECONDARIES" in
        let* old_sp := add_str old " " in
        Ok (NetInterface.__setitem__ iface_cfg "IPV6ADDR_SECONDARIES"
              (VStr (old_sp +:+ cidr)), ipv4_index, ipv6_index)
    else
      let ipv4_index := (ipv4_index + 1)%Z in
      if (ipv4_index =? 0)%Z then
        let* address := field "address" (sn_address sn) in
        let iface_cfg := NetInterface.__setitem__ iface_cfg "IPADDR"
                           (VStr address) in
        match sn_netmask sn with
        | Some nm =>
            Ok (NetInterface.__setitem__ iface_cfg "NETMASK" nm,
                ipv4_index, ipv6_index)
        | None => Ok (iface_cfg, ipv4_index, ipv6_index)
        end
      else
        let* address := field "address" (sn_address sn) in
        let iface_cfg := NetInterface.__setitem__ iface_cfg
                           ("IPADDR" +:+ pretty ipv4_index)
                           (VStr address) in
        match sn_netmask sn with
        | Some nm =>
            Ok (NetInterface.__setitem__ iface_cfg
                  ("NETMASK" +:+ pretty ipv4_index) nm,
                ipv4_index, ipv6_index)
        | None => Ok (iface_cfg, ipv4_index, ipv6_index)
        end
  else Ok st.

Definition _render_subnets (iface_cfg : NetInterface.t)
    (subnets : list subnet) : result NetInterface.t :=
  let iface_cfg := NetInterface.__setitem__ iface_cfg "BOOTPROTO"
                     (VStr "none") in
  let* iface_cfg := for_each subnet_base subnets iface_cfg in
  let* (iface_cfg, _, _) :=
    for_each subnet_static subnets (iface_cfg, (-1)%Z, (-1)%Z) in
  Ok iface_cfg.

(** What the specification says of the static addresses: the static
    subnets of each family in the order of the list, the key of the n-th
    IPv4 one, and the text of an IPv6 one. *)
Definition is_static (sn : subnet) : bool :=
  bool_decide (sn_type sn = Some "static").

Definition address_text (sn : subnet) : string := default "" (sn_address sn).

Definition is_ipv6_static (sn : subnet) : bool :=
  is_static sn && str_contains ":" (address_text sn).

Definition is_ipv4_static (sn : subnet) : bool :=
  is_static sn && negb (str_contains ":" (address_text sn)).

Definition static_ipv4 (subnets : list subnet) : list subnet :=
  List.filter is_ipv4_static subnets.

Definition static_ipv6 (subnets : list subnet) : list subnet :=
  List.filter is_ipv6_static subnets.

(** [stem] for the first, [stem1], [stem2], ... for the following. *)
Definition numbered (stem : string) (n : nat) : string :=
  match n with
  | O => stem
  | S _ => stem +:+ pretty (Z.of_nat n)
  end.

(** [address/prefixlen], or the bare address without a netmask. *)
Definition cidr_text (sn : subnet) : string :=
  match sn_netmask sn with
  | Some nm =>
      if String.eqb (py_str nm) "" then address_text sn
      else address_text sn +:+ "/" +:+ py_str nm
  | None => address_text sn
  end.

Definition static_addresses_written (subnets : list subnet)
    (conf : dict value) : Prop :=
  (∀ n sn, static_ipv4 subnets !! n = Some sn →
     dict_get (numbered "IPADDR" n) conf = Some (VStr (address_text sn))
     ∧ ∀ nm, sn_netmask sn = Some nm →
             dict_get (numbered "NETMASK" n) conf = Some nm)
  ∧ (∀ sn, static_ipv6 subnets !! 0 = Some sn →
       dict_get "IPV6ADDR" conf = Some (VStr (cidr_text sn)))
  ∧ (∀ sn rest, static_ipv6 subnets = sn :: rest → rest ≠ [] →
       dict_get "IPV6ADDR_SECONDARIES" conf
       = Some (VStr (str_join " " (cidr_text <$> rest)))).

Definition duplicate_default_route (iface_cfg : NetInterface.t) : exn :=
  ValueError ("Duplicate declaration of default route found for interface '"
              +:+ NetInterface.name iface_cfg +:+ "'").

(** The condition under which a default route is refused. *)
Definition is_duplicate_default (sn : subnet) (route_cfg : Route.t) : bool :=
  (opt_truthy (sn_ipv4 sn) && Route.has_set_default_ipv4 route_cfg)
  || (opt_truthy (sn_ipv6 sn) && Route.has_set_default_ipv6 route_cfg).

(** The body of the inner loop of [_render_subnet_routes]: one route of
    one subnet, against the interface configuration and its route
    table. *)
Definition render_route (sn : subnet) (st : NetInterface.t * Route.t)
    (r : route) : result (NetInterface.t * Route.t) :=
  let '(iface_cfg, route_cfg) := st in
  let is_ipv6 := opt_truthy (sn_ipv6 sn) in
  let* is_default := _is_default_route r in
  if is_default then
    if is_duplicate_default sn route_cfg
    then Raise (duplicate_default_route iface_cfg)
    else
      let iface_cfg := NetInterface.__setitem__ iface_cfg "DEFROUTE"
                         (VBool true) in
      match rt_gateway r with
      | Some gateway =>
          if is_ipv6 then
            Ok (NetInterface.__setitem__ iface_cfg "IPV6_DEFAULTGW" gateway,
                Route.set_has_set_default_ipv6 route_cfg true)
          else
            Ok (NetInterface.__setitem__ iface_cfg "GATEWAY" gateway,
                Route.set_has_set_default_ipv4 route_cfg true)
      | None => Ok (iface_cfg, route_cfg)
      end
  else
    let gw_key := "GATEWAY" +:+ pretty (Route.last_idx route_cfg) in
    let nm_key := "NETMASK" +:+ pretty (Route.last_idx route_cfg) in
    let addr_key := "ADDRESS" +:+ pretty (Route.last_idx route_cfg) in
    let route_cfg :=
      Route.set_last_idx route_cfg (Route.last_idx route_cfg + 1) in
    let route_cfg :=
      foldl (λ cfg (p : option value * string),
               match p.1 with
               | Some v => Route.__setitem__ cfg p.2 v
               | None => cfg
               end)
            route_cfg
            [(rt_gateway r, gw_key); (rt_netmask r, nm_key);
             (rt_network r, addr_key)] in
    Ok (iface_cfg, route_cfg).

Definition subnet_routes (sn : subnet) : list route :=
  default [] (sn_routes sn).

Definition _render_subnet_routes (iface_cfg : NetInterface.t)
    (route_cfg : Route.t) (subnets : list subnet)
  : result (NetInterface.t * Route.t) :=
  for_each (λ st sn, for_each (render_route sn) (subnet_routes sn) st)
           subnets (iface_cfg, route_cfg).

(** The body of the loop of [_render_physical_interfaces] for the
    interface [ifc], whose configuration is [iface_cfg]; [route_cfg] is
    the route table that [iface_cfg] owns, written back when both calls
    have returned. *)
Definition render_physical (ifc : iface) (iface_cfg : NetInterface.t)
  : result NetInterface.t :=
  let iface_subnets := default [] (if_subnets ifc) in
  let route_cfg := NetInterface.routes iface_cfg in
  let* iface_cfg := _render_subnets iface_cfg iface_subnets in
  let* (iface_cfg, route_cfg) :=
    _render_subnet_routes iface_cfg route_cfg iface_subnets in
  Ok (NetInterface.set_routes iface_cfg route_cfg).

(** The collection loop that ends [_render_sysconfig], for one item of
    [iface_contents].  The inner loop over the children rebinds
    [iface_cfg], so that the route table read afterwards is the one of the
    last child when there are children. *)
Definition collect_child (contents : dict string) (child : NetInterface.t)
  : result (dict string) :=
  if negb (NetInterface.__len__ child =? 0)%nat then
    let* text := NetInterface.to_string child in
    Ok (dict_set (NetInterface.path child) text contents)
  else Ok contents.

Definition collect_iface (contents : dict string)
    (item : string * NetInterface.t) : result (dict string) :=
  let iface_cfg := item.2 in
  let* (contents, iface_cfg) :=
    if negb (NetInterface.__len__ iface_cfg =? 0)%nat
       || bool_decide (NetInterface.children iface_cfg ≠ [])
    then
      let* text := NetInterface.to_string iface_cfg in
      let contents := dict_set (NetInterface.path iface_cfg) text contents in
      let* contents :=
        for_each collect_child (NetInterface.children iface_cfg) contents in
      Ok (contents,
          List.last (NetInterface.children iface_cfg) iface_cfg)
    else Ok (contents, iface_cfg) in
  if negb (Route.__len__ (NetInterface.routes iface_cfg) =? 0)%nat then
    let* text4 := Route.to_string (NetInterface.routes iface_cfg) "ipv4" in
    let contents :=
      dict_set (Route.path_ipv4 (NetInterface.routes iface_cfg)) text4
               contents in
    let* text6 := Route.to_string (NetInterface.routes iface_cfg) "ipv6" in
    Ok (dict_set (Route.path_ipv6 (NetInterface.routes iface_cfg)) text6
                 contents)
  else Ok contents.

Definition collect (iface_contents : dict NetInterface.t)
  : result (dict string) :=
  for_each collect_iface iface_contents [].

(** The first loop of [_render_sysconfig], for one interface of the
    network state. *)
Definition new_iface_cfg (base_sysconf_dir : string) (ifc : iface)
  : result NetInterface.t :=
  let* iface_cfg := NetInterface.__init__ (if_name ifc) base_sysconf_dir
                      "ethernet" in
  Ok (_render_iface_shared ifc iface_cfg).

(** What the passes leave alone: the name, the directory and the children
    of an interface configuration, the name and the directory of a route
    table. *)
Definition same_interface (a b : NetInterface.t) : Prop :=
  NetInterface.name a = NetInterface.name b
  ∧ NetInterface._base_sysconf_dir a = NetInterface._base_sysconf_dir b
  ∧ NetInterface.children a = NetInterface.children b.

Definition same_table (a b : Route.t) : Prop :=
  Route._route_name a = Route._route_name b
  ∧ Route._base_sysconf_dir a = Route._base_sysconf_dir b.

(** An item of [iface_contents] as [_render_sysconfig] builds it: the
    configuration is the [NetInterface(iface_name, base_sysconf_dir)]
    stored under [iface_name], to which no pass gives children or another
    name. *)
Definition built_for (base : string) (item : string * NetInterface.t)
  : Prop :=
  NetInterface.name item.2 = item.1
  ∧ NetInterface._base_sysconf_dir item.2 = base
  ∧ NetInterface.children item.2 = []
  ∧ Route._route_name (NetInterface.routes item.2) = item.1
  ∧ Route._base_sysconf_dir (NetInterface.routes item.2) = base.

Definition working_set (base : string)
    (iface_contents : dict NetInterface.t) : Prop :=
  dict_wf iface_contents ∧ Forall (built_for base) iface_contents.

(** Both route files of an item can be written. *)
Definition routes_serializable (item : string * NetInterface.t) : Prop :=
  is_Some (returned (Route.to_string (NetInterface.routes item.2) "ipv4"))
  ∧ is_Some (returned (Route.to_string (NetInterface.routes item.2) "ipv6")).

End Renderer.

(** ** The passes over bonds, VLANs and bridges

    The interfaces that [network_state.iter_interfaces] yields for a filter
    are the input of each pass.  An interface is again a dictionary; the
    records below have the keys that the pass reads.  A configuration is
    reached through [iface_contents] only: a pass reads it under its name,
    updates it and stores it back under that name. *)

(** [s.rfind(needle)]: the index of the last occurrence, or -1. *)
Fixpoint str_rfind_go (needle s : string) (i last : Z) : Z :=
  let last := if String.prefix needle s then i else last in
  match s with
  | EmptyString => last
  | String _ s' => str_rfind_go needle s' (i + 1)%Z last
  end.

Definition str_rfind (needle s : string) : Z :=
  str_rfind_go needle s 0%Z (-1)%Z.

(** [s[:n]]: a negative [n] counts from the end. *)
Definition str_slice_to (s : string) (n : Z) : string :=
  let len := Z.of_nat (String.length s) in
  let stop := if (n <? 0)%Z then Z.max 0 (len + n) else Z.min n len in
  String.substring 0 (Z.to_nat stop) s.

(** The value of a bonding option: a scalar, or a tuple or list of
    strings. *)
Inductive bond_value : Type :=
| BScalar (v : value)
| BSeq (items : list string).

Record bond_iface : Type := mk_bond_iface {
  bi_name : string;
  bi_bond_master : option string;
  bi_opts : dict bond_value;
}.

Record bridge_iface : Type := mk_bridge_iface {
  br_name : string;
  br_opts : dict value;
  br_ports : option (list string);
}.

Module Passes.

(** The templates end in [%s]; the text before it stands for each. *)
Definition bond_tpl_opts : list (string * string) :=
  [("bond_mode", "mode="); ("bond_xmit_hash_policy", "xmit_hash_policy=");
   ("bond_miimon", "miimon=")].

Definition bridge_opts_keys : list (string * string) :=
  [("bridge_stp", "STP"); ("bridge_ageing", "AGEING");
   ("bridge_bridgeprio", "PRIO")].

(** The inner loop of [_render_bonding_opts]: the value of the first of
    [bond_keys] that the interface has. *)
Fixpoint first_present (bond_keys : list string) (opts : dict bond_value)
  : option bond_value :=
  match bond_keys with
  | [] => None
  | bond_key :: rest =>
      match dict_get bond_key opts with
      | Some bond_value => Some bond_value
      | None => first_present rest opts
      end
  end.

(** [value_tpl % (bond_value)], a tuple or list being joined first. *)
Definition bond_opt_text (tpl : string) (bond_value : bond_value) : string :=
  match bond_value with
  | BSeq items => tpl +:+ str_join " " items
  | BScalar v => tpl +:+ py_str v
  end.

Definition bond_opts_of (opts : dict bond_value) : list string :=
  foldl (λ bond_opts (entry : string * string),
           let bond_keys := [entry.1; str_replace "_" "-" entry.1] in
           match first_present bond_keys opts with
           | Some bond_value => bond_opts ++ [bond_opt_text entry.2 bond_value]
           | None => bond_opts
           end)
        [] bond_tpl_opts.

Definition _render_bonding_opts (iface_cfg : NetInterface.t)
    (ifc : bond_iface) : NetInterface.t :=
  let bond_opts := bond_opts_of (bi_opts ifc) in
  if bool_decide (bond_opts ≠ [])
  then NetInterface.__setitem__ iface_cfg "BONDING_OPTS"
         (VStr (str_join " " bond_opts))
  else iface_cfg.

(** What the bond pass does to the master and to each of its children. *)
Definition mark_bond_master (master_cfg : NetInterface.t)
  : result NetInterface.t :=
  let master_cfg := NetInterface.__setitem__ master_cfg "BONDING_MASTER"
                      (VBool true) in
  NetInterface.set_kind master_cfg "bond".

Fixpoint mark_all (mark : NetInterface.t → result NetInterface.t)
    (cfgs : list NetInterface.t) : result (list NetInterface.t) :=
  match cfgs with
  | [] => Ok []
  | cfg :: rest =>
      let* cfg := mark cfg in
      let* rest := mark_all mark rest in
      Ok (cfg :: rest)
  end.

(** The body of the loop of [_render_bond_interfaces]. *)
Definition render_bond (iface_contents : dict NetInterface.t)
    (ifc : bond_iface) : result (dict NetInterface.t) :=
  let iface_name := bi_name ifc in
  let* iface_cfg := dict_getitem iface_name iface_contents in
  let iface_cfg := _render_bonding_opts iface_cfg ifc in
  let* iface_master_name := field "bond-master" (bi_bond_master ifc) in
  let iface_cfg := NetInterface.__setitem__ iface_cfg "MASTER"
                     (VStr iface_master_name) in
  let iface_cfg := NetInterface.__setitem__ iface_cfg "SLAVE" (VBool true) in
  let iface_contents := dict_set iface_name iface_cfg iface_contents in
  let* master_cfg := dict_getitem iface_master_name iface_contents in
  let* master_cfg := mark_bond_master master_cfg in
  let* children := mark_all mark_bond_master
                     (NetInterface.children master_cfg) in
  Ok (dict_set iface_master_name
        (NetInterface.set_children master_cfg children) iface_contents).

Definition _render_bond_interfaces (bonds : list bond_iface)
    (iface_contents : dict NetInterface.t) : result (dict NetInterface.t) :=
  for_each render_bond bonds iface_contents.

(** The body of the loop of [_render_vlan_interfaces]. *)
Definition render_vlan (iface_contents : dict NetInterface.t)
    (iface_name : string) : result (dict NetInterface.t) :=
  let* iface_cfg := dict_getitem iface_name iface_contents in
  let iface_cfg := NetInterface.__setitem__ iface_cfg "VLAN" (VBool true) in
  let iface_cfg :=
    NetInterface.__setitem__ iface_cfg "PHYSDEV"
      (VStr (str_slice_to iface_name (str_rfind "." iface_name))) in
  Ok (dict_set iface_name iface_cfg iface_contents).

Definition _render_vlan_interfaces (vlans : list string)
    (iface_contents : dict NetInterface.t) : result (dict NetInterface.t) :=
  for_each render_vlan vlans iface_contents.

(** What the bridge pass does to a port and to each of its children. *)
Definition mark_bridged (iface_name : string) (bridge_cfg : NetInterface.t)
  : result NetInterface.t :=
  Ok (NetInterface.__setitem__ bridge_cfg "BRIDGE" (VStr iface_name)).

Definition render_bridge_port (iface_name : string)
    (iface_contents : dict NetInterface.t) (bridged_iface_name : string)
  : result (dict NetInterface.t) :=
  let* bridged_cfg := dict_getitem bridged_iface_name iface_contents in
  let* bridged_cfg := mark_bridged iface_name bridged_cfg in
  let* children := mark_all (mark_bridged iface_name)
                     (NetInterface.children bridged_cfg) in
  Ok (dict_set bridged_iface_name
        (NetInterface.set_children bridged_cfg children) iface_contents).

(** The body of the loop of [_render_bridge_interfaces]. *)
Definition render_bridge (iface_contents : dict NetInterface.t)
    (ifc : bridge_iface) : result (dict NetInterface.t) :=
  let iface_name := br_name ifc in
  let* iface_cfg := dict_getitem iface_name iface_contents in
  let* iface_cfg := NetInterface.set_kind iface_cfg "bridge" in
  let iface_cfg :=
    foldl (λ cfg (entry : string * string),
             match dict_get entry.1 (br_opts ifc) with
             | Some v => NetInterface.__setitem__ cfg entry.2 v
             | None => cfg
             end)
          iface_cfg bridge_opts_keys in
  let iface_contents := dict_set iface_name iface_cfg iface_contents in
  for_each (render_bridge_port iface_name) (default [] (br_ports ifc))
           iface_contents.

Definition _render_bridge_interfaces (bridges : list bridge_iface)
    (iface_contents : dict NetInterface.t) : result (dict NetInterface.t) :=
  for_each render_bridge bridges iface_contents.

(** The body of the first loop of [_render_sysconfig]. *)
Definition init_iface (base_sysconf_dir : string)
    (iface_contents : dict NetInterface.t) (ifc : iface)
  : result (dict NetInterface.t) :=
  let* iface_cfg := Renderer.new_iface_cfg base_sysconf_dir ifc in
  Ok (dict_set (if_name ifc) iface_cfg iface_contents).

(** The body of the loop of [_render_physical_interfaces]. *)
Definition physical_iface (iface_contents : dict NetInterface.t)
    (ifc : iface) : result (dict NetInterface.t) :=
  let iface_name := if_name ifc in
  let* iface_cfg := dict_getitem iface_name iface_contents in
  let* iface_cfg := Renderer.render_physical ifc iface_cfg in
  Ok (dict_set iface_name iface_cfg iface_contents).

Definition _render_physical_interfaces (physical : list iface)
    (iface_contents : dict NetInterface.t) : result (dict NetInterface.t) :=
  for_each physical_iface physical iface_contents.

(** [_render_sysconfig], with what [network_state.iter_interfaces] yields
    without a filter ([interfaces]) and for the filter of each pass. *)
Definition _render_sysconfig (base_sysconf_dir : string)
    (interfaces physical : list iface) (bonds : list bond_iface)
    (vlans : list string) (bridges : list bridge_iface)
  : result (dict string) :=
  let* iface_contents :=
    for_each (init_iface base_sysconf_dir) interfaces [] in
  let* iface_contents :=
    _render_physical_interfaces physical iface_contents in
  let* iface_contents := _render_bond_interfaces bonds iface_contents in
  let* iface_contents := _render_vlan_interfaces vlans iface_contents in
  let* iface_contents := _render_bridge_interfaces bridges iface_contents in
  Renderer.collect iface_contents.

End Passes.

(** ** The keys that each pass writes *)

Definition is_dhcp6 (sn : subnet) : bool :=
  bool_decide (sn_type sn = Some "dhcp6").

(** The subnets that turn [IPV6INIT] on. *)
Definition wants_ipv6 (sn : subnet) : bool :=
  is_dhcp6 sn || Renderer.is_ipv6_static sn.

(** The keys of the static addresses. *)
Definition static_key (key : string) : bool :=
  startswith "IPADDR" key || startswith "NETMASK" key
  || bool_decide (key ∈ ["IPV6ADDR"; "IPV6ADDR_SECONDARIES"]).

(** The keys of [_render_subnets]. *)
Definition subnet_key (key : string) : bool :=
  static_key key
  || bool_decide (key ∈ ["BOOTPROTO"; "IPV6INIT"; "DHCPV6C"]).

(** ** The routes of a list of subnets *)

(** What [_is_default_route] says of a route that it classifies. *)
Definition is_default (r : route) : bool :=
  match _is_default_route r with
  | Ok b => b
  | Raise _ => false
  end.

(** The routes in the order in which [_render_subnet_routes] meets them,
    each with its subnet. *)
Definition all_routes (subnets : list subnet) : list (subnet * route) :=
  flat_map (λ sn, List.map (pair sn) (Renderer.subnet_routes sn)) subnets.

(** Those that are not default routes, in the same order. *)
Definition indexed_routes (subnets : list subnet) : list route :=
  List.filter (λ r, negb (is_default r)) (List.map snd (all_routes subnets)).

(** The fields that [r] has are in [conf] under the index [i]. *)
Definition route_stored (r : route) (i : Z) (conf : dict value) : Prop :=
  (∀ v, rt_network r = Some v →
        dict_get ("ADDRESS" +:+ pretty i) conf = Some v)
  ∧ (∀ v, rt_netmask r = Some v →
          dict_get ("NETMASK" +:+ pretty i) conf = Some v)
  ∧ (∀ v, rt_gateway r = Some v →
          dict_get ("GATEWAY" +:+ pretty i) conf = Some v).

(** Every entry of a route table has its netmask and its gateway. *)
Definition entries_complete (conf : dict value) : Prop :=
  ∀ key, key ∈ dict_keys conf → str_contains "ADDRESS" key = true →
         Route.complete conf key.

(** The key that [to_string] looks up in vain for the entry [key]. *)
Definition missing_key (conf : dict value) (key : string) : option string :=
  match dict_get ("NETMASK" +:+ Route.index_of key) conf with
  | None => Some ("NETMASK" +:+ Route.index_of key)
  | Some _ =>
      match dict_get ("GATEWAY" +:+ Route.index_of key) conf with
      | None => Some ("GATEWAY" +:+ Route.index_of key)
      | Some _ => None
      end
  end.

(** The first such key over a list of entries. *)
Fixpoint first_missing (conf : dict value) (keys : list string)
  : option string :=
  match keys with
  | [] => None
  | key :: rest =>
      match missing_key conf key with
      | Some k => Some k
      | None => first_missing conf rest
      end
  end.

(** ** The bonding options, spelled out *)

(** The items of a list, with one space between two of them. *)
Definition spaced (items : list string) : string :=
  match items with
  | [] => ""
  | item :: rest => item +:+ str_concat (List.map (String.app " ") rest)
  end.

(** The text of the value of an option after its name and the equals
    sign: the items of a tuple or list with a space between them, the
    string of a scalar. *)
Definition option_text (name_eq : string) (bond_value : bond_value)
  : string :=
  match bond_value with
  | BSeq items => name_eq +:+ spaced items
  | BScalar (VStr s) => name_eq +:+ s
  | BScalar (VInt z) => name_eq +:+ pretty z
  | BScalar (VBool true) => name_eq +:+ "True"
  | BScalar (VBool false) => name_eq +:+ "False"
  | BScalar VNone => name_eq +:+ "None"
  end.

(** The text of one option: the spelling with underscores is looked up
    first, the spelling with hyphens next. *)
Definition bond_option (opts : dict bond_value)
    (underscore hyphen name_eq : string) : list string :=
  match dict_get underscore opts with
  | Some bond_value => [option_text name_eq bond_value]
  | None =>
      match dict_get hyphen opts with
      | Some bond_value => [option_text name_eq bond_value]
      | None => []
      end
  end.

Definition bonding_opts (opts : dict bond_value) : list string :=
  bond_option opts "bond_mode" "bond-mode" "mode="
  ++ bond_option opts "bond_xmit_hash_policy" "bond-xmit-hash-policy"
       "xmit_hash_policy="
  ++ bond_option opts "bond_miimon" "bond-miimon" "miimon=".

(** ** What a pass does to the working set *)

(** What every pass keeps of an interface configuration: its name, its
    directory, the absence of children, the name and the directory of its
    route table, and the agreement of [TYPE] and [DEVICE] with the kind
    and the name. *)
Definition evolves (a b : NetInterface.t) : Prop :=
  NetInterface.name b = NetInterface.name a
  ∧ NetInterface._base_sysconf_dir b = NetInterface._base_sysconf_dir a
  ∧ (NetInterface.children a = [] → NetInterface.children b = [])
  ∧ Renderer.same_table (NetInterface.routes b) (NetInterface.routes a)
  ∧ (NetInterface.mirrors a → NetInterface.mirrors b).

(** [iface_contents] after a pass has the keys it had, in the same order,
    and each configuration is related by [R] to the one it was. *)
Definition updated (R : NetInterface.t → NetInterface.t → Prop)
    (c c' : dict NetInterface.t) : Prop :=
  dict_keys c' = dict_keys c
  ∧ ∀ k cfg', dict_get k c' = Some cfg' →
              ∃ cfg, dict_get k c = Some cfg ∧ R cfg cfg'.

(** The member of a bond. *)
Definition enslaved (master_name : string) (cfg : NetInterface.t) : Prop :=
  dict_get "MASTER" (NetInterface._conf cfg) = Some (VStr master_name)
  ∧ dict_get "SLAVE" (NetInterface._conf cfg) = Some (VBool true).

(** The master of a bond. *)
Definition bonding_master (cfg : NetInterface.t) : Prop :=
  dict_get "BONDING_MASTER" (NetInterface._conf cfg) = Some (VBool true)
  ∧ NetInterface.kind cfg = "bond"
  ∧ dict_get "TYPE" (NetInterface._conf cfg) = Some (VStr "Bond").

(** A bridge with the options that the interface has. *)
Definition bridge_configured (opts : dict value) (cfg : NetInterface.t)
  : Prop :=
  NetInterface.kind cfg = "bridge"
  ∧ dict_get "TYPE" (NetInterface._conf cfg) = Some (VStr "Bridge")
  ∧ ∀ old_key new_key v,
      (old_key, new_key) ∈ Passes.bridge_opts_keys →
      dict_get old_key opts = Some v →
      dict_get new_key (NetInterface._conf cfg) = Some v.

(** What the bridge pass does to a port of the bridge [iface_name], or
    leaves of it once done. *)
Definition marked (iface_name : string) (a b : NetInterface.t) : Prop :=
  evolves a b
  ∧ NetInterface.kind b = NetInterface.kind a
  ∧ (∀ key, key ≠ "BRIDGE" →
       dict_get key (NetInterface._conf b)
       = dict_get key (NetInterface._conf a))
  ∧ (dict_get "BRIDGE" (NetInterface._conf a) = Some (VStr iface_name) →
     dict_get "BRIDGE" (NetInterface._conf b) = Some (VStr iface_name)).

(** ** Sample inputs *)

Module Sample.

(** [NetInterface("eth0", "etc/sysconfig")]. *)
Definition eth0 : NetInterface.t :=
  NetInterface.mk [("TYPE", VStr "Ethernet"); ("DEVICE", VStr "eth0")] []
    (Route.__init__ "eth0" "etc/sysconfig") "ethernet" "eth0"
    "etc/sysconfig".

(** [{'network': '0.0.0.0', 'netmask': '0.0.0.0', 'gateway': gw}]. *)
Definition default4 (gw : string) : route :=
  mk_route (Some (VStr "0.0.0.0")) (Some (VStr "0.0.0.0")) (Some (VStr gw)).

(** [{'network': '::', 'netmask': 0, 'gateway': gw}]. *)
Definition default6 (gw : string) : route :=
  mk_route (Some (VStr "::")) (Some (VInt 0)) (Some (VStr gw)).

(** [{'network': '0.0.0.0', 'netmask': '0.0.0.0'}]. *)
Definition default4_no_gateway : route :=
  mk_route (Some (VStr "0.0.0.0")) (Some (VStr "0.0.0.0")) None.

(** [{'network': '10.1.0.0', 'netmask': '255.255.0.0',
      'gateway': '10.0.0.2'}]. *)
Definition net10 : route :=
  mk_route (Some (VStr "10.1.0.0")) (Some (VStr "255.255.0.0"))
           (Some (VStr "10.0.0.2")).

(** A static IPv4 subnet with the given routes and no [ipv4] or [ipv6]
    key. *)
Definition static4 (address : string) (routes : list route) : subnet :=
  mk_subnet (Some "static") (Some address) (Some (VStr "255.255.255.0"))
            None None (Some routes).

(** The same subnet with ['ipv4': True]. *)
Definition static4_flagged (address : string) (routes : list route)
  : subnet :=
  mk_subnet (Some "static") (Some address) (Some (VStr "255.255.255.0"))
            (Some (VBool true)) None (Some routes).

(** A static IPv6 subnet with the given routes and no [ipv4] or [ipv6]
    key. *)
Definition static6 (address : string) (routes : list route) : subnet :=
  mk_subnet (Some "static") (Some address) (Some (VInt 64))
            None None (Some routes).

(** A static IPv4 subnet without [ipv4] key, with two default routes. *)
Definition two_defaults : subnet :=
  static4 "10.0.0.5" [default4 "10.0.0.1"; default4 "10.0.0.2"].

(** The route table of [eth0] after one IPv4 and one IPv6 route. *)
Definition routes_mixed : Route.t :=
  Route.mk [("GATEWAY1", VStr "10.0.0.2"); ("NETMASK1", VStr "255.255.0.0");
            ("ADDRESS1", VStr "10.1.0.0"); ("GATEWAY2", VStr "fe80::1");
            ("NETMASK2", VInt 64); ("ADDRESS2", VStr "2001:db8::")]
           3 false false "eth0" "etc/sysconfig".

Definition eth0_routed : NetInterface.t :=
  NetInterface.set_routes eth0 routes_mixed.

(** An interface with a DHCP subnet and no route. *)
Definition iface_dhcp : iface :=
  mk_iface "eth0" (Some (VStr "fa:16:3e:00:00:01")) (Some (VInt 1500))
    (Some [mk_subnet (Some "dhcp") None None None None None]).

(** An interface with a static subnet that has a default route and a
    route to a network. *)
Definition iface_static : iface :=
  mk_iface "eth0" (Some (VStr "fa:16:3e:00:00:01")) None
    (Some [static4 "10.0.0.5" [default4 "10.0.0.1"; net10]]).

(** [iface_contents] after the initialization and the physical pass of
    [_render_sysconfig], for a network state with the one interface
    [ifc]. *)
Definition rendered (ifc : iface) : result (dict NetInterface.t) :=
  let* iface_cfg := Renderer.new_iface_cfg "etc/sysconfig" ifc in
  let* iface_cfg := Renderer.render_physical ifc iface_cfg in
  Ok [(if_name ifc, iface_cfg)].

(** A subnet of the given type and nothing else. *)
Definition typed (ty : string) : subnet :=
  mk_subnet (Some ty) None None None None None.

End Sample.

(** * Properties *)

(** ** Strings *)

Lemma str_app_cons (x : ascii) (a b : string) :
  String x a +:+ b = String x (a +:+ b).
Proof. reflexivity. Qed.

Lemma str_app_nil_l (a : string) : "" +:+ a = a.
Proof. reflexivity. Qed.

Lemma str_app_assoc (a b c : string) : (a +:+ b) +:+ c = a +:+ (b +:+ c).
Proof.
  induction a as [|x a IH]; [done|]. rewrite !str_app_cons. by f_equal.
Qed.

Lemma str_app_nil_r (a : string) : a +:+ "" = a.
Proof. induction a as [|x a IH]; [done|]. rewrite str_app_cons. by f_equal. Qed.

(** ** Exceptions and loops *)

Lemma for_each_app {A S : Type} (body : S → A → result S) (xs ys : list A)
    (st : S) :
  for_each body (xs ++ ys) st
  = let* st' := for_each body xs st in for_each body ys st'.
Proof.
  revert st. induction xs as [|x xs IH]; intros st; simpl; [done|].
  destruct (body st x) as [st'|e]; simpl; [apply IH | done].
Qed.

Lemma for_each_inv {A S : Type} (P : S → Prop) (body : S → A → result S)
    (items : list A) (st st' : S) :
  (∀ s x s', x ∈ items → P s → body s x = Ok s' → P s') →
  P st → for_each body items st = Ok st' → P st'.
Proof.
  revert st.
  induction items as [|x items IH]; intros st Hbody Hst; cbn [for_each].
  - by intros [= <-].
  - destruct (body st x) as [s1|e] eqn:Hx; cbn [bind]; [|done].
    apply IH.
    + intros s y s' Hy. apply Hbody. by right.
    + eapply Hbody; [by left | done..].
Qed.

(** ** Dictionaries *)

Global Instance same_mapping_sym {V : Type} : Symmetric (@same_mapping V).
Proof. intros d1 d2 Hsame k. symmetry. apply Hsame. Qed.

Section dict_facts.
Context {V : Type}.
Implicit Types (d : dict V) (k : string) (v : V).

Lemma dict_get_set_eq k v d : dict_get k (dict_set k v d) = Some v.
Proof.
  induction d as [|[k' v'] d IH]; simpl.
  - by rewrite decide_True.
  - destruct (decide (k = k')) as [->|Hne]; simpl.
    + by rewrite decide_True.
    + by rewrite decide_False.
Qed.

Lemma dict_get_set_ne k k' v d :
  k ≠ k' → dict_get k' (dict_set k v d) = dict_get k' d.
Proof.
  intros Hne. induction d as [|[k0 v0] d IH]; simpl.
  - by rewrite decide_False.
  - destruct (decide (k = k0)) as [->|Hk]; simpl.
    + by rewrite !decide_False.
    + destruct (decide (k' = k0)); [done | apply IH].
Qed.

Lemma dict_get_None k d : dict_get k d = None ↔ k ∉ dict_keys d.
Proof.
  unfold dict_keys. induction d as [|[k' v'] d IH]; simpl.
  - split; [intros _; apply not_elem_of_nil | done].
  - rewrite not_elem_of_cons. destruct (decide (k = k')) as [->|Hne].
    + split; [done | intros [? _]; done].
    + rewrite IH. tauto.
Qed.

Lemma dict_get_is_Some k d : is_Some (dict_get k d) ↔ k ∈ dict_keys d.
Proof.
  rewrite <- not_eq_None_Some, dict_get_None.
  destruct (decide (k ∈ dict_keys d)); tauto.
Qed.

Lemma dict_get_elem k v d : dict_wf d → (k, v) ∈ d ↔ dict_get k d = Some v.
Proof.
  unfold dict_wf, dict_keys. induction d as [|[k' v'] d IH]; simpl.
  - intros _. split; [by intros ?%elem_of_nil | done].
  - intros [Hk' Hd]%NoDup_cons. rewrite elem_of_cons.
    destruct (decide (k = k')) as [->|Hne].
    + split.
      * intros [[= ->]|Hin]; [done|].
        destruct Hk'. apply list_elem_of_fmap. by exists (k', v).
      * intros [= ->]. by left.
    + rewrite <- (IH Hd). split; [|tauto].
      intros [[= ? ?]|?]; [done | done].
Qed.

Lemma dict_keys_set k v d :
  dict_keys (dict_set k v d)
  = if decide (k ∈ dict_keys d) then dict_keys d else dict_keys d ++ [k].
Proof.
  unfold dict_keys. induction d as [|[k' v'] d IH]; [done|].
  cbn [dict_set]. rewrite fmap_cons. cbn [fst].
  destruct (decide (k = k')) as [->|Hne].
  - rewrite fmap_cons. cbn [fst]. by rewrite decide_True by left.
  - rewrite fmap_cons, IH. cbn [fst]. destruct (decide (k ∈ d.*1)).
    + by rewrite decide_True by (by right).
    + rewrite decide_False; [done|]. by intros [?|?]%elem_of_cons.
Qed.

Lemma dict_wf_nil : dict_wf (V:=V) [].
Proof. apply NoDup_nil_2. Qed.

Lemma dict_wf_set k v d : dict_wf d → dict_wf (dict_set k v d).
Proof.
  unfold dict_wf. rewrite dict_keys_set. intros Hwf.
  destruct (decide (k ∈ dict_keys d)) as [Hin|Hnin]; [done|].
  apply NoDup_app. split_and!; [done | | apply NoDup_singleton].
  intros x Hx ->%list_elem_of_singleton. done.
Qed.

Lemma dict_keys_pop_subseteq k d : dict_keys (dict_pop k d) ⊆ dict_keys d.
Proof.
  unfold dict_keys. induction d as [|[k' v'] d IH]; [done|].
  cbn [dict_pop]. destruct (decide (k = k')) as [->|Hne].
  - rewrite fmap_cons. intros x Hx. by right.
  - rewrite !fmap_cons.
    intros x [->|Hx]%elem_of_cons; [by left | right; by apply IH].
Qed.

Lemma dict_wf_pop k d : dict_wf d → dict_wf (dict_pop k d).
Proof.
  unfold dict_wf. induction d as [|[k' v'] d IH]; [done|].
  unfold dict_keys in *. rewrite fmap_cons.
  intros [Hk' Hd]%NoDup_cons. cbn [dict_pop].
  destruct (decide (k = k')) as [->|Hne]; [done|].
  rewrite fmap_cons. apply NoDup_cons. split; [|by apply IH].
  intros Hin. by apply Hk', (dict_keys_pop_subseteq k d).
Qed.

Lemma same_mapping_keys d1 d2 k :
  same_mapping d1 d2 → k ∈ dict_keys d1 ↔ k ∈ dict_keys d2.
Proof. intros Hsame. by rewrite <- !dict_get_is_Some, (Hsame k). Qed.

Lemma same_mapping_keys_perm d1 d2 :
  dict_wf d1 → dict_wf d2 → same_mapping d1 d2 →
  dict_keys d1 ≡ₚ dict_keys d2.
Proof.
  intros Hwf1 Hwf2 Hsame. apply NoDup_Permutation; [done..|].
  intros k. by apply same_mapping_keys.
Qed.

Lemma same_mapping_nil d1 d2 : same_mapping d1 d2 → d1 = [] → d2 = [].
Proof.
  intros Hsame ->. destruct d2 as [|[k v] d2]; [done|].
  specialize (Hsame k). simpl in Hsame. by rewrite decide_True in Hsame.
Qed.
End dict_facts.

(** ** Sorting the keys *)

Lemma sorted_perm (keys : list string) : sorted keys ≡ₚ keys.
Proof. apply merge_sort_Permutation. Qed.

Lemma sorted_le (keys : list string) : StronglySorted String.le (sorted keys).
Proof. apply StronglySorted_merge_sort; apply _. Qed.

Lemma sorted_unique (l1 l2 : list string) : l1 ≡ₚ l2 → sorted l1 = sorted l2.
Proof.
  intros Hperm.
  apply (StronglySorted_unique String.le); [apply sorted_le..|].
  by rewrite !sorted_perm.
Qed.

Lemma StronglySorted_strict (l : list string) :
  StronglySorted String.le l → NoDup l → StronglySorted str_lt l.
Proof.
  induction 1 as [|x l Hl IH Hx]; intros Hnd; [constructor|].
  apply NoDup_cons in Hnd as [Hnin Hnd]. constructor; [by apply IH|].
  rewrite Forall_forall in Hx |- *. intros y Hy. split; [by apply Hx|].
  intros Hyx. assert (x = y) as -> by (apply (anti_symm String.le); auto).
  done.
Qed.

Lemma sorted_strict (keys : list string) :
  NoDup keys → StronglySorted str_lt (sorted keys).
Proof.
  intros Hnd. apply StronglySorted_strict; [apply sorted_le|].
  by rewrite sorted_perm.
Qed.

(** ** ConfigMap: the serialized text *)

Lemma ConfigMap_run_wf (ops : list ConfigMap.op) : dict_wf (ConfigMap.run ops).
Proof.
  unfold ConfigMap.run. induction ops as [|o ops IH] using rev_ind.
  - apply dict_wf_nil.
  - rewrite foldl_snoc. destruct o as [k v|k]; simpl.
    + by apply dict_wf_set.
    + by apply dict_wf_pop.
Qed.

Lemma ConfigMap_line_text (d : dict value) (key : string) :
  key ∈ dict_keys d → ConfigMap.line d key = Ok (ConfigMap.line_text d key).
Proof.
  intros [v Hv]%dict_get_is_Some.
  unfold ConfigMap.line, ConfigMap.line_text, dict_getitem. by rewrite Hv.
Qed.

Lemma ConfigMap_to_string_loop (d : dict value) (keys : list string)
    (buf : string) :
  keys ⊆ dict_keys d →
  for_each (λ buf key, let* l := ConfigMap.line d key in Ok (buf +:+ l))
           keys buf
  = Ok (buf +:+ str_concat (ConfigMap.line_text d <$> keys)).
Proof.
  revert buf. induction keys as [|k keys IH]; intros buf Hsub.
  - simpl. by rewrite str_app_nil_r.
  - cbn [for_each]. rewrite ConfigMap_line_text by (apply Hsub; left).
    cbn [bind]. rewrite IH by (intros x Hx; apply Hsub; by right).
    rewrite fmap_cons. cbn [str_concat foldr]. by rewrite str_app_assoc.
Qed.

(** [to_string] always returns: the header, a line break when the store is
    not empty, and the lines of the keys in sorted order. *)
Lemma ConfigMap_to_string_eq (d : dict value) :
  ConfigMap.to_string d
  = Ok (_make_header "#" +:+ (if bool_decide (d ≠ []) then nl else "")
        +:+ str_concat (ConfigMap.line_text d <$> ConfigMap.emitted_keys d)).
Proof.
  unfold ConfigMap.to_string, ConfigMap.emitted_keys.
  rewrite ConfigMap_to_string_loop.
  - f_equal. case_bool_decide; [by rewrite str_app_assoc|].
    by rewrite str_app_nil_l.
  - intros k Hk. by rewrite sorted_perm in Hk.
Qed.

Lemma ConfigMap_to_string_same_mapping (d1 d2 : dict value) :
  dict_wf d1 → dict_wf d2 → same_mapping d1 d2 →
  ConfigMap.to_string d1 = ConfigMap.to_string d2.
Proof.
  intros Hwf1 Hwf2 Hsame. rewrite !ConfigMap_to_string_eq.
  unfold ConfigMap.emitted_keys.
  rewrite (sorted_unique _ _ (same_mapping_keys_perm _ _ Hwf1 Hwf2 Hsame)).
  assert (bool_decide (d1 ≠ []) = bool_decide (d2 ≠ [])) as ->.
  { destruct d1 as [|[k1 v1] d1], d2 as [|[k2 v2] d2]; try done.
    - by apply same_mapping_nil in Hsame.
    - symmetry in Hsame. by apply same_mapping_nil in Hsame. }
  assert (ConfigMap.line_text d1 <$> sorted (dict_keys d2)
          = ConfigMap.line_text d2 <$> sorted (dict_keys d2)) as ->; [|done].
  apply list_fmap_ext. intros i k _.
  unfold ConfigMap.line_text. by rewrite (Hsame k).
Qed.

(** C7. Whatever sequence of [set] and [remove] operations built the store,
    [to_string] writes one [KEY=VALUE] line for each of its keys, after the
    header, in strictly ascending order of the keys; and two sequences of
    operations that end in the same key-value mapping are serialized to the
    same text. *)
Theorem C7_to_string_sorted_by_key (ops : list ConfigMap.op) :
  let d := ConfigMap.run ops in
  StronglySorted str_lt (ConfigMap.emitted_keys d)
  ∧ ConfigMap.emitted_keys d ≡ₚ dict_keys d
  ∧ ConfigMap.to_string d
    = Ok (_make_header "#" +:+ (if bool_decide (d ≠ []) then nl else "")
          +:+ str_concat (ConfigMap.line_text d <$> ConfigMap.emitted_keys d))
  ∧ ∀ ops', same_mapping d (ConfigMap.run ops') →
            ConfigMap.to_string d = ConfigMap.to_string (ConfigMap.run ops').
Proof.
  intros d. split_and!.
  - apply sorted_strict, ConfigMap_run_wf.
  - apply sorted_perm.
  - apply ConfigMap_to_string_eq.
  - intros ops' Hsame.
    apply ConfigMap_to_string_same_mapping; [apply ConfigMap_run_wf..|done].
Qed.

(** The mapping held by a dictionary is decided by comparing the lookups
    of the keys of both. *)
Lemma same_mapping_by_keys {V : Type} (d1 d2 : dict V) :
  Forall (λ k, dict_get k d1 = dict_get k d2) (dict_keys d1 ++ dict_keys d2) →
  same_mapping d1 d2.
Proof.
  rewrite Forall_forall. intros Hall k.
  destruct (decide (k ∈ dict_keys d1 ++ dict_keys d2)) as [Hin|Hnin].
  - by apply Hall.
  - apply not_elem_of_app in Hnin as [H1 H2].
    apply dict_get_None in H1, H2. congruence.
Qed.

Lemma C7_to_string_sorted_by_key_witness :
  ConfigMap.to_string
    (ConfigMap.run [ConfigMap.OpSet "b" (VInt 2); ConfigMap.OpSet "a" (VInt 1);
                    ConfigMap.OpSet "c" (VInt 3); ConfigMap.OpRemove "c"])
  = ConfigMap.to_string
      (ConfigMap.run [ConfigMap.OpSet "a" (VInt 0); ConfigMap.OpSet "b" (VInt 2);
                      ConfigMap.OpSet "a" (VInt 1)]).
Proof.
  apply (C7_to_string_sorted_by_key
           [ConfigMap.OpSet "b" (VInt 2); ConfigMap.OpSet "a" (VInt 1);
            ConfigMap.OpSet "c" (VInt 3); ConfigMap.OpRemove "c"]).
  apply same_mapping_by_keys. vm_compute. repeat constructor.
Defined.

(** ** Quoting of values *)

Lemma str_length_app (a b : string) :
  String.length (a +:+ b) = String.length a + String.length b.
Proof.
  induction a as [|x a IH]; [done|]. rewrite str_app_cons. simpl. by f_equal.
Qed.

Lemma is_whitespace_codes (c : ascii) :
  is_whitespace c = bool_decide (nat_of_ascii c ∈ whitespace_codes).
Proof. by destruct c as [[] [] [] [] [] [] [] []]; vm_compute. Qed.

Lemma has_whitespace_spec (s : string) :
  has_whitespace s = true ↔ contains_whitespace s.
Proof.
  unfold contains_whitespace. induction s as [|x s IH]; simpl.
  - split; [done|]. intros ([|? ?] & c & post & Heq & _); discriminate.
  - rewrite orb_true_iff, IH, is_whitespace_codes, bool_decide_eq_true.
    split.
    + intros [Hx|(pre & c & post & -> & Hc)].
      * by exists "", x, s.
      * exists (String x pre), c, post. by rewrite str_app_cons.
    + intros ([|y pre] & c & post & Heq & Hc).
      * rewrite str_app_nil_l in Heq. injection Heq as -> ->. by left.
      * rewrite str_app_cons in Heq. injection Heq as -> ->. right. eauto.
Qed.

Lemma startswith_spec (pre s : string) :
  startswith pre s = true ↔ ∃ t, s = pre +:+ t.
Proof.
  unfold startswith. revert s.
  induction pre as [|x pre IH]; intros [|y s]; simpl.
  - split; [intros _; by exists "" | done].
  - split; [intros _; by exists (String y s) | done].
  - split; [done | intros [t Ht]; discriminate].
  - destruct (ascii_dec x y) as [->|Hne].
    + rewrite IH. split; intros [t Ht]; exists t.
      * by rewrite str_app_cons, Ht.
      * rewrite str_app_cons in Ht. by injection Ht.
    + split; [done|]. intros [t Ht]. rewrite str_app_cons in Ht.
      injection Ht as ? ?. by destruct Hne.
Qed.

Lemma str_contains_spec (needle s : string) :
  str_contains needle s = true ↔ ∃ pre post, s = pre +:+ needle +:+ post.
Proof.
  induction s as [|c s IH]; cbn [str_contains].
  - rewrite orb_false_r. fold (startswith needle "").
    rewrite startswith_spec. split.
    + intros [post ->]. by exists "", post.
    + intros ([|? ?] & post & Heq); [by exists post | discriminate].
  - rewrite orb_true_iff, IH. fold (startswith needle (String c s)).
    rewrite startswith_spec. split.
    + intros [[post ->]|(pre & post & ->)].
      * by exists "", post.
      * by exists (String c pre), post.
    + intros ([|c' pre] & post & Heq).
      * left. by exists post.
      * rewrite str_app_cons in Heq. injection Heq as -> ->. right. eauto.
Qed.

Lemma substring_all (s : string) : String.substring 0 (String.length s) s = s.
Proof. induction s as [|x s IH]; simpl; [done | by f_equal]. Qed.

Lemma substring_skip (t u : string) (m : nat) :
  String.substring (String.length t) m (t +:+ u) = String.substring 0 m u.
Proof. induction t as [|x t IH]; [done|]. by rewrite str_app_cons. Qed.

Lemma substring_split (s : string) (k m : nat) :
  k + m = String.length s →
  s = String.substring 0 k s +:+ String.substring k m s.
Proof.
  revert k m. induction s as [|x s IH]; intros k m Hlen.
  - simpl in Hlen. assert (k = 0) as -> by lia. assert (m = 0) as -> by lia.
    done.
  - destruct k as [|k].
    + rewrite Nat.add_0_l in Hlen. subst m. by rewrite substring_all.
    + simpl in *. rewrite str_app_cons. f_equal. apply IH. lia.
Qed.

Lemma endswith_spec (suf s : string) :
  endswith suf s = true ↔ ∃ t, s = t +:+ suf.
Proof.
  unfold endswith. rewrite andb_true_iff, Nat.leb_le, String.eqb_eq. split.
  - intros [Hle Hsub].
    exists (String.substring 0 (String.length s - String.length suf) s).
    rewrite <- Hsub at 2. apply substring_split. lia.
  - intros [t ->]. rewrite str_length_app. split; [lia|].
    replace (String.length t + String.length suf - String.length suf)
      with (String.length t) by lia.
    by rewrite substring_skip, substring_all.
Qed.

Lemma double_quoted_spec (s : string) :
  startswith dquote s && endswith dquote s = true ↔ double_quoted s.
Proof.
  unfold double_quoted.
  by rewrite andb_true_iff, startswith_spec, endswith_spec.
Qed.

Lemma render_value_stringified (v : value) :
  ConfigMap.render_value v = stringified v.
Proof. by destruct v as [s|[|]|z|]. Qed.

(** C8. The line written for an entry of a store is [KEY=text]: [True] is
    written [yes] and [False] is written [no], a string is written as it
    is and any other value as its [str]; when that text contains
    whitespace it is put between double quotes, unless it already starts
    and ends with a double quote, and it is written unchanged otherwise. *)
Theorem C8_value_rendering (d : dict value) (key : string) (v : value) :
  dict_get key d = Some v →
  ∃ text,
    ConfigMap.line d key = Ok (key +:+ "=" +:+ text +:+ nl)
    ∧ ConfigMap.line_text d key = key +:+ "=" +:+ text +:+ nl
    ∧ (contains_whitespace (stringified v) → double_quoted (stringified v) →
       text = stringified v)
    ∧ (contains_whitespace (stringified v) →
       ¬ double_quoted (stringified v) →
       text = dquote +:+ stringified v +:+ dquote)
    ∧ (¬ contains_whitespace (stringified v) → text = stringified v).
Proof.
  intros Hget. exists (_quote_value (ConfigMap.render_value v)).
  unfold ConfigMap.line, ConfigMap.line_text, dict_getitem. rewrite Hget.
  cbn [bind]. rewrite render_value_stringified. unfold _quote_value.
  rewrite <- has_whitespace_spec, <- double_quoted_spec.
  split_and!; [done..| | |].
  - by intros -> ->.
  - intros -> Hq. by apply not_true_is_false in Hq as ->.
  - by intros ->%not_true_is_false.
Qed.

Lemma C8_value_rendering_witness :
  ∃ text,
    ConfigMap.line [("NAME", VStr "my value")] "NAME"
    = Ok ("NAME" +:+ "=" +:+ text +:+ nl)
    ∧ text = dquote +:+ "my value" +:+ dquote.
Proof.
  destruct (C8_value_rendering [("NAME", VStr "my value")] "NAME"
              (VStr "my value") eq_refl)
    as (text & Hline & _ & _ & Hquote & _).
  exists text. split; [exact Hline|]. apply Hquote.
  - apply has_whitespace_spec. reflexivity.
  - intros Hq%double_quoted_spec. discriminate.
Defined.

(** ** NetInterface: [TYPE] and [DEVICE] *)

Lemma dict_get_pop_ne {V : Type} (k k' : string) (d : dict V) :
  k ≠ k' → dict_get k' (dict_pop k d) = dict_get k' d.
Proof.
  intros Hne. induction d as [|[k0 v0] d IH]; [done|]. cbn [dict_pop].
  destruct (decide (k = k0)) as [->|Hk]; cbn [dict_get].
  - by rewrite decide_False.
  - by rewrite IH.
Qed.

Lemma iface_types_valid (kind : string) :
  is_Some (dict_get kind NetInterface.iface_types)
  ↔ NetInterface.valid_kind kind.
Proof.
  unfold NetInterface.valid_kind, NetInterface.iface_types. cbn [dict_get].
  destruct (decide (kind = "ethernet")) as [->|H1].
  { split; [intros _; by left | by eauto]. }
  destruct (decide (kind = "bond")) as [->|H2].
  { split; [intros _; right; by left | by eauto]. }
  destruct (decide (kind = "bridge")) as [->|H3].
  { split; [intros _; do 2 right; by left | by eauto]. }
  split; [by intros [? ?] | intros Hin; by decompose_list_elem_of].
Qed.

Lemma iface_types_label (kind : string) :
  dict_get kind NetInterface.iface_types = NetInterface.label_of kind.
Proof.
  unfold NetInterface.iface_types, NetInterface.label_of. cbn [dict_get].
  destruct (decide (kind = "ethernet")) as [->|H1]; [done|].
  destruct (String.eqb_spec kind "ethernet"); [done|].
  destruct (decide (kind = "bond")) as [->|H2]; [done|].
  destruct (String.eqb_spec kind "bond"); [done|].
  destruct (decide (kind = "bridge")) as [->|H3]; [done|].
  by destruct (String.eqb_spec kind "bridge").
Qed.

Lemma set_kind_spec (self : NetInterface.t) (k : string) :
  match NetInterface.set_kind self k with
  | Ok self' =>
      NetInterface.valid_kind k
      ∧ NetInterface.kind self' = k
      ∧ NetInterface.name self' = NetInterface.name self
      ∧ ∃ label, NetInterface.label_of k = Some label
                 ∧ NetInterface._conf self'
                   = dict_set "TYPE" (VStr label) (NetInterface._conf self)
  | Raise e => ¬ NetInterface.valid_kind k ∧ e = ValueError k
  end.
Proof.
  unfold NetInterface.set_kind.
  destruct (dict_get k NetInterface.iface_types) as [label|] eqn:Hk.
  - split_and!; [apply iface_types_valid; by rewrite Hk | done..|].
    exists label. by rewrite <- iface_types_label.
  - split; [|done]. intros Hv%iface_types_valid. rewrite Hk in Hv.
    by destruct Hv.
Qed.

Lemma set_name_spec (self : NetInterface.t) (n : string) :
  NetInterface.name (NetInterface.set_name self n) = n
  ∧ NetInterface.kind (NetInterface.set_name self n) = NetInterface.kind self
  ∧ NetInterface._conf (NetInterface.set_name self n)
    = dict_set "DEVICE" (VStr n) (NetInterface._conf self).
Proof. done. Qed.

Lemma init_mirrors (iface_name base kind : string) :
  match NetInterface.__init__ iface_name base kind with
  | Ok self => NetInterface.valid_kind kind ∧ NetInterface.mirrors self
  | Raise e => ¬ NetInterface.valid_kind kind ∧ e = ValueError kind
  end.
Proof.
  unfold NetInterface.__init__.
  pose proof (set_kind_spec
    (NetInterface.mk ConfigMap.__init__ []
       (Route.__init__ iface_name base) "" "" "") kind) as Hspec.
  destruct (NetInterface.set_kind _ kind) as [self|e]; cbn [bind]; [|done].
  destruct Hspec as (Hvalid & Hkind & _ & label & Hlabel & Hconf).
  split; [done|]. unfold NetInterface.mirrors. cbn. split.
  - exists label. rewrite Hconf. unfold NetInterface.kind in Hkind.
    rewrite Hkind. split; [done|]. unfold ConfigMap.__setitem__.
    rewrite dict_get_set_ne by done. apply dict_get_set_eq.
  - apply dict_get_set_eq.
Qed.

Lemma apply_mirrors (self : NetInterface.t) (o : NetInterface.op) :
  NetInterface.writes_own_key o = false →
  NetInterface.mirrors self → NetInterface.mirrors (NetInterface.apply self o).
Proof.
  intros Hown [(label & Hlabel & Htype) Hdevice].
  destruct o as [k|n|k v|k]; cbn [NetInterface.apply].
  - pose proof (set_kind_spec self k) as Hspec.
    destruct (NetInterface.set_kind self k) as [self'|e]; [|by split; eauto].
    destruct Hspec as (_ & Hkind & Hname & label' & Hlabel' & Hconf).
    unfold NetInterface.mirrors. rewrite Hkind, Hname, Hconf. split.
    + exists label'. split; [done | apply dict_get_set_eq].
    + by rewrite dict_get_set_ne.
  - split.
    + exists label. split; [done|]. cbn. unfold ConfigMap.__setitem__.
      by rewrite dict_get_set_ne.
    + apply dict_get_set_eq.
  - cbn in Hown. apply bool_decide_eq_false in Hown.
    split; [exists label; split; [done|]|]; cbn;
      unfold ConfigMap.__setitem__; rewrite dict_get_set_ne; auto.
  - cbn in Hown. apply bool_decide_eq_false in Hown.
    split; [exists label; split; [done|]|]; cbn;
      unfold ConfigMap.drop; rewrite dict_get_pop_ne; auto.
Qed.

Lemma foldl_apply_mirrors (ops : list NetInterface.op) (self : NetInterface.t) :
  Forall (λ o, NetInterface.writes_own_key o = false) ops →
  NetInterface.mirrors self →
  NetInterface.mirrors (foldl NetInterface.apply self ops).
Proof.
  revert self. induction ops as [|o ops IH]; intros self Hops Hinv; [done|].
  apply Forall_cons in Hops as [Ho Hops]. cbn [foldl].
  by apply IH, apply_mirrors.
Qed.

Lemma copy_mirrors (self : NetInterface.t) (copy_children copy_routes : bool) :
  NetInterface.mirrors self →
  ∃ c, NetInterface.copy self copy_children copy_routes = Ok c
       ∧ NetInterface.name c = NetInterface.name self
       ∧ NetInterface.kind c = NetInterface.kind self
       ∧ NetInterface.mirrors c.
Proof.
  intros [(label & Hlabel' & Htype) Hdevice]. unfold NetInterface.copy.
  unfold NetInterface.kind in Hlabel'. pose proof Hlabel' as Hlabel.
  rewrite <- iface_types_label in Hlabel.
  pose proof (init_mirrors (NetInterface.name self)
                (NetInterface._base_sysconf_dir self)
                (NetInterface._kind self)) as Hinit.
  unfold NetInterface.__init__, NetInterface.set_kind in *.
  unfold NetInterface.kind in Hlabel. rewrite Hlabel in *. cbn [bind] in *.
  eexists. split; [done|].
  destruct copy_children, copy_routes; cbn; (split_and!; [done..|]);
    split; eauto.
Qed.

(** C9. A NetInterface is built only with a kind among ethernet, bond and
    bridge (any other raises [ValueError]), and from then on [TYPE] is the
    label of its kind and [DEVICE] is its name, after any sequence of
    assignments to [kind] and [name] and of item assignments and removals
    on the other keys: assigning [kind] stores the label under [TYPE] in the
    same step, or raises [ValueError] and changes nothing when the kind is
    not one of the three, and assigning [name] stores it under [DEVICE] in
    the same step. A copy of such an object has the same kind and name and
    the same two fields. *)
Theorem C9_type_and_device_mirror (iface_name base kind : string)
    (ops : list NetInterface.op) :
  Forall (λ o, NetInterface.writes_own_key o = false) ops →
  match NetInterface.__init__ iface_name base kind with
  | Ok self =>
      NetInterface.valid_kind kind
      ∧ NetInterface.mirrors (foldl NetInterface.apply self ops)
  | Raise e => ¬ NetInterface.valid_kind kind ∧ e = ValueError kind
  end
  ∧ (∀ self k,
       match NetInterface.set_kind self k with
       | Ok self' =>
           NetInterface.valid_kind k
           ∧ NetInterface.kind self' = k
           ∧ NetInterface.name self' = NetInterface.name self
           ∧ ∃ label, NetInterface.label_of k = Some label
                      ∧ NetInterface._conf self'
                        = dict_set "TYPE" (VStr label)
                                   (NetInterface._conf self)
       | Raise e => ¬ NetInterface.valid_kind k ∧ e = ValueError k
       end)
  ∧ (∀ self n,
       NetInterface.name (NetInterface.set_name self n) = n
       ∧ NetInterface.kind (NetInterface.set_name self n)
         = NetInterface.kind self
       ∧ NetInterface._conf (NetInterface.set_name self n)
         = dict_set "DEVICE" (VStr n) (NetInterface._conf self))
  ∧ (∀ self copy_children copy_routes,
       NetInterface.mirrors self →
       ∃ c, NetInterface.copy self copy_children copy_routes = Ok c
            ∧ NetInterface.name c = NetInterface.name self
            ∧ NetInterface.kind c = NetInterface.kind self
            ∧ NetInterface.mirrors c).
Proof.
  intros Hops. split_and!; [| | |apply copy_mirrors].
  - pose proof (init_mirrors iface_name base kind) as Hinit.
    destruct (NetInterface.__init__ iface_name base kind) as [self|e];
      [|done].
    destruct Hinit as [Hvalid Hinv]. split; [done|].
    by apply foldl_apply_mirrors.
  - apply set_kind_spec.
  - apply set_name_spec.
Qed.

Lemma C9_type_and_device_mirror_witness :
  match NetInterface.__init__ "eth0" "etc/sysconfig" "ethernet" with
  | Ok self =>
      NetInterface.valid_kind "ethernet"
      ∧ NetInterface.mirrors
          (foldl NetInterface.apply self
             [NetInterface.SetItem "ONBOOT" (VBool false);
              NetInterface.SetKind "bond"; NetInterface.SetName "bond0";
              NetInterface.SetKind "wifi"; NetInterface.Drop "ONBOOT"])
  | Raise e => ¬ NetInterface.valid_kind "ethernet" ∧ e = ValueError "ethernet"
  end.
Proof.
  apply (C9_type_and_device_mirror "eth0" "etc/sysconfig" "ethernet").
  repeat constructor.
Defined.

(** C9 does not hold after any operation.  The class inherits the item
    assignment and [drop] of ConfigMap without a guard: after
    [cfg['TYPE'] = 'Bond'] on a new ethernet interface the kind is still
    ethernet while [TYPE] is Bond, and after [cfg.drop('DEVICE')] there is
    no [DEVICE] at all. *)
Lemma C9_counterexample :
  match NetInterface.__init__ "eth0" "etc/sysconfig" "ethernet" with
  | Ok self =>
      NetInterface.mirrors self
      ∧ NetInterface.kind
          (NetInterface.__setitem__ self "TYPE" (VStr "Bond")) = "ethernet"
      ∧ ¬ NetInterface.mirrors
            (NetInterface.__setitem__ self "TYPE" (VStr "Bond"))
      ∧ ¬ NetInterface.mirrors (NetInterface.drop self "DEVICE")
  | Raise _ => False
  end.
Proof.
  cbn [NetInterface.__init__ NetInterface.set_kind bind].
  change (dict_get "ethernet" NetInterface.iface_types)
    with (Some "Ethernet").
  cbn [bind]. split_and!.
  - split; [by exists "Ethernet" | done].
  - done.
  - intros [(label & Hlabel & Htype) _]. vm_compute in Hlabel, Htype.
    congruence.
  - intros [_ Hdevice]. vm_compute in Hdevice. discriminate.
Qed.

(** ** The subnet pass: subnet types *)

Lemma subnet_base_cases (iface_cfg : NetInterface.t) (sn : subnet) :
  (Renderer.known_subnet_type sn = true
   ∧ ((∃ cfg', Renderer.subnet_base iface_cfg sn = Ok cfg'
               ∧ NetInterface.name cfg' = NetInterface.name iface_cfg)
      ∨ (sn_type sn = Some "static" ∧ sn_address sn = None
         ∧ Renderer.subnet_base iface_cfg sn = Raise (KeyError "address"))))
  ∨ (Renderer.known_subnet_type sn = false
     ∧ Renderer.subnet_base iface_cfg sn
       = Raise (Renderer.unknown_subnet_type sn iface_cfg)).
Proof.
  unfold Renderer.subnet_base, Renderer.known_subnet_type.
  destruct (decide (sn_type sn = Some "dhcp6")) as [E|N1].
  { left. rewrite E. split; [done|]. left. eauto. }
  rewrite (bool_decide_eq_false_2 _ N1).
  destruct (decide (sn_type sn ∈ [Some "dhcp4"; Some "dhcp"])) as [E|N2].
  { left. rewrite (bool_decide_eq_true_2 _ E). split; [|left; eauto].
    apply bool_decide_eq_true_2. apply list_elem_of_In.
    apply list_elem_of_In in E. simpl in *. tauto. }
  rewrite (bool_decide_eq_false_2 _ N2).
  destruct (decide (sn_type sn = Some "static")) as [E|N3].
  { left. rewrite (bool_decide_eq_true_2 _ E). split.
    { rewrite E. done. }
    unfold _subnet_is_ipv6. rewrite E. cbn [field bind].
    destruct (sn_address sn) as [a|]; [|by right].
    left. cbn. destruct (str_contains ":" a); eauto. }
  rewrite (bool_decide_eq_false_2 _ N3). right. split; [|done].
  apply bool_decide_eq_false_2. intros Hin%list_elem_of_In.
  rewrite list_elem_of_In in N2. simpl in *. intuition congruence.
Qed.

Lemma subnet_base_loop (subnets : list subnet) (iface_cfg : NetInterface.t) :
  Exists (λ sn, Renderer.known_subnet_type sn = false) subnets →
  ∃ e, for_each Renderer.subnet_base subnets iface_cfg = Raise e
       ∧ (Forall Renderer.static_has_address subnets →
          ∃ bad, bad ∈ subnets ∧ Renderer.known_subnet_type bad = false
                 ∧ e = Renderer.unknown_subnet_type bad iface_cfg).
Proof.
  revert iface_cfg.
  induction subnets as [|sn subnets IH]; intros iface_cfg Hex.
  { by apply Exists_nil in Hex. }
  cbn [for_each].
  destruct (subnet_base_cases iface_cfg sn)
    as [[Hknown [(cfg' & -> & Hname)|(Hty & Haddr & ->)]]|[Hunknown ->]];
    cbn [bind].
  - apply Exists_cons in Hex as [Hsn|Hex]; [congruence|].
    destruct (IH cfg' Hex) as (e & -> & He). exists e. split; [done|].
    intros [_ Haddrs]%Forall_cons. destruct (He Haddrs) as (bad & ? & ? & ->).
    exists bad. split_and!; [by right | done |].
    unfold Renderer.unknown_subnet_type. by rewrite Hname.
  - eexists. split; [done|]. intros [Hsn _]%Forall_cons.
    destruct (Hsn Hty) as [a Ha]. congruence.
  - eexists. split; [done|]. intros _. exists sn. split_and!; [by left|done..].
Qed.

(** C6. When one of the subnets of an interface has a type that is not
    dhcp6, dhcp4, dhcp or static (or has no type), [_render_subnets] raises
    and returns no configuration, and the exception leaves the rendering of
    the interface as it is; the static subnets carrying their address, as in
    a validated network state, the exception is the [ValueError] that names
    the unknown type of such a subnet and the interface. *)
Theorem C6_unknown_subnet_type (iface_cfg : NetInterface.t)
    (subnets : list subnet) (sn : subnet) :
  sn ∈ subnets →
  Renderer.known_subnet_type sn = false →
  ∃ e, Renderer._render_subnets iface_cfg subnets = Raise e
       ∧ (∀ ifc, if_subnets ifc = Some subnets →
                 Renderer.render_physical ifc iface_cfg = Raise e)
       ∧ (Forall Renderer.static_has_address subnets →
          ∃ bad, bad ∈ subnets ∧ Renderer.known_subnet_type bad = false
                 ∧ e = Renderer.unknown_subnet_type bad iface_cfg).
Proof.
  intros Hin Hunknown.
  assert (∃ e, Renderer._render_subnets iface_cfg subnets = Raise e
               ∧ (Forall Renderer.static_has_address subnets →
                  ∃ bad, bad ∈ subnets
                         ∧ Renderer.known_subnet_type bad = false
                         ∧ e = Renderer.unknown_subnet_type bad iface_cfg))
    as (e & Hraise & He).
  { unfold Renderer._render_subnets.
    destruct (subnet_base_loop subnets
                (NetInterface.__setitem__ iface_cfg "BOOTPROTO"
                   (VStr "none"))) as (e & -> & He).
    { apply Exists_exists. by exists sn. }
    by exists e. }
  exists e. split_and!; [done | | done].
  intros ifc Hsubnets. unfold Renderer.render_physical.
  rewrite Hsubnets. change (default [] (Some subnets)) with subnets.
  by rewrite Hraise.
Qed.

Lemma C6_unknown_subnet_type_witness :
  ∃ e, Renderer._render_subnets Sample.eth0
         [Sample.typed "dhcp"; Sample.typed "foo"] = Raise e
       ∧ (∀ ifc,
            if_subnets ifc = Some [Sample.typed "dhcp"; Sample.typed "foo"] →
            Renderer.render_physical ifc Sample.eth0 = Raise e)
       ∧ (Forall Renderer.static_has_address
            [Sample.typed "dhcp"; Sample.typed "foo"] →
          ∃ bad, bad ∈ [Sample.typed "dhcp"; Sample.typed "foo"]
                 ∧ Renderer.known_subnet_type bad = false
                 ∧ e = Renderer.unknown_subnet_type bad Sample.eth0).
Proof.
  apply (C6_unknown_subnet_type Sample.eth0
           [Sample.typed "dhcp"; Sample.typed "foo"] (Sample.typed "foo")).
  - right. left.
  - reflexivity.
Defined.

Example unknown_subnet_type_foo :
  Renderer._render_subnets Sample.eth0 [Sample.typed "dhcp"; Sample.typed "foo"]
  = Raise (ValueError "Unknown subnet type 'foo' found for interface 'eth0'").
Proof. reflexivity. Qed.

(** ** The route pass: one route *)

Lemma py_eq_str (v : value) (s : string) : py_eq v (VStr s) = true ↔ v = VStr s.
Proof.
  destruct v as [x| | |]; simpl; try (split; [discriminate | discriminate]).
  rewrite String.eqb_eq. split; [by intros -> | by intros [= ->]].
Qed.

Lemma is_default_route_spec (r : route) :
  _is_default_route r = Ok true ↔ canonical_default r.
Proof.
  unfold _is_default_route, canonical_default.
  destruct r as [[net|] nm gw]; cbn [rt_network rt_netmask field bind].
  2: { split; [discriminate | intros [[? _]|[? _]]; discriminate]. }
  destruct (py_eq net (VStr "::")) eqn:E6.
  - apply py_eq_str in E6 as ->.
    destruct nm as [nm|]; cbn [field bind].
    2: { split; [discriminate|].
         intros [(_ & ? & ? & _)|[? _]]; discriminate. }
    destruct (py_eq nm (VInt 0)) eqn:E0; cbn [bind py_eq String.eqb].
    + split; [intros _; left; eauto | done].
    + split; [discriminate|].
      intros [(_ & nm' & [= <-] & ?)|[? _]]; [congruence | discriminate].
  - cbn [bind]. destruct (py_eq net (VStr "0.0.0.0")) eqn:E4.
    + apply py_eq_str in E4 as ->.
      destruct nm as [nm|]; cbn [field bind].
      2: { split; [discriminate|].
           intros [[? _]|[_ ?]]; discriminate. }
      destruct (py_eq nm (VStr "0.0.0.0")) eqn:Enm.
      * apply py_eq_str in Enm as ->. split; [intros _; by right | done].
      * split; [discriminate|].
        intros [[? _]|[_ [= ->]]]; [discriminate|]. discriminate.
    + cbn [bind]. split; [discriminate|].
      intros [[[= ->] _]|[[= ->] _]]; discriminate.
Qed.

(** A route either is classified, or [_is_default_route] raises the
    [KeyError] of a missing key and so does [render_route]. *)
Lemma render_route_classified (sn : subnet) (st st' : NetInterface.t * Route.t)
    (r : route) :
  Renderer.render_route sn st r = Ok st' →
  ∃ is_default, _is_default_route r = Ok is_default.
Proof.
  destruct st as [cfg rc]. unfold Renderer.render_route.
  destruct (_is_default_route r) as [b|e]; [eauto | discriminate].
Qed.

Lemma route_key_ne (a b x y : string) (c d : ascii) :
  c ≠ d → String c a +:+ x ≠ String d b +:+ y.
Proof. intros Hne. rewrite !str_app_cons. congruence. Qed.

Lemma render_route_default (sn : subnet) (iface_cfg : NetInterface.t)
    (route_cfg : Route.t) (r : route) :
  _is_default_route r = Ok true →
  Renderer.render_route sn (iface_cfg, route_cfg) r
  = if Renderer.is_duplicate_default sn route_cfg
    then Raise (Renderer.duplicate_default_route iface_cfg)
    else
      let iface_cfg := NetInterface.__setitem__ iface_cfg "DEFROUTE"
                         (VBool true) in
      match rt_gateway r with
      | Some gateway =>
          if opt_truthy (sn_ipv6 sn) then
            Ok (NetInterface.__setitem__ iface_cfg "IPV6_DEFAULTGW" gateway,
                Route.set_has_set_default_ipv6 route_cfg true)
          else
            Ok (NetInterface.__setitem__ iface_cfg "GATEWAY" gateway,
                Route.set_has_set_default_ipv4 route_cfg true)
      | None => Ok (iface_cfg, route_cfg)
      end.
Proof. intros Hdef. unfold Renderer.render_route. by rewrite Hdef. Qed.

Lemma render_route_indexed (sn : subnet) (iface_cfg iface_cfg' : NetInterface.t)
    (route_cfg route_cfg' : Route.t) (r : route) :
  _is_default_route r = Ok false →
  Renderer.render_route sn (iface_cfg, route_cfg) r
  = Ok (iface_cfg', route_cfg') →
  let n := pretty (Route.last_idx route_cfg) in
  let stored (field : option value) (key : string) :=
    dict_get key (Route._conf route_cfg')
    = match field with
      | Some v => Some v
      | None => dict_get key (Route._conf route_cfg)
      end in
  iface_cfg' = iface_cfg
  ∧ Route.last_idx route_cfg' = (Route.last_idx route_cfg + 1)%Z
  ∧ Route.has_set_default_ipv4 route_cfg'
    = Route.has_set_default_ipv4 route_cfg
  ∧ Route.has_set_default_ipv6 route_cfg'
    = Route.has_set_default_ipv6 route_cfg
  ∧ stored (rt_network r) ("ADDRESS" +:+ n)
  ∧ stored (rt_gateway r) ("GATEWAY" +:+ n)
  ∧ stored (rt_netmask r) ("NETMASK" +:+ n)
  ∧ ∀ key, key ∉ ["ADDRESS" +:+ n; "GATEWAY" +:+ n; "NETMASK" +:+ n] →
           dict_get key (Route._conf route_cfg')
           = dict_get key (Route._conf route_cfg).
Proof.
  intros Hdef Hrender. unfold Renderer.render_route in Hrender.
  rewrite Hdef in Hrender. cbn [bind] in Hrender.
  injection Hrender as <- <-.
  destruct r as [[net|] [nm|] [gw|]]; cbn -[pretty];
    unfold ConfigMap.__setitem__;
    (split_and!; [done..| | | |]);
    try (repeat (rewrite dict_get_set_eq
                 || rewrite dict_get_set_ne by (by apply route_key_ne));
         done);
    intros key
      (Ha & (Hg & (Hn & _)%not_elem_of_cons)%not_elem_of_cons)%not_elem_of_cons;
    repeat (rewrite dict_get_set_ne by done); done.
Qed.

(** C1, as the code has it. A route that [_render_subnet_routes] renders
    without raising is treated as follows. If it is the canonical all-zeros
    route ([0.0.0.0] with netmask [0.0.0.0], or [::] with netmask 0), the
    route store and [last_idx] are left as they were and [DEFROUTE=True] is
    set on the interface configuration; with a gateway, the gateway is
    stored under [IPV6_DEFAULTGW] and [has_set_default_ipv6] is set when the
    [ipv6] flag of the owning subnet is true, and under [GATEWAY] with
    [has_set_default_ipv4] set otherwise; without a gateway, nothing else
    changes. Any other route leaves the interface configuration alone,
    takes [n = last_idx] and increments it, and stores those of its
    network, gateway and netmask that it has under [ADDRESSn], [GATEWAYn]
    and [NETMASKn], changing no other key of the route store. *)
Theorem C1_route_rendering (sn : subnet) (iface_cfg iface_cfg' : NetInterface.t)
    (route_cfg route_cfg' : Route.t) (r : route) :
  Renderer.render_route sn (iface_cfg, route_cfg) r
  = Ok (iface_cfg', route_cfg') →
  (canonical_default r →
   Route._conf route_cfg' = Route._conf route_cfg
   ∧ Route.last_idx route_cfg' = Route.last_idx route_cfg
   ∧ match rt_gateway r with
     | Some gw =>
         if opt_truthy (sn_ipv6 sn) then
           NetInterface._conf iface_cfg'
           = dict_set "IPV6_DEFAULTGW" gw
               (dict_set "DEFROUTE" (VBool true) (NetInterface._conf iface_cfg))
           ∧ Route.has_set_default_ipv6 route_cfg' = true
           ∧ Route.has_set_default_ipv4 route_cfg'
             = Route.has_set_default_ipv4 route_cfg
         else
           NetInterface._conf iface_cfg'
           = dict_set "GATEWAY" gw
               (dict_set "DEFROUTE" (VBool true) (NetInterface._conf iface_cfg))
           ∧ Route.has_set_default_ipv4 route_cfg' = true
           ∧ Route.has_set_default_ipv6 route_cfg'
             = Route.has_set_default_ipv6 route_cfg
     | None =>
         NetInterface._conf iface_cfg'
         = dict_set "DEFROUTE" (VBool true) (NetInterface._conf iface_cfg)
         ∧ route_cfg' = route_cfg
     end)
  ∧ (¬ canonical_default r →
     let n := pretty (Route.last_idx route_cfg) in
     let stored (field : option value) (key : string) :=
       dict_get key (Route._conf route_cfg')
       = match field with
         | Some v => Some v
         | None => dict_get key (Route._conf route_cfg)
         end in
     iface_cfg' = iface_cfg
     ∧ Route.last_idx route_cfg' = (Route.last_idx route_cfg + 1)%Z
     ∧ Route.has_set_default_ipv4 route_cfg'
       = Route.has_set_default_ipv4 route_cfg
     ∧ Route.has_set_default_ipv6 route_cfg'
       = Route.has_set_default_ipv6 route_cfg
     ∧ stored (rt_network r) ("ADDRESS" +:+ n)
     ∧ stored (rt_gateway r) ("GATEWAY" +:+ n)
     ∧ stored (rt_netmask r) ("NETMASK" +:+ n)
     ∧ ∀ key, key ∉ ["ADDRESS" +:+ n; "GATEWAY" +:+ n; "NETMASK" +:+ n] →
              dict_get key (Route._conf route_cfg')
              = dict_get key (Route._conf route_cfg)).
Proof.
  intros Hrender.
  destruct (render_route_classified _ _ _ _ Hrender) as [[|] Hdef].
  - split; [intros _ | intros Hnot; by apply is_default_route_spec in Hdef].
    rewrite (render_route_default _ _ _ _ Hdef) in Hrender.
    destruct (Renderer.is_duplicate_default sn route_cfg); [done|].
    cbn zeta in Hrender.
    destruct (rt_gateway r) as [gw|]; [destruct (opt_truthy (sn_ipv6 sn))|];
      injection Hrender as <- <-; done.
  - split.
    { intros Hcanon%is_default_route_spec. congruence. }
    intros _. by apply (render_route_indexed sn).
Qed.

Lemma C1_route_rendering_witness :
  ∃ cfg' rc',
    Renderer.render_route (Sample.static4 "10.0.0.5" [])
      (Sample.eth0, NetInterface.routes Sample.eth0)
      (Sample.default4 "10.0.0.1") = Ok (cfg', rc')
    ∧ dict_get "DEFROUTE" (NetInterface._conf cfg') = Some (VBool true)
    ∧ dict_get "GATEWAY" (NetInterface._conf cfg') = Some (VStr "10.0.0.1")
    ∧ Route.has_set_default_ipv4 rc' = true
    ∧ Route._conf rc' = [].
Proof.
  eexists _, _. split; [reflexivity|].
  destruct (C1_route_rendering (Sample.static4 "10.0.0.5" []) Sample.eth0 _
              (NetInterface.routes Sample.eth0) _ (Sample.default4 "10.0.0.1")
              eq_refl) as [Hdefault _].
  destruct Hdefault as (Hconf & _ & Hcfg & H4 & _).
  { right. split; reflexivity. }
  split_and!; [by rewrite Hcfg.. | exact H4 | exact Hconf].
Defined.

(** C1 does not hold as the specification words it: a default route
    without a gateway sets [DEFROUTE] but neither [GATEWAY] nor a flag, and
    the route [::/0] of a subnet that has no [ipv6] flag is stored under
    [GATEWAY] and recorded as the IPv4 default. *)
Lemma C1_counterexample :
  (canonical_default Sample.default4_no_gateway
   ∧ ∃ cfg' rc',
       Renderer.render_route (Sample.static4 "10.0.0.5" [])
         (Sample.eth0, NetInterface.routes Sample.eth0)
         Sample.default4_no_gateway = Ok (cfg', rc')
       ∧ dict_get "DEFROUTE" (NetInterface._conf cfg') = Some (VBool true)
       ∧ dict_get "GATEWAY" (NetInterface._conf cfg') = None
       ∧ Route.has_set_default_ipv4 rc' = false
       ∧ Route.has_set_default_ipv6 rc' = false)
  ∧ (canonical_default (Sample.default6 "fe80::1")
     ∧ ∃ cfg' rc',
         Renderer.render_route (Sample.static6 "2001:db8::5" [])
           (Sample.eth0, NetInterface.routes Sample.eth0)
           (Sample.default6 "fe80::1") = Ok (cfg', rc')
         ∧ dict_get "IPV6_DEFAULTGW" (NetInterface._conf cfg') = None
         ∧ dict_get "GATEWAY" (NetInterface._conf cfg')
           = Some (VStr "fe80::1")
         ∧ Route.has_set_default_ipv6 rc' = false
         ∧ Route.has_set_default_ipv4 rc' = true).
Proof.
  split; (split; [apply is_default_route_spec; reflexivity|]);
    eexists _, _; (split; [reflexivity|]); by split_and!.
Qed.

(** ** The route pass: duplicates *)

Lemma render_route_same (sn : subnet) (st st' : NetInterface.t * Route.t)
    (r : route) :
  Renderer.render_route sn st r = Ok st' →
  Renderer.same_interface st'.1 st.1 ∧ Renderer.same_table st'.2 st.2.
Proof.
  destruct st as [cfg rc], st' as [cfg' rc']. intros Hrender.
  destruct (render_route_classified _ _ _ _ Hrender) as [[|] Hdef].
  - rewrite (render_route_default _ _ _ _ Hdef) in Hrender.
    destruct (Renderer.is_duplicate_default sn rc); [done|].
    cbn zeta in Hrender.
    destruct (rt_gateway r); [destruct (opt_truthy (sn_ipv6 sn))|];
      by injection Hrender as <- <-.
  - unfold Renderer.render_route in Hrender. rewrite Hdef in Hrender.
    injection Hrender as <- <-. split; [done|].
    by destruct (rt_gateway r), (rt_netmask r), (rt_network r).
Qed.

Lemma render_routes_same (sn : subnet) (rs : list route)
    (st st' : NetInterface.t * Route.t) :
  for_each (Renderer.render_route sn) rs st = Ok st' →
  Renderer.same_interface st'.1 st.1 ∧ Renderer.same_table st'.2 st.2.
Proof.
  apply (for_each_inv
           (λ s, Renderer.same_interface s.1 st.1
                 ∧ Renderer.same_table s.2 st.2)); [|done].
  intros s1 r s2 _ [(? & ? & ?) [? ?]] Hr.
  destruct (render_route_same _ _ _ _ Hr) as [(? & ? & ?) [? ?]].
  repeat split; congruence.
Qed.

Lemma render_subnet_routes_same (iface_cfg : NetInterface.t)
    (route_cfg : Route.t) (subnets : list subnet)
    (st' : NetInterface.t * Route.t) :
  Renderer._render_subnet_routes iface_cfg route_cfg subnets = Ok st' →
  Renderer.same_interface st'.1 iface_cfg
  ∧ Renderer.same_table st'.2 route_cfg.
Proof.
  unfold Renderer._render_subnet_routes.
  apply (for_each_inv
           (λ s, Renderer.same_interface s.1 iface_cfg
                 ∧ Renderer.same_table s.2 route_cfg)); [|done].
  intros s1 sn s2 _ [(? & ? & ?) [? ?]] Hsn.
  destruct (render_routes_same _ _ _ _ Hsn) as [(? & ? & ?) [? ?]].
  repeat split; congruence.
Qed.

(** C2, as the code has it. Let the pass reach a default route of a subnet
    [sn] with a route table whose [has_set_default_ipv4] is set while the
    [ipv4] flag of [sn] is true, or whose [has_set_default_ipv6] is set
    while the [ipv6] flag of [sn] is true. Then that route raises the
    [ValueError] of a duplicate default route, which names the interface,
    and the whole of [_render_subnet_routes] raises it, whatever follows. *)
Theorem C2_duplicate_default_route (iface_cfg iface_cfg' : NetInterface.t)
    (route_cfg route_cfg' : Route.t) (before after : list subnet) (sn : subnet)
    (rs1 rs2 : list route) (r : route) (st1 : NetInterface.t * Route.t) :
  Renderer._render_subnet_routes iface_cfg route_cfg before = Ok st1 →
  Renderer.subnet_routes sn = rs1 ++ r :: rs2 →
  for_each (Renderer.render_route sn) rs1 st1 = Ok (iface_cfg', route_cfg') →
  canonical_default r →
  (opt_truthy (sn_ipv4 sn) = true
   ∧ Route.has_set_default_ipv4 route_cfg' = true)
  ∨ (opt_truthy (sn_ipv6 sn) = true
     ∧ Route.has_set_default_ipv6 route_cfg' = true) →
  Renderer.render_route sn (iface_cfg', route_cfg') r
  = Raise (Renderer.duplicate_default_route iface_cfg)
  ∧ Renderer._render_subnet_routes iface_cfg route_cfg (before ++ sn :: after)
    = Raise (Renderer.duplicate_default_route iface_cfg).
Proof.
  intros Hbefore Hroutes Hrs1 Hdef%is_default_route_spec Hflags.
  assert (Renderer.duplicate_default_route iface_cfg'
          = Renderer.duplicate_default_route iface_cfg) as Hname.
  { unfold Renderer.duplicate_default_route. do 3 f_equal.
    destruct (render_subnet_routes_same _ _ _ _ Hbefore) as [[<- _] _].
    by destruct (render_routes_same _ _ _ _ Hrs1) as [[? _] _]. }
  assert (Renderer.render_route sn (iface_cfg', route_cfg') r
          = Raise (Renderer.duplicate_default_route iface_cfg)) as Hr.
  { rewrite (render_route_default _ _ _ _ Hdef), <- Hname.
    unfold Renderer.is_duplicate_default.
    destruct Hflags as [[-> ->]|[-> ->]]; [done|].
    by rewrite orb_true_r. }
  split; [done|]. unfold Renderer._render_subnet_routes in *.
  rewrite for_each_app, Hbefore. cbn [bind for_each].
  by rewrite Hroutes, for_each_app, Hrs1; cbn [bind for_each]; rewrite Hr.
Qed.

Lemma C2_duplicate_default_route_witness :
  Renderer._render_subnet_routes Sample.eth0 (NetInterface.routes Sample.eth0)
    [Sample.static4_flagged "10.0.0.5"
       [Sample.default4 "10.0.0.1"; Sample.default4 "10.0.0.2"]]
  = Raise (ValueError
      "Duplicate declaration of default route found for interface 'eth0'").
Proof.
  refine (proj2 (C2_duplicate_default_route Sample.eth0 _
                   (NetInterface.routes Sample.eth0) _ [] []
                   (Sample.static4_flagged "10.0.0.5"
                      [Sample.default4 "10.0.0.1"; Sample.default4 "10.0.0.2"])
                   [Sample.default4 "10.0.0.1"] []
                   (Sample.default4 "10.0.0.2") _
                   eq_refl eq_refl eq_refl _ _)).
  - right. split; reflexivity.
  - left. split; reflexivity.
Defined.

(** C2 does not hold as the specification words it: on a subnet that has
    no [ipv4] key, the first default route is recorded as the IPv4 default,
    and the second one is accepted and replaces the gateway. *)
Lemma C2_counterexample :
  ∃ cfg1 rc1 cfg2 rc2,
    Renderer.render_route Sample.two_defaults
      (Sample.eth0, NetInterface.routes Sample.eth0)
      (Sample.default4 "10.0.0.1") = Ok (cfg1, rc1)
    ∧ Route.has_set_default_ipv4 rc1 = true
    ∧ dict_get "GATEWAY" (NetInterface._conf cfg1) = Some (VStr "10.0.0.1")
    ∧ Renderer.render_route Sample.two_defaults (cfg1, rc1)
        (Sample.default4 "10.0.0.2") = Ok (cfg2, rc2)
    ∧ dict_get "GATEWAY" (NetInterface._conf cfg2) = Some (VStr "10.0.0.2")
    ∧ Renderer._render_subnet_routes Sample.eth0
        (NetInterface.routes Sample.eth0) [Sample.two_defaults]
      = Ok (cfg2, rc2).
Proof. eexists _, _, _, _. by split_and!. Qed.

(** C10. A default route without a gateway, on a subnet for which no
    default route is refused yet, sets [DEFROUTE=True] on the interface
    configuration and nothing else: [GATEWAY] and [IPV6_DEFAULTGW] keep
    what they had and the route table, with its two flags, is returned as
    it was. A default route that follows it on the same subnet is therefore
    rendered, not refused as a duplicate. *)
Theorem C10_default_route_without_gateway (sn : subnet)
    (iface_cfg : NetInterface.t) (route_cfg : Route.t) (r : route) :
  canonical_default r →
  rt_gateway r = None →
  Renderer.is_duplicate_default sn route_cfg = false →
  let iface_cfg' := NetInterface.__setitem__ iface_cfg "DEFROUTE"
                      (VBool true) in
  Renderer.render_route sn (iface_cfg, route_cfg) r = Ok (iface_cfg', route_cfg)
  ∧ dict_get "DEFROUTE" (NetInterface._conf iface_cfg') = Some (VBool true)
  ∧ dict_get "GATEWAY" (NetInterface._conf iface_cfg')
    = dict_get "GATEWAY" (NetInterface._conf iface_cfg)
  ∧ dict_get "IPV6_DEFAULTGW" (NetInterface._conf iface_cfg')
    = dict_get "IPV6_DEFAULTGW" (NetInterface._conf iface_cfg)
  ∧ ∀ r', canonical_default r' →
          ∃ st', for_each (Renderer.render_route sn) [r; r']
                   (iface_cfg, route_cfg) = Ok st'.
Proof.
  intros Hdef%is_default_route_spec Hgw Hdup iface_cfg'.
  assert (Renderer.render_route sn (iface_cfg, route_cfg) r
          = Ok (iface_cfg', route_cfg)) as Hr.
  { by rewrite (render_route_default _ _ _ _ Hdef), Hdup, Hgw. }
  split_and!; [done | apply dict_get_set_eq | by apply dict_get_set_ne.. |].
  intros r' Hdef'%is_default_route_spec. cbn [for_each]. rewrite Hr.
  cbn [bind]. rewrite (render_route_default _ _ _ _ Hdef'), Hdup. cbn zeta.
  destruct (rt_gateway r'); [destruct (opt_truthy (sn_ipv6 sn))|]; eauto.
Qed.

Lemma C10_default_route_without_gateway_witness :
  Renderer.render_route (Sample.static4_flagged "10.0.0.5" [])
    (Sample.eth0, NetInterface.routes Sample.eth0) Sample.default4_no_gateway
  = Ok (NetInterface.__setitem__ Sample.eth0 "DEFROUTE" (VBool true),
        NetInterface.routes Sample.eth0).
Proof.
  apply (C10_default_route_without_gateway
           (Sample.static4_flagged "10.0.0.5" []) Sample.eth0
           (NetInterface.routes Sample.eth0) Sample.default4_no_gateway).
  - right. split; reflexivity.
  - reflexivity.
  - reflexivity.
Defined.

(** ** Collection of the files *)

Lemma literal_path_ne (base a b k k' : string) :
  (∀ x y, a +:+ x ≠ b +:+ y) → base +:+ a +:+ k ≠ base +:+ b +:+ k'.
Proof. intros Hab Heq. apply (inj (String.app base)) in Heq. by eapply Hab. Qed.

Lemma literal_path_inj (base a k k' : string) :
  base +:+ a +:+ k = base +:+ a +:+ k' → k = k'.
Proof. intros Heq. by do 2 apply (inj (String.app _)) in Heq. Qed.

Ltac literal_ne :=
  apply literal_path_ne; intros x y Heq;
  repeat (rewrite str_app_cons in Heq); discriminate Heq.

Lemma ifcfg_ne_route4 (base k k' : string) :
  base +:+ "/network-scripts/ifcfg-" +:+ k
  ≠ base +:+ "/network-scripts/route-" +:+ k'.
Proof. literal_ne. Qed.

Lemma ifcfg_ne_route6 (base k k' : string) :
  base +:+ "/network-scripts/ifcfg-" +:+ k
  ≠ base +:+ "/network-scripts/route6-" +:+ k'.
Proof. literal_ne. Qed.

Lemma route4_ne_route6 (base k k' : string) :
  base +:+ "/network-scripts/route-" +:+ k
  ≠ base +:+ "/network-scripts/route6-" +:+ k'.
Proof. literal_ne. Qed.

Lemma collect_iface_routes (base : string) (c c' : dict string) (k k0 : string)
    (cfg : NetInterface.t) :
  Renderer.built_for base (k, cfg) →
  Renderer.collect_iface c (k, cfg) = Ok c' →
  let r := NetInterface.routes cfg in
  let p4 := base +:+ "/network-scripts/route-" +:+ k0 in
  let p6 := base +:+ "/network-scripts/route6-" +:+ k0 in
  dict_get p4 c'
  = (if decide (k0 = k)
     then if (Route.__len__ r =? 0)%nat then dict_get p4 c
          else returned (Route.to_string r "ipv4")
     else dict_get p4 c)
  ∧ dict_get p6 c'
    = (if decide (k0 = k)
       then if (Route.__len__ r =? 0)%nat then dict_get p6 c
            else returned (Route.to_string r "ipv6")
       else dict_get p6 c).
Proof.
  destruct cfg as [conf children routes kind name base'].
  intros (Hname & Hbase & Hchildren & Hrname & Hrbase). cbn in *.
  subst name base' children.
  unfold Renderer.collect_iface, NetInterface.to_string, NetInterface.path,
    Route.path_ipv4, Route.path_ipv6.
  cbn [snd NetInterface._conf NetInterface.children NetInterface.routes
       NetInterface.__len__ NetInterface.name NetInterface._iface_name
       NetInterface._base_sysconf_dir List.last for_each].
  rewrite ConfigMap_to_string_eq. cbn [bind].
  match goal with |- context [bind ?m _] => set (c1 := m) end.
  assert (∃ c1', c1 = Ok (c1', NetInterface.mk conf [] routes kind k base)
                 ∧ ∀ p, (∀ n, p ≠ base +:+ "/network-scripts/ifcfg-" +:+ n) →
                        dict_get p c1' = dict_get p c) as (c1' & -> & Hc1).
  { unfold c1. destruct (_ || _); eexists; (split; [done|]); [|done].
    intros p Hp. rewrite dict_get_set_ne; [done|]. intros <-. by eapply Hp. }
  cbn [bind NetInterface.routes]. rewrite Hrname, Hrbase.
  assert (∀ k1 k2, k1 ≠ k2 →
            base +:+ "/network-scripts/route-" +:+ k1
            ≠ base +:+ "/network-scripts/route-" +:+ k2) as Hinj4.
  { intros k1 k2 Hne Heq%literal_path_inj. done. }
  assert (∀ k1 k2, k1 ≠ k2 →
            base +:+ "/network-scripts/route6-" +:+ k1
            ≠ base +:+ "/network-scripts/route6-" +:+ k2) as Hinj6.
  { intros k1 k2 Hne Heq%literal_path_inj. done. }
  pose proof (route4_ne_route6 base) as H46.
  assert (∀ k1 k2, base +:+ "/network-scripts/route6-" +:+ k1
                   ≠ base +:+ "/network-scripts/route-" +:+ k2) as H64.
  { intros k1 k2 Heq. symmetry in Heq. by apply H46 in Heq. }
  assert (dict_get (base +:+ "/network-scripts/route-" +:+ k0) c1'
          = dict_get (base +:+ "/network-scripts/route-" +:+ k0) c) as Hc4.
  { apply Hc1. intros n Hn. symmetry in Hn. by apply ifcfg_ne_route4 in Hn. }
  assert (dict_get (base +:+ "/network-scripts/route6-" +:+ k0) c1'
          = dict_get (base +:+ "/network-scripts/route6-" +:+ k0) c) as Hc6.
  { apply Hc1. intros n Hn. symmetry in Hn. by apply ifcfg_ne_route6 in Hn. }
  destruct (Route.__len__ routes =? 0)%nat eqn:Hlen; cbn [negb].
  - intros [= <-]. rewrite Hc4, Hc6. by destruct (decide (k0 = k)).
  - destruct (Route.to_string routes "ipv4") as [t4|e]; cbn [bind]; [|done].
    destruct (Route.to_string routes "ipv6") as [t6|e]; cbn [bind]; [|done].
    intros [= <-]. destruct (decide (k0 = k)) as [->|Hne].
    + split.
      * rewrite dict_get_set_ne by apply H64. apply dict_get_set_eq.
      * apply dict_get_set_eq.
    + rewrite (dict_get_set_ne _ _ _ _ (H64 k k0)).
      rewrite (dict_get_set_ne _ _ _ _ (Hinj4 k k0 (not_eq_sym Hne))).
      rewrite (dict_get_set_ne _ _ _ _ (Hinj6 k k0 (not_eq_sym Hne))).
      rewrite (dict_get_set_ne _ _ _ _ (H46 k k0)).
      by rewrite Hc4, Hc6.
Qed.

Lemma collect_others (base : string) (l : dict NetInterface.t)
    (c c' : dict string) (k : string) :
  Forall (Renderer.built_for base) l → k ∉ dict_keys l →
  for_each Renderer.collect_iface l c = Ok c' →
  dict_get (base +:+ "/network-scripts/route-" +:+ k) c'
  = dict_get (base +:+ "/network-scripts/route-" +:+ k) c
  ∧ dict_get (base +:+ "/network-scripts/route6-" +:+ k) c'
    = dict_get (base +:+ "/network-scripts/route6-" +:+ k) c.
Proof.
  intros Hbuilt Hk.
  apply (for_each_inv
           (λ s, dict_get (base +:+ "/network-scripts/route-" +:+ k) s
                 = dict_get (base +:+ "/network-scripts/route-" +:+ k) c
                 ∧ dict_get (base +:+ "/network-scripts/route6-" +:+ k) s
                   = dict_get (base +:+ "/network-scripts/route6-" +:+ k) c));
    [|done].
  intros s [k' cfg] s' Hin [H4 H6] Hstep.
  rewrite Forall_forall in Hbuilt.
  destruct (collect_iface_routes base s s' k' k cfg (Hbuilt _ Hin) Hstep)
    as [H4' H6'].
  assert (k ≠ k') as Hne.
  { intros ->. apply Hk. unfold dict_keys.
    apply list_elem_of_fmap. by exists (k', cfg). }
  rewrite decide_False in H4', H6' by done. by rewrite H4', H6'.
Qed.

Lemma collect_total (base : string) (l : dict NetInterface.t)
    (c : dict string) :
  Forall (Renderer.built_for base) l →
  Forall Renderer.routes_serializable l →
  ∃ c', for_each Renderer.collect_iface l c = Ok c'.
Proof.
  revert c. induction l as [|[k cfg] l IH]; intros c Hbuilt Hser.
  { by exists c. }
  apply Forall_cons in Hbuilt as [Hitem Hbuilt].
  apply Forall_cons in Hser as [[[t4 Ht4] [t6 Ht6]] Hser].
  cbn [for_each].
  assert (∃ c1, Renderer.collect_iface c (k, cfg) = Ok c1) as [c1 ->];
    [|by apply IH].
  destruct Hitem as (_ & _ & Hchildren & _). cbn [snd] in *.
  unfold Renderer.collect_iface, NetInterface.to_string. cbn [snd].
  rewrite ConfigMap_to_string_eq, Hchildren. cbn [bind for_each List.last].
  destruct (Route.to_string (NetInterface.routes cfg) "ipv4") eqn:E4;
    [|done].
  destruct (Route.to_string (NetInterface.routes cfg) "ipv6") eqn:E6;
    [|done].
  destruct (_ || _); cbn [bind]; destruct (negb _); rewrite ?E4, ?E6;
    cbn [bind]; eauto.
Qed.

(** C5, as the code has it. For a working set as [_render_sysconfig] builds
    it, the collection returns the output mapping as soon as the route
    tables can be serialized, and for every interface of the working set:
    when its route table holds at least one entry, the mapping has the
    IPv4 text of the table under [route-<name>] and its IPv6 text under
    [route6-<name>]; when its route table is empty, the mapping has neither
    path. *)
Theorem C5_route_files (base : string) (iface_contents : dict NetInterface.t) :
  Renderer.working_set base iface_contents →
  Forall Renderer.routes_serializable iface_contents →
  ∃ contents,
    Renderer.collect iface_contents = Ok contents
    ∧ ∀ k cfg, (k, cfg) ∈ iface_contents →
        let r := NetInterface.routes cfg in
        Route.path_ipv4 r = base +:+ "/network-scripts/route-" +:+ k
        ∧ Route.path_ipv6 r = base +:+ "/network-scripts/route6-" +:+ k
        ∧ dict_get (Route.path_ipv4 r) contents
          = (if (Route.__len__ r =? 0)%nat then None
             else returned (Route.to_string r "ipv4"))
        ∧ dict_get (Route.path_ipv6 r) contents
          = (if (Route.__len__ r =? 0)%nat then None
             else returned (Route.to_string r "ipv6")).
Proof.
  intros [Hwf Hbuilt] Hser. unfold Renderer.collect.
  destruct (collect_total base iface_contents [] Hbuilt Hser)
    as [contents Hcollect].
  exists contents. split; [done|]. intros k cfg Hin.
  apply list_elem_of_split in Hin as (l1 & l2 & ->).
  unfold dict_wf, dict_keys in Hwf. rewrite fmap_app, fmap_cons in Hwf.
  apply NoDup_app in Hwf as (_ & Hl1 & [Hl2 _]%NoDup_cons).
  apply Forall_app in Hbuilt as [Hb1 [Hitem Hb2]%Forall_cons].
  rewrite for_each_app in Hcollect.
  destruct (for_each Renderer.collect_iface l1 []) as [c1|] eqn:H1; [|done].
  cbn [bind for_each] in Hcollect.
  destruct (Renderer.collect_iface c1 (k, cfg)) as [c2|] eqn:H2; [|done].
  cbn [bind] in Hcollect.
  destruct (collect_others base l1 [] c1 k Hb1) as [H14 H16]; [|done|].
  { intros Hk. by apply (Hl1 k Hk); left. }
  destruct (collect_others base l2 c2 contents k Hb2 Hl2 Hcollect)
    as [H24 H26].
  destruct (collect_iface_routes base c1 c2 k k cfg Hitem H2) as [H4 H6].
  rewrite decide_True in H4, H6 by done.
  destruct Hitem as (_ & _ & _ & Hrname & Hrbase). cbn [snd fst] in *.
  cbn zeta in H4, H6. unfold Route.path_ipv4, Route.path_ipv6.
  rewrite Hrname, Hrbase, H24, H26, H4, H6, H14, H16.
  by destruct (Route.__len__ (NetInterface.routes cfg) =? 0)%nat.
Qed.

Lemma C5_route_files_witness :
  ∃ contents,
    Renderer.collect [("eth0", Sample.eth0_routed)] = Ok contents
    ∧ dict_get "etc/sysconfig/network-scripts/route-eth0" contents
      = returned (Route.to_string Sample.routes_mixed "ipv4")
    ∧ dict_get "etc/sysconfig/network-scripts/route6-eth0" contents
      = returned (Route.to_string Sample.routes_mixed "ipv6").
Proof.
  destruct (C5_route_files "etc/sysconfig" [("eth0", Sample.eth0_routed)])
    as (contents & Hcollect & Hall).
  - split; [apply NoDup_singleton | by repeat constructor].
  - repeat constructor; vm_compute; eauto.
  - exists contents. split; [exact Hcollect|].
    destruct (Hall "eth0" Sample.eth0_routed) as (_ & _ & H4 & H6);
      [by left|]. split; [exact H4 | exact H6].
Defined.

(** C5 does not hold as the specification words it: an interface whose
    route table is empty gets no route file at all. *)
Lemma C5_counterexample :
  Renderer.working_set "etc/sysconfig" [("eth0", Sample.eth0)]
  ∧ NetInterface.__init__ "eth0" "etc/sysconfig" "ethernet" = Ok Sample.eth0
  ∧ ∃ contents,
      Renderer.collect [("eth0", Sample.eth0)] = Ok contents
      ∧ dict_keys contents = ["etc/sysconfig/network-scripts/ifcfg-eth0"]
      ∧ dict_get (Route.path_ipv4 (NetInterface.routes Sample.eth0)) contents
        = None
      ∧ dict_get (Route.path_ipv6 (NetInterface.routes Sample.eth0)) contents
        = None.
Proof.
  split_and!.
  - split; [apply NoDup_singleton | by repeat constructor].
  - reflexivity.
  - eexists. by split_and!.
Qed.

(** ** Route.to_string *)

Lemma dict_getitem_text (conf : dict value) (key : string) :
  is_Some (dict_get key conf) →
  ∃ v, dict_getitem key conf = Ok v ∧ py_str v = Route.text_of conf key.
Proof.
  intros [v Hv]. exists v. unfold dict_getitem, Route.text_of.
  by rewrite Hv.
Qed.

Lemma is_ipv6_route_colon (address : string) :
  Route.is_ipv6_route address = Route.has_colon address.
Proof.
  unfold Route.is_ipv6_route, Route.has_colon.
  induction address as [|c a IH]; [done|].
  cbn [str_contains String.list_ascii_of_string existsb]. rewrite IH.
  f_equal.
  cbn [String.prefix]. destruct (Ascii.eqb_spec ":" c) as [<-|Hne].
  - destruct (ascii_dec ":" ":"); [by destruct a | done].
  - by destruct (ascii_dec ":" c).
Qed.

Lemma to_string_step_ipv4 (conf : dict value) (buf : string) (reindex : Z)
    (key : string) :
  key ∈ dict_keys conf →
  (str_contains "ADDRESS" key && negb (Route.is_ipv6_entry conf key) = true →
   Route.complete conf key) →
  Route.to_string_step conf "ipv4" (buf, reindex) key
  = if str_contains "ADDRESS" key && negb (Route.is_ipv6_entry conf key)
    then Ok (buf +:+ Route.ipv4_lines conf ((reindex + 1)%Z, key),
             (reindex + 1)%Z)
    else Ok (buf, reindex).
Proof.
  intros Hkey%dict_get_is_Some Hcomplete. unfold Route.to_string_step.
  fold (Route.index_of key).
  destruct (str_contains "ADDRESS" key); [|done].
  destruct (dict_getitem_text conf key Hkey) as (a & -> & Ha).
  cbn [bind andb String.eqb Ascii.eqb Bool.eqb].
  rewrite Ha, is_ipv6_route_colon.
  fold (Route.is_ipv6_entry conf key).
  destruct (Route.is_ipv6_entry conf key); [done|]. cbn [negb andb].
  destruct Hcomplete as [Hnm Hgw]; [done|].
  destruct (dict_getitem_text conf _ Hnm) as (nm & -> & Hnmt).
  destruct (dict_getitem_text conf _ Hgw) as (gw & -> & Hgwt).
  cbn [bind]. rewrite Hnmt, Hgwt. unfold Route.ipv4_lines.
  by rewrite !str_app_assoc.
Qed.

Lemma to_string_step_ipv6 (conf : dict value) (buf : string) (reindex : Z)
    (key : string) :
  key ∈ dict_keys conf →
  (str_contains "ADDRESS" key && Route.is_ipv6_entry conf key = true →
   Route.complete conf key) →
  Route.to_string_step conf "ipv6" (buf, reindex) key
  = if str_contains "ADDRESS" key && Route.is_ipv6_entry conf key
    then Ok (buf +:+ Route.ipv6_line conf key, reindex)
    else Ok (buf, reindex).
Proof.
  intros Hkey%dict_get_is_Some Hcomplete. unfold Route.to_string_step.
  fold (Route.index_of key).
  destruct (str_contains "ADDRESS" key); [|done].
  destruct (dict_getitem_text conf key Hkey) as (a & -> & Ha).
  cbn [bind andb String.eqb Ascii.eqb Bool.eqb].
  rewrite Ha, is_ipv6_route_colon.
  fold (Route.is_ipv6_entry conf key).
  destruct (Route.is_ipv6_entry conf key); [|done]. cbn [negb andb].
  destruct Hcomplete as [Hnm Hgw]; [done|].
  destruct (dict_getitem_text conf _ Hnm) as (nm & -> & Hnmt).
  destruct (dict_getitem_text conf _ Hgw) as (gw & -> & Hgwt).
  cbn [bind]. by rewrite Hnmt, Hgwt.
Qed.

Lemma to_string_loop_ipv4 (conf : dict value) (keys : list string)
    (buf : string) (reindex : Z) :
  keys ⊆ dict_keys conf →
  Forall (Route.complete conf)
    (List.filter (λ key, negb (Route.is_ipv6_entry conf key))
       (List.filter (str_contains "ADDRESS") keys)) →
  ∃ reindex',
    for_each (Route.to_string_step conf "ipv4") keys (buf, reindex)
    = Ok (buf +:+ str_concat
            (Route.ipv4_lines conf
             <$> Route.enumerate (reindex + 1)
                   (List.filter (λ key, negb (Route.is_ipv6_entry conf key))
                      (List.filter (str_contains "ADDRESS") keys))),
          reindex').
Proof.
  revert buf reindex.
  induction keys as [|key keys IH]; intros buf reindex Hsub Hcomplete.
  { exists reindex. cbn. by rewrite str_app_nil_r. }
  cbn [for_each List.filter] in *.
  rewrite to_string_step_ipv4; [|apply Hsub; by left|].
  - destruct (str_contains "ADDRESS" key); cbn [andb List.filter] in *;
      [destruct (Route.is_ipv6_entry conf key);
       cbn [negb List.filter] in *|]; cbn [bind].
    + apply IH; [|done]. intros x Hx. apply Hsub. by right.
    + apply Forall_cons in Hcomplete as [_ Hcomplete].
      destruct (IH (buf +:+ Route.ipv4_lines conf ((reindex + 1)%Z, key))
                   (reindex + 1)%Z) as [r' ->]; [|done|].
      { intros x Hx. apply Hsub. by right. }
      exists r'. cbn [Route.enumerate fmap list_fmap str_concat foldr].
      by rewrite str_app_assoc.
    + apply IH; [|done]. intros x Hx. apply Hsub. by right.
  - intros Hkey. destruct (str_contains "ADDRESS" key); [|done].
    cbn [andb List.filter] in *.
    destruct (Route.is_ipv6_entry conf key); [done|].
    cbn [negb List.filter] in *. by apply Forall_cons in Hcomplete as [? _].
Qed.

Lemma to_string_loop_ipv6 (conf : dict value) (keys : list string)
    (buf : string) (reindex : Z) :
  keys ⊆ dict_keys conf →
  Forall (Route.complete conf)
    (List.filter (Route.is_ipv6_entry conf)
       (List.filter (str_contains "ADDRESS") keys)) →
  for_each (Route.to_string_step conf "ipv6") keys (buf, reindex)
  = Ok (buf +:+ str_concat
          (Route.ipv6_line conf
           <$> List.filter (Route.is_ipv6_entry conf)
                 (List.filter (str_contains "ADDRESS") keys)),
        reindex).
Proof.
  revert buf.
  induction keys as [|key keys IH]; intros buf Hsub Hcomplete.
  { cbn. by rewrite str_app_nil_r. }
  cbn [for_each List.filter] in *.
  rewrite to_string_step_ipv6; [|apply Hsub; by left|].
  - destruct (str_contains "ADDRESS" key); cbn [andb List.filter] in *;
      [destruct (Route.is_ipv6_entry conf key);
       cbn [negb List.filter] in *|]; cbn [bind].
    + apply Forall_cons in Hcomplete as [_ Hcomplete].
      rewrite IH; [|intros x Hx; apply Hsub; by right|done].
      cbn [fmap list_fmap str_concat foldr]. by rewrite str_app_assoc.
    + apply IH; [|done]. intros x Hx. apply Hsub. by right.
    + apply IH; [|done]. intros x Hx. apply Hsub. by right.
  - intros Hkey. destruct (str_contains "ADDRESS" key); [|done].
    cbn [andb List.filter] in *.
    destruct (Route.is_ipv6_entry conf key); [|done].
    cbn [List.filter] in *. by apply Forall_cons in Hcomplete as [? _].
Qed.

Lemma StronglySorted_List_filter {A : Type} (R : relation A) (f : A → bool)
    (l : list A) :
  StronglySorted R l → StronglySorted R (List.filter f l).
Proof.
  induction 1 as [|x l Hl IH Hx]; cbn [List.filter]; [constructor|].
  destruct (f x); [|done]. constructor; [done|].
  rewrite Forall_forall in Hx |- *.
  intros y [Hy _]%list_elem_of_In%filter_In. by apply Hx, list_elem_of_In.
Qed.

(** C4. [to_string] goes through the keys that contain [ADDRESS] in
    ascending order and tells the family of each entry by the colon in its
    address: an address is taken for IPv6 exactly when a colon is among
    its characters, and the entries of the other family are left out. For
    [ipv4] it writes, for the entries without a colon and in
    that order, the lines [ADDRESSi=], [GATEWAYi=] and [NETMASKi=] with
    [i] counting from 0; for [ipv6] it writes, for the entries with a
    colon, one line [address/netmask via gateway] each, under no number.
    Both hold for a table in which the entries of the family asked for
    have their netmask and their gateway. Any other protocol raises
    [ValueError]. *)
Theorem C4_route_serialization (self : Route.t) :
  let conf := Route._conf self in
  (Forall (Route.complete conf) (Route.ipv4_keys conf) →
   Route.to_string self "ipv4" = Ok (Route.serialize_ipv4 conf))
  ∧ (Forall (Route.complete conf) (Route.ipv6_keys conf) →
     Route.to_string self "ipv6" = Ok (Route.serialize_ipv6 conf))
  ∧ (∀ proto, proto ≠ "ipv4" → proto ≠ "ipv6" →
       Route.to_string self proto
       = Raise (ValueError ("Unknown protocol '" +:+ proto +:+ "'")))
  ∧ (dict_wf conf →
     StronglySorted str_lt (Route.address_keys conf)
     ∧ StronglySorted str_lt (Route.ipv4_keys conf)
     ∧ StronglySorted str_lt (Route.ipv6_keys conf))
  ∧ (∀ address,
       Route.is_ipv6_route address = true
       ↔ ∃ pre post, address = pre +:+ ":" +:+ post).
Proof.
  intros conf. split_and!; [| | | |intros address; apply str_contains_spec].
  - intros Hcomplete. unfold Route.to_string.
    rewrite bool_decide_eq_true_2 by (by left). cbn [negb].
    fold conf. unfold Route.serialize_ipv4, Route.preamble.
    assert (sorted (dict_keys conf) ⊆ dict_keys conf) as Hsub.
    { intros k Hk. by rewrite sorted_perm in Hk. }
    destruct (bool_decide (conf ≠ []));
      (edestruct (to_string_loop_ipv4 conf (sorted (dict_keys conf)))
         as [r' ->]; [exact Hsub | exact Hcomplete |]);
      cbn [bind]; by rewrite ?str_app_nil_r.
  - intros Hcomplete. unfold Route.to_string.
    rewrite bool_decide_eq_true_2 by (right; by left). cbn [negb].
    fold conf. unfold Route.serialize_ipv6, Route.preamble.
    assert (sorted (dict_keys conf) ⊆ dict_keys conf) as Hsub.
    { intros k Hk. by rewrite sorted_perm in Hk. }
    destruct (bool_decide (conf ≠ []));
      rewrite (to_string_loop_ipv6 conf _ _ _ Hsub Hcomplete);
      cbn [bind]; by rewrite ?str_app_nil_r.
  - intros proto H4 H6. unfold Route.to_string.
    rewrite bool_decide_eq_false_2; [done|].
    intros Hin. by decompose_list_elem_of.
  - intros Hwf.
    assert (StronglySorted str_lt (Route.address_keys conf)) as Hsorted.
    { by apply StronglySorted_List_filter, sorted_strict. }
    split_and!; [done|..]; by apply StronglySorted_List_filter.
Qed.

Lemma C4_route_serialization_witness :
  Route.to_string Sample.routes_mixed "ipv4"
  = Ok (Route.serialize_ipv4 (Route._conf Sample.routes_mixed))
  ∧ Route.to_string Sample.routes_mixed "ipv6"
    = Ok (Route.serialize_ipv6 (Route._conf Sample.routes_mixed)).
Proof.
  destruct (C4_route_serialization Sample.routes_mixed) as (H4 & H6 & _).
  split.
  - apply H4. repeat constructor; vm_compute; eauto.
  - apply H6. repeat constructor; vm_compute; eauto.
Defined.

Example serialize_ipv4_mixed :
  Route.serialize_ipv4 (Route._conf Sample.routes_mixed)
  = _make_header "#" +:+ nl +:+ "ADDRESS0=10.1.0.0" +:+ nl
    +:+ "GATEWAY0=10.0.0.2" +:+ nl +:+ "NETMASK0=255.255.0.0" +:+ nl.
Proof. reflexivity. Qed.

Example serialize_ipv6_mixed :
  Route.serialize_ipv6 (Route._conf Sample.routes_mixed)
  = _make_header "#" +:+ nl +:+ "2001:db8::/64 via fe80::1" +:+ nl.
Proof. reflexivity. Qed.

(** ** The subnet pass: static addresses *)

Lemma pretty_N_go_length (x : N) (s : string) :
  String.length s ≤ String.length (pretty_N_go x s).
Proof.
  revert s. induction (N.lt_wf_0 x) as [x _ IH]. intros s.
  destruct (decide (x = 0%N)) as [->|Hx]; [by rewrite pretty_N_go_0|].
  rewrite pretty_N_go_step by lia.
  etrans; [|apply IH, N.div_lt; lia]. simpl. lia.
Qed.

Lemma pretty_N_nonempty (x : N) : pretty x ≠ "".
Proof.
  unfold pretty, pretty_N. case_decide as Hx; [done|].
  rewrite pretty_N_go_step by lia. intros Hempty.
  pose proof (pretty_N_go_length (x `div` 10)
                (String (pretty_N_char (x `mod` 10)) "")) as Hlen.
  rewrite Hempty in Hlen. simpl in Hlen. lia.
Qed.

Lemma pretty_Z_nonempty (z : Z) : pretty z ≠ "".
Proof.
  destruct z as [|p|p]; unfold pretty, pretty_Z.
  - done.
  - apply pretty_N_nonempty.
  - by rewrite str_app_cons.
Qed.

Lemma str_app_eq_self (a b : string) : a = a +:+ b → b = "".
Proof.
  intros Heq. rewrite <- (str_app_nil_r a) in Heq at 1.
  by apply (inj (String.app a)) in Heq.
Qed.

Lemma numbered_inj (stem : string) (n m : nat) :
  Renderer.numbered stem n = Renderer.numbered stem m → n = m.
Proof.
  destruct n as [|n], m as [|m]; cbn [Renderer.numbered]; [done|..].
  - intros Heq%str_app_eq_self. by apply pretty_Z_nonempty in Heq.
  - intros Heq. symmetry in Heq. apply str_app_eq_self in Heq.
    by apply pretty_Z_nonempty in Heq.
  - intros Heq%(inj (String.app stem))%(inj pretty). lia.
Qed.

Lemma numbered_ne (a b : string) (c d : ascii) (n m : nat) :
  c ≠ d →
  Renderer.numbered (String c a) n ≠ Renderer.numbered (String d b) m.
Proof.
  intros Hne. destruct n, m; cbn [Renderer.numbered];
    rewrite ?str_app_cons; congruence.
Qed.

Lemma subnet_static_other (st : NetInterface.t * Z * Z) (sn : subnet) :
  Renderer.known_subnet_type sn = true → Renderer.is_static sn = false →
  Renderer.subnet_static st sn = Ok st.
Proof.
  unfold Renderer.known_subnet_type, Renderer.is_static.
  intros Hknown%bool_decide_eq_true Hstatic%bool_decide_eq_false.
  destruct st as [[cfg i4] i6]. unfold Renderer.subnet_static.
  repeat case_bool_decide; try done.
Qed.

Lemma static_is_ipv6 (sn : subnet) (a : string) :
  sn_type sn = Some "static" → sn_address sn = Some a →
  _subnet_is_ipv6 sn = Ok (str_contains ":" a).
Proof.
  intros Hty Ha. unfold _subnet_is_ipv6. rewrite Hty, Ha. cbn.
  by destruct (str_contains ":" a).
Qed.

Lemma subnet_static_ipv4 (cfg : NetInterface.t) (i4 i6 : Z) (n : nat)
    (sn : subnet) (a : string) :
  sn_type sn = Some "static" → sn_address sn = Some a →
  str_contains ":" a = false → i4 = (Z.of_nat n - 1)%Z →
  Renderer.subnet_static (cfg, i4, i6) sn
  = Ok (match sn_netmask sn with
        | Some nm =>
            NetInterface.__setitem__
              (NetInterface.__setitem__ cfg (Renderer.numbered "IPADDR" n)
                 (VStr a))
              (Renderer.numbered "NETMASK" n) nm
        | None =>
            NetInterface.__setitem__ cfg (Renderer.numbered "IPADDR" n)
              (VStr a)
        end, Z.of_nat n, i6).
Proof.
  intros Hty Ha Hcolon ->. unfold Renderer.subnet_static.
  rewrite (static_is_ipv6 sn a Hty Ha), Hcolon, Hty, Ha.
  cbn [bind field]. replace (Z.of_nat n - 1 + 1)%Z with (Z.of_nat n) by lia.
  rewrite bool_decide_eq_false_2 by done.
  rewrite bool_decide_eq_false_2
    by (intros Hin; by decompose_list_elem_of).
  rewrite bool_decide_eq_true_2 by done.
  destruct n as [|n]; [by destruct (sn_netmask sn)|].
  destruct (Z.eqb_spec (Z.of_nat (S n)) 0) as [Hz|_]; [lia|].
  by destruct (sn_netmask sn).
Qed.

Lemma ipv6_cidr_text (sn : subnet) (a : string) :
  sn_address sn = Some a → Renderer.ipv6_cidr sn = Ok (Renderer.cidr_text sn).
Proof.
  intros Ha. unfold Renderer.ipv6_cidr, Renderer.cidr_text,
    Renderer.address_text. rewrite Ha.
  destruct (sn_netmask sn) as [nm|]; [|done]. cbn [field bind default].
  by destruct (String.eqb (py_str nm) "").
Qed.

Lemma subnet_static_ipv6 (cfg : NetInterface.t) (i4 i6 : Z) (n : nat)
    (sn : subnet) (a : string) :
  sn_type sn = Some "static" → sn_address sn = Some a →
  str_contains ":" a = true → i6 = (Z.of_nat n - 1)%Z →
  Renderer.subnet_static (cfg, i4, i6) sn
  = match n with
    | 0 => Ok (NetInterface.__setitem__ cfg "IPV6ADDR"
                 (VStr (Renderer.cidr_text sn)), i4, Z.of_nat n)
    | 1 => Ok (NetInterface.__setitem__ cfg "IPV6ADDR_SECONDARIES"
                 (VStr (Renderer.cidr_text sn)), i4, Z.of_nat n)
    | _ =>
        let* old := NetInterface.__getitem__ cfg "IPV6ADDR_SECONDARIES" in
        let* old_sp := Renderer.add_str old " " in
        Ok (NetInterface.__setitem__ cfg "IPV6ADDR_SECONDARIES"
              (VStr (old_sp +:+ Renderer.cidr_text sn)), i4, Z.of_nat n)
    end.
Proof.
  intros Hty Ha Hcolon ->. unfold Renderer.subnet_static.
  rewrite (static_is_ipv6 sn a Hty Ha), Hcolon, (ipv6_cidr_text sn a Ha), Hty.
  cbn [bind]. replace (Z.of_nat n - 1 + 1)%Z with (Z.of_nat n) by lia.
  rewrite bool_decide_eq_false_2 by done.
  rewrite bool_decide_eq_false_2
    by (intros Hin; by decompose_list_elem_of).
  rewrite bool_decide_eq_true_2 by done.
  destruct n as [|[|n]]; [done..|].
  destruct (Z.eqb_spec (Z.of_nat (S (S n))) 0) as [Hz|_]; [lia|].
  destruct (Z.eqb_spec (Z.of_nat (S (S n))) 1) as [Hz|_]; [lia|]. done.
Qed.

Lemma str_join_snoc (sep x : string) (l : list string) :
  l ≠ [] → str_join sep (l ++ [x]) = str_join sep l +:+ sep +:+ x.
Proof.
  unfold str_join. induction l as [|y l IH]; [done|]. intros _.
  destruct l as [|z l]; [done|].
  change (String.concat sep ((y :: z :: l) ++ [x]))
    with (y +:+ sep +:+ String.concat sep ((z :: l) ++ [x])).
  rewrite IH by done.
  change (String.concat sep (y :: z :: l))
    with (y +:+ sep +:+ String.concat sep (z :: l)).
  by rewrite !str_app_assoc.
Qed.

Lemma ipaddr_ne_ipv6addr (n : nat) (rest : string) :
  Renderer.numbered "IPADDR" n ≠ "IPV6ADDR" +:+ rest.
Proof.
  destruct n; cbn [Renderer.numbered]; rewrite ?str_app_cons; congruence.
Qed.

Lemma netmask_ne_ipv6addr (n : nat) (rest : string) :
  Renderer.numbered "NETMASK" n ≠ "IPV6ADDR" +:+ rest.
Proof.
  destruct n; cbn [Renderer.numbered]; rewrite ?str_app_cons; congruence.
Qed.

Lemma static_written_other (l : list subnet) (conf conf' : dict value) :
  (∀ n, dict_get (Renderer.numbered "IPADDR" n) conf'
        = dict_get (Renderer.numbered "IPADDR" n) conf) →
  (∀ n, dict_get (Renderer.numbered "NETMASK" n) conf'
        = dict_get (Renderer.numbered "NETMASK" n) conf) →
  (∀ n sn, Renderer.static_ipv4 l !! n = Some sn →
     dict_get (Renderer.numbered "IPADDR" n) conf
     = Some (VStr (Renderer.address_text sn))
     ∧ ∀ nm, sn_netmask sn = Some nm →
             dict_get (Renderer.numbered "NETMASK" n) conf = Some nm) →
  ∀ n sn, Renderer.static_ipv4 l !! n = Some sn →
    dict_get (Renderer.numbered "IPADDR" n) conf'
    = Some (VStr (Renderer.address_text sn))
    ∧ ∀ nm, sn_netmask sn = Some nm →
            dict_get (Renderer.numbered "NETMASK" n) conf' = Some nm.
Proof.
  intros Hip Hnm Hw n sn Hn. rewrite Hip, Hnm. by apply Hw.
Qed.

Lemma subnet_static_loop (cfg0 : NetInterface.t) (subnets : list subnet) :
  Forall (λ sn, Renderer.known_subnet_type sn = true) subnets →
  Forall Renderer.static_has_address subnets →
  ∃ cfg',
    for_each Renderer.subnet_static subnets (cfg0, (-1)%Z, (-1)%Z)
    = Ok (cfg',
          (Z.of_nat (length (Renderer.static_ipv4 subnets)) - 1)%Z,
          (Z.of_nat (length (Renderer.static_ipv6 subnets)) - 1)%Z)
    ∧ Renderer.static_addresses_written subnets (NetInterface._conf cfg').
Proof.
  induction subnets as [|sn l IH] using rev_ind; intros Hknown Haddr.
  { exists cfg0. split; [done|]. by split_and!. }
  apply Forall_app in Hknown as [Hkl [Hksn _]%Forall_cons].
  apply Forall_app in Haddr as [Hal [Hasn _]%Forall_cons].
  destruct (IH Hkl Hal) as (cfg1 & Hloop & Hw4 & Hw6 & Hsec).
  rewrite for_each_app, Hloop. cbn [bind for_each].
  unfold Renderer.static_addresses_written, Renderer.static_ipv4,
    Renderer.static_ipv6 in *.
  rewrite !List.filter_app. cbn [List.filter].
  destruct (Renderer.is_static sn) eqn:Hstatic.
  2: { assert (Renderer.is_ipv4_static sn = false) as ->.
       { unfold Renderer.is_ipv4_static. by rewrite Hstatic. }
       assert (Renderer.is_ipv6_static sn = false) as ->.
       { unfold Renderer.is_ipv6_static. by rewrite Hstatic. }
       rewrite subnet_static_other by done. cbn [bind].
       rewrite !app_nil_r. exists cfg1. by split_and!. }
  pose proof Hstatic as Hty. apply bool_decide_eq_true in Hty.
  destruct (Hasn Hty) as [a Ha].
  assert (Renderer.is_ipv6_static sn = str_contains ":" a) as ->.
  { unfold Renderer.is_ipv6_static, Renderer.address_text.
    by rewrite Hstatic, Ha. }
  assert (Renderer.is_ipv4_static sn = negb (str_contains ":" a)) as ->.
  { unfold Renderer.is_ipv4_static, Renderer.address_text.
    by rewrite Hstatic, Ha. }
  destruct (str_contains ":" a) eqn:Hcolon; cbn [negb].
  - (* an IPv6 static subnet *)
    rewrite app_nil_r.
    rewrite (subnet_static_ipv6 cfg1 _ _
               (length (List.filter Renderer.is_ipv6_static l)) sn a)
      by done.
    destruct (List.filter Renderer.is_ipv6_static l) as [|s1 [|s2 rest]]
      eqn:H6; cbn [length app].
    + eexists. split; [done|]. cbn [NetInterface.__setitem__
        NetInterface.set_conf NetInterface._conf].
      unfold ConfigMap.__setitem__. split_and!.
      * apply (static_written_other l (NetInterface._conf cfg1)); [| |done];
          intros n; apply dict_get_set_ne; apply not_eq_sym;
          [apply (ipaddr_ne_ipv6addr n "")
          |apply (netmask_ne_ipv6addr n "")].
      * intros sn' [= <-]. apply dict_get_set_eq.
      * intros sn' rest' [= <- <-]. done.
    + eexists. split; [done|]. cbn [NetInterface.__setitem__
        NetInterface.set_conf NetInterface._conf].
      unfold ConfigMap.__setitem__. split_and!.
      * apply (static_written_other l (NetInterface._conf cfg1)); [| |done];
          intros n; apply dict_get_set_ne; apply not_eq_sym;
          [apply (ipaddr_ne_ipv6addr n "_SECONDARIES")
          |apply (netmask_ne_ipv6addr n "_SECONDARIES")].
      * intros sn' [= <-]. rewrite dict_get_set_ne by done. by apply Hw6.
      * intros sn' rest' [= <- <-] _. apply dict_get_set_eq.
    + unfold NetInterface.__getitem__, ConfigMap.__getitem__, dict_getitem.
      rewrite (Hsec s1 (s2 :: rest)) by done. cbn [bind Renderer.add_str].
      replace (Z.of_nat (S (S (length (rest ++ [sn])))) - 1)%Z
        with (Z.of_nat (S (S (length rest))))
        by (rewrite length_app; cbn [length]; lia).
      eexists. split; [done|]. cbn [NetInterface.__setitem__
        NetInterface.set_conf NetInterface._conf].
      unfold ConfigMap.__setitem__. split_and!.
      * apply (static_written_other l (NetInterface._conf cfg1)); [| |done];
          intros n; apply dict_get_set_ne; apply not_eq_sym;
          [apply (ipaddr_ne_ipv6addr n "_SECONDARIES")
          |apply (netmask_ne_ipv6addr n "_SECONDARIES")].
      * intros sn' [= <-]. rewrite dict_get_set_ne by done. by apply Hw6.
      * intros sn' rest' [= <- <-] _. rewrite dict_get_set_eq.
        do 2 f_equal.
        change (s2 :: rest ++ [sn]) with ((s2 :: rest) ++ [sn]).
        rewrite fmap_app.
        change (Renderer.cidr_text <$> [sn]) with [Renderer.cidr_text sn].
        rewrite str_join_snoc by (by rewrite fmap_cons).
        by rewrite str_app_assoc.
  - (* an IPv4 static subnet *)
    rewrite app_nil_r.
    rewrite (subnet_static_ipv4 cfg1 _ _
               (length (List.filter Renderer.is_ipv4_static l)) sn a)
      by done.
    cbn [bind]. rewrite length_app. cbn [length].
    set (n4 := length (List.filter Renderer.is_ipv4_static l)) in *.
    replace (Z.of_nat (n4 + 1) - 1)%Z with (Z.of_nat n4) by lia.
    eexists. split; [done|].
    assert (∀ key, key ≠ Renderer.numbered "IPADDR" n4 →
                   key ≠ Renderer.numbered "NETMASK" n4 →
                   dict_get key
                     (NetInterface._conf
                        match sn_netmask sn with
                        | Some nm =>
                            NetInterface.__setitem__
                              (NetInterface.__setitem__ cfg1
                                 (Renderer.numbered "IPADDR" n4) (VStr a))
                              (Renderer.numbered "NETMASK" n4) nm
                        | None =>
                            NetInterface.__setitem__ cfg1
                              (Renderer.numbered "IPADDR" n4) (VStr a)
                        end)
                   = dict_get key (NetInterface._conf cfg1)) as Hother.
    { intros key H1 H2. destruct (sn_netmask sn); cbn;
        unfold ConfigMap.__setitem__;
        rewrite !dict_get_set_ne by done; done. }
    split_and!.
    + intros n sn' Hn. apply lookup_app_Some in Hn as [Hn|[Hlen Hn]].
      * pose proof (lookup_lt_Some _ _ _ Hn) as Hlt. fold n4 in Hlt.
        destruct (Hw4 n sn' Hn) as [Hip Hnm].
        rewrite !Hother; [done|..].
        -- by apply numbered_ne.
        -- intros Heq%numbered_inj. lia.
        -- intros Heq%numbered_inj. lia.
        -- apply not_eq_sym. by apply numbered_ne.
      * fold n4 in Hlen, Hn. assert (n = n4) as ->.
        { apply lookup_lt_Some in Hn. cbn [length] in Hn. lia. }
        replace (n4 - n4) with 0 in Hn by lia. injection Hn as <-.
        unfold Renderer.address_text. rewrite Ha. cbn [default].
        destruct (sn_netmask sn) as [nm|]; cbn;
          unfold ConfigMap.__setitem__.
        -- split.
           ++ rewrite dict_get_set_ne by (apply not_eq_sym; by apply numbered_ne).
              apply dict_get_set_eq.
           ++ intros nm' [= <-]. apply dict_get_set_eq.
        -- split; [apply dict_get_set_eq | done].
    + intros sn' Hn. rewrite Hother; [by apply Hw6|..].
      * apply not_eq_sym, (ipaddr_ne_ipv6addr n4 "").
      * apply not_eq_sym, (netmask_ne_ipv6addr n4 "").
    + intros sn' rest' Hn Hrest. rewrite Hother; [by eapply Hsec|..].
      * apply not_eq_sym, (ipaddr_ne_ipv6addr n4 "_SECONDARIES").
      * apply not_eq_sym, (netmask_ne_ipv6addr n4 "_SECONDARIES").
Qed.

Lemma subnet_base_total (subnets : list subnet) (iface_cfg : NetInterface.t) :
  Forall (λ sn, Renderer.known_subnet_type sn = true) subnets →
  Forall Renderer.static_has_address subnets →
  ∃ cfg', for_each Renderer.subnet_base subnets iface_cfg = Ok cfg'.
Proof.
  revert iface_cfg.
  induction subnets as [|sn subnets IH]; intros iface_cfg Hknown Haddr.
  { by exists iface_cfg. }
  apply Forall_cons in Hknown as [Hsn Hknown].
  apply Forall_cons in Haddr as [Hasn Haddr]. cbn [for_each].
  destruct (subnet_base_cases iface_cfg sn)
    as [[_ [(cfg' & -> & _)|(Hty & Ha & _)]]|[Hunknown _]].
  - cbn [bind]. by apply IH.
  - destruct (Hasn Hty) as [a Ha']. congruence.
  - congruence.
Qed.

(** C3. For the subnets of one interface, all of a known type and the
    static ones with their address, [_render_subnets] returns a
    configuration in which the static subnets are numbered from 0 family by
    family, in the order of the list: the first IPv4 one is under [IPADDR]
    with its netmask, when it has one, under [NETMASK], and the n-th
    following one under [IPADDRn] and [NETMASKn]; the first IPv6 one is
    under [IPV6ADDR] as [address/netmask], or as the bare address when it
    has no netmask, and the following ones are under
    [IPV6ADDR_SECONDARIES], separated by one space. *)
Theorem C3_static_addresses (iface_cfg : NetInterface.t)
    (subnets : list subnet) :
  Forall (λ sn, Renderer.known_subnet_type sn = true) subnets →
  Forall Renderer.static_has_address subnets →
  ∃ cfg', Renderer._render_subnets iface_cfg subnets = Ok cfg'
          ∧ Renderer.static_addresses_written subnets
              (NetInterface._conf cfg').
Proof.
  intros Hknown Haddr. unfold Renderer._render_subnets.
  destruct (subnet_base_total subnets
              (NetInterface.__setitem__ iface_cfg "BOOTPROTO" (VStr "none"))
              Hknown Haddr) as [cfg1 ->].
  cbn [bind].
  destruct (subnet_static_loop cfg1 subnets Hknown Haddr)
    as (cfg' & -> & Hwritten).
  by exists cfg'.
Qed.

Lemma C3_static_addresses_witness :
  ∃ cfg',
    Renderer._render_subnets Sample.eth0
      [Sample.static4 "10.0.0.5" []; Sample.static6 "2001:db8::5" [];
       Sample.typed "dhcp"; Sample.static4 "10.0.0.6" [];
       Sample.static6 "2001:db8::6" []; Sample.static6 "2001:db8::7" []]
    = Ok cfg'
    ∧ Renderer.static_addresses_written
        [Sample.static4 "10.0.0.5" []; Sample.static6 "2001:db8::5" [];
         Sample.typed "dhcp"; Sample.static4 "10.0.0.6" [];
         Sample.static6 "2001:db8::6" []; Sample.static6 "2001:db8::7" []]
        (NetInterface._conf cfg').
Proof.
  apply (C3_static_addresses Sample.eth0).
  - repeat constructor.
  - repeat (apply Forall_cons; split); try (by apply Forall_nil);
      unfold Renderer.static_has_address; intros Hty;
      try discriminate Hty; vm_compute; eauto.
Defined.

Example two_static_ipv4_subnets :
  (let* cfg' := Renderer._render_subnets Sample.eth0
                  [Sample.static4 "10.0.0.5" []; Sample.static4 "10.0.0.6" []]
   in NetInterface.to_string cfg')
  = Ok (_make_header "#" +:+ nl +:+ "BOOTPROTO=none" +:+ nl
        +:+ "DEVICE=eth0" +:+ nl +:+ "IPADDR=10.0.0.5" +:+ nl
        +:+ "IPADDR1=10.0.0.6" +:+ nl +:+ "NETMASK=255.255.255.0" +:+ nl
        +:+ "NETMASK1=255.255.255.0" +:+ nl +:+ "TYPE=Ethernet" +:+ nl).
Proof. reflexivity. Qed.

Example static_ipv6_subnets :
  (let* cfg' := Renderer._render_subnets Sample.eth0
                  [Sample.static6 "2001:db8::5" [];
                   Sample.static6 "2001:db8::6" [];
                   Sample.static6 "2001:db8::7" []]
   in Ok (dict_get "IPV6ADDR" (NetInterface._conf cfg'),
          dict_get "IPV6ADDR_SECONDARIES" (NetInterface._conf cfg')))
  = Ok (Some (VStr "2001:db8::5/64"),
        Some (VStr "2001:db8::6/64 2001:db8::7/64")).
Proof. reflexivity. Qed.

(** ** The pipeline on one interface *)

Example files_of_a_dhcp_interface :
  (let* iface_contents := Sample.rendered Sample.iface_dhcp in
   let* contents := Renderer.collect iface_contents in
   Ok (dict_keys contents))
  = Ok ["etc/sysconfig/network-scripts/ifcfg-eth0"].
Proof. reflexivity. Qed.

Example files_of_a_static_interface :
  (let* iface_contents := Sample.rendered Sample.iface_static in
   let* contents := Renderer.collect iface_contents in
   Ok (dict_keys contents,
       dict_get "etc/sysconfig/network-scripts/route-eth0" contents))
  = Ok (["etc/sysconfig/network-scripts/ifcfg-eth0";
         "etc/sysconfig/network-scripts/route-eth0";
         "etc/sysconfig/network-scripts/route6-eth0"],
        Some (_make_header "#" +:+ nl +:+ "ADDRESS0=10.1.0.0" +:+ nl
              +:+ "GATEWAY0=10.0.0.2" +:+ nl +:+ "NETMASK0=255.255.0.0"
              +:+ nl)).
Proof. reflexivity. Qed.

Example ifcfg_of_a_static_interface :
  (let* iface_contents := Sample.rendered Sample.iface_static in
   let* contents := Renderer.collect iface_contents in
   Ok (dict_get "etc/sysconfig/network-scripts/ifcfg-eth0" contents))
  = Ok (Some (_make_header "#" +:+ nl +:+ "BOOTPROTO=none" +:+ nl
              +:+ "DEFROUTE=yes" +:+ nl +:+ "DEVICE=eth0" +:+ nl
              +:+ "GATEWAY=10.0.0.1" +:+ nl
              +:+ "HWADDR=fa:16:3e:00:00:01" +:+ nl
              +:+ "IPADDR=10.0.0.5" +:+ nl
              +:+ "NETMASK=255.255.255.0" +:+ nl +:+ "ONBOOT=no" +:+ nl
              +:+ "TYPE=Ethernet" +:+ nl +:+ "USERCTL=no" +:+ nl)).
Proof. reflexivity. Qed.

(** ** From the route pass to the route files *)

Lemma prefix_empty (s : string) : String.prefix "" s = true.
Proof. by destruct s. Qed.

Lemma prefix_first_char (c d : ascii) (a s : string) :
  c ≠ d → String.prefix (String c a) (String d s) = false.
Proof. intros Hne. cbn. by destruct (ascii_dec c d). Qed.

Lemma str_replace_absent (c : ascii) (old new s : string) :
  str_contains (String c "") s = false →
  str_replace_go (String c old) new s 0 = s.
Proof.
  induction s as [|d s IH]; [done|]. cbn [str_contains].
  intros [Hd Hs]%orb_false_iff. cbn [str_replace_go].
  assert (c ≠ d) as Hne.
  { intros ->. cbn in Hd. destruct (ascii_dec d d); [|done].
    by rewrite prefix_empty in Hd. }
  rewrite prefix_first_char by done. f_equal. by apply IH.
Qed.

Lemma pretty_N_go_no_A (x : N) (s : string) :
  str_contains "A" s = false → str_contains "A" (pretty_N_go x s) = false.
Proof.
  revert s. induction (N.lt_wf_0 x) as [x _ IH]. intros s Hs.
  destruct (decide (x = 0%N)) as [->|Hx]; [by rewrite pretty_N_go_0|].
  rewrite pretty_N_go_step by lia. apply IH; [apply N.div_lt; lia|].
  cbn [str_contains]. rewrite Hs, orb_false_r.
  unfold pretty_N_char. by repeat case_match.
Qed.

Lemma pretty_Z_no_A (z : Z) : str_contains "A" (pretty z) = false.
Proof.
  assert (∀ x : N, str_contains "A" (pretty x) = false) as HN.
  { intros x. unfold pretty, pretty_N. case_decide; [done|].
    by apply pretty_N_go_no_A. }
  destruct z as [|p|p]; unfold pretty, pretty_Z; [done | apply HN |].
  rewrite str_app_cons, str_app_nil_l. cbn [str_contains].
  change (pretty p) with (pretty (Npos p)). rewrite HN, orb_false_r.
  by apply prefix_first_char.
Qed.

(** The index that [to_string] reads off the key [ADDRESSn] is [n]. *)
Lemma index_of_address (z : Z) :
  str_contains "ADDRESS" ("ADDRESS" +:+ pretty z) = true
  ∧ Route.index_of ("ADDRESS" +:+ pretty z) = pretty z.
Proof.
  split.
  - apply str_contains_spec. by exists "", (pretty z).
  - unfold Route.index_of, str_replace. rewrite !str_app_cons, str_app_nil_l.
    cbn [str_replace_go String.prefix String.length Nat.sub].
    repeat (destruct (ascii_dec _ _); [|done]).
    rewrite prefix_empty, str_app_nil_l.
    apply str_replace_absent, pretty_Z_no_A.
Qed.

(** A route with its network, netmask and gateway that the route pass
    stores is an entry of the table that [to_string] can write. *)
Lemma rendered_route_complete (sn : subnet) (iface_cfg iface_cfg' : NetInterface.t)
    (route_cfg route_cfg' : Route.t) (r : route) :
  ¬ canonical_default r →
  is_Some (rt_network r) → is_Some (rt_netmask r) → is_Some (rt_gateway r) →
  Renderer.render_route sn (iface_cfg, route_cfg) r
  = Ok (iface_cfg', route_cfg') →
  dict_get ("ADDRESS" +:+ pretty (Route.last_idx route_cfg))
    (Route._conf route_cfg') = rt_network r
  ∧ Route.complete (Route._conf route_cfg')
      ("ADDRESS" +:+ pretty (Route.last_idx route_cfg)).
Proof.
  intros Hnot [net Hnet] [nm Hnm] [gw Hgw] Hrender.
  destruct (render_route_classified _ _ _ _ Hrender) as [[|] Hdef].
  { by apply is_default_route_spec in Hdef. }
  destruct (render_route_indexed _ _ _ _ _ _ Hdef Hrender)
    as (_ & _ & _ & _ & Ha & Hg & Hn & _).
  rewrite Hnet in Ha. rewrite Hgw in Hg. rewrite Hnm in Hn.
  split; [by rewrite Hnet|]. unfold Route.complete.
  destruct (index_of_address (Route.last_idx route_cfg)) as [_ ->].
  rewrite Hg, Hn. eauto.
Qed.

(** ** The passes keep the working set as it was built *)

Lemma subnet_base_same (iface_cfg cfg' : NetInterface.t) (sn : subnet) :
  Renderer.subnet_base iface_cfg sn = Ok cfg' →
  Renderer.same_interface cfg' iface_cfg
  ∧ NetInterface.routes cfg' = NetInterface.routes iface_cfg.
Proof.
  unfold Renderer.subnet_base. repeat case_bool_decide;
    try (by intros [= <-]).
  destruct (_subnet_is_ipv6 sn) as [[|]|]; by intros [= <-].
Qed.

Lemma subnet_static_same (st st' : NetInterface.t * Z * Z) (sn : subnet) :
  Renderer.subnet_static st sn = Ok st' →
  Renderer.same_interface st'.1.1 st.1.1
  ∧ NetInterface.routes st'.1.1 = NetInterface.routes st.1.1.
Proof.
  destruct st as [[cfg i4] i6]. unfold Renderer.subnet_static.
  repeat case_bool_decide; try (by intros [= <-]).
  destruct (_subnet_is_ipv6 sn) as [[|]|]; cbn [bind]; [| |done].
  - destruct (Renderer.ipv6_cidr sn) as [cidr|]; cbn [bind]; [|done].
    repeat case_match; try (by intros [= <-]).
    destruct (NetInterface.__getitem__ cfg "IPV6ADDR_SECONDARIES") as [old|];
      cbn [bind]; [|done].
    destruct (Renderer.add_str old " "); cbn [bind]; [|done].
    by intros [= <-].
  - destruct (field "address" (sn_address sn)); cbn [bind];
      repeat case_match; try done; by intros [= <-].
Qed.

Lemma render_subnets_same (iface_cfg cfg' : NetInterface.t)
    (subnets : list subnet) :
  Renderer._render_subnets iface_cfg subnets = Ok cfg' →
  Renderer.same_interface cfg' iface_cfg
  ∧ NetInterface.routes cfg' = NetInterface.routes iface_cfg.
Proof.
  unfold Renderer._render_subnets.
  destruct (for_each Renderer.subnet_base subnets _) as [cfg1|] eqn:H1;
    cbn [bind]; [|done].
  destruct (for_each Renderer.subnet_static subnets _) as [[[cfg2 i4] i6]|]
    eqn:H2; cbn [bind]; [|done].
  intros [= <-].
  assert (Renderer.same_interface cfg1 iface_cfg
          ∧ NetInterface.routes cfg1 = NetInterface.routes iface_cfg)
    as [(? & ? & ?) ?].
  { revert H1. apply (for_each_inv
      (λ s, Renderer.same_interface s iface_cfg
            ∧ NetInterface.routes s = NetInterface.routes iface_cfg));
      [|done].
    intros s sn s' _ [(? & ? & ?) ?] Hs.
    destruct (subnet_base_same _ _ _ Hs) as [(? & ? & ?) ?].
    repeat split; congruence. }
  revert H2. apply (for_each_inv
    (λ s, Renderer.same_interface s.1.1 iface_cfg
          ∧ NetInterface.routes s.1.1 = NetInterface.routes iface_cfg)).
  - intros s sn s' _ [(? & ? & ?) ?] Hs.
    destruct (subnet_static_same _ _ _ Hs) as [(? & ? & ?) ?].
    repeat split; congruence.
  - repeat split; done.
Qed.

Lemma new_iface_cfg_built (base : string) (ifc : iface)
    (iface_cfg : NetInterface.t) :
  Renderer.new_iface_cfg base ifc = Ok iface_cfg →
  Renderer.built_for base (if_name ifc, iface_cfg).
Proof.
  unfold Renderer.new_iface_cfg, NetInterface.__init__. cbn [bind].
  intros [= <-]. unfold Renderer._render_iface_shared.
  destruct (if_mac_address ifc) as [mac|], (if_mtu ifc) as [mtu|];
    cbn [foldl fst snd]; repeat case_bool_decide; by repeat split.
Qed.

Lemma render_physical_built (base k : string) (ifc : iface)
    (iface_cfg cfg' : NetInterface.t) :
  Renderer.built_for base (k, iface_cfg) →
  Renderer.render_physical ifc iface_cfg = Ok cfg' →
  Renderer.built_for base (k, cfg').
Proof.
  intros (Hname & Hbase & Hchildren & Hrname & Hrbase).
  unfold Renderer.render_physical.
  destruct (Renderer._render_subnets iface_cfg _) as [cfg1|] eqn:H1;
    cbn [bind]; [|done].
  destruct (Renderer._render_subnet_routes cfg1 _ _) as [[cfg2 rc2]|] eqn:H2;
    cbn [bind]; [|done].
  intros [= <-].
  destruct (render_subnets_same _ _ _ H1) as [(? & ? & ?) ?].
  destruct (render_subnet_routes_same _ _ _ _ H2) as [(? & ? & ?) [? ?]].
  unfold NetInterface.name in *. cbn [fst snd] in *.
  repeat split; cbn; congruence.
Qed.

(** The working set of a network state with one interface, after the
    initialization and the physical pass, is built as the collection
    expects it. *)
Lemma rendered_working_set (ifc : iface) (iface_contents : dict NetInterface.t) :
  Sample.rendered ifc = Ok iface_contents →
  Renderer.working_set "etc/sysconfig" iface_contents.
Proof.
  unfold Sample.rendered.
  destruct (Renderer.new_iface_cfg "etc/sysconfig" ifc) as [cfg0|] eqn:H0;
    cbn [bind]; [|done].
  destruct (Renderer.render_physical ifc cfg0) as [cfg1|] eqn:H1;
    cbn [bind]; [|done].
  intros [= <-]. split; [apply NoDup_singleton|].
  apply Forall_singleton.
  eapply render_physical_built; [|done]. by apply new_iface_cfg_built.
Qed.

(** * The rest of the renderer *)

(** ** ConfigMap: items *)

Lemma dict_get_pop_eq {V : Type} (k : string) (d : dict V) :
  dict_wf d → dict_get k (dict_pop k d) = None.
Proof.
  unfold dict_wf, dict_keys. induction d as [|[k' v'] d IH]; [done|].
  rewrite fmap_cons. intros [Hk' Hd]%NoDup_cons. cbn [dict_pop].
  destruct (decide (k = k')) as [->|Hne].
  - by apply dict_get_None.
  - cbn [dict_get]. rewrite decide_False by done. by apply IH.
Qed.

Lemma dict_pop_absent {V : Type} (k : string) (d : dict V) :
  dict_get k d = None → dict_pop k d = d.
Proof.
  induction d as [|[k' v'] d IH]; [done|]. cbn [dict_get dict_pop].
  destruct (decide (k = k')); [done|]. intros Hd. by rewrite IH.
Qed.

Lemma dict_set_length {V : Type} (k : string) (v : V) (d : dict V) :
  length (dict_set k v d)
  = match dict_get k d with
    | Some _ => length d
    | None => S (length d)
    end.
Proof.
  induction d as [|[k' v'] d IH]; [done|]. cbn [dict_get dict_set].
  destruct (decide (k = k')); [done|]. cbn [length]. rewrite IH.
  by destruct (dict_get k d).
Qed.

Lemma dict_pop_length {V : Type} (k : string) (d : dict V) :
  length (dict_pop k d)
  = match dict_get k d with
    | Some _ => pred (length d)
    | None => length d
    end.
Proof.
  induction d as [|[k' v'] d IH]; [done|]. cbn [dict_get dict_pop].
  destruct (decide (k = k')); [done|]. cbn [length]. rewrite IH.
  destruct (dict_get k d) eqn:Hk; [|done].
  destruct d; [done | by cbn].
Qed.

(** An item that is assigned is read back, the other items stay as they
    are; an item that is dropped is gone, [drop] on a missing key does
    nothing; and [len] counts the keys. *)
Theorem ConfigMap_items (d : dict value) (key other : string) (v : value) :
  dict_wf d → key ≠ other →
  ConfigMap.__getitem__ (ConfigMap.__setitem__ d key v) key = Ok v
  ∧ ConfigMap.__getitem__ (ConfigMap.__setitem__ d key v) other
    = ConfigMap.__getitem__ d other
  ∧ ConfigMap.__getitem__ (ConfigMap.drop d key) key = Raise (KeyError key)
  ∧ ConfigMap.__getitem__ (ConfigMap.drop d key) other
    = ConfigMap.__getitem__ d other
  ∧ (ConfigMap.__getitem__ d key = Raise (KeyError key) →
     ConfigMap.drop d key = d)
  ∧ ConfigMap.__len__ (ConfigMap.__setitem__ d key v)
    = (if returned (ConfigMap.__getitem__ d key) is Some _
       then ConfigMap.__len__ d else S (ConfigMap.__len__ d))
  ∧ ConfigMap.__len__ (ConfigMap.drop d key)
    = (if returned (ConfigMap.__getitem__ d key) is Some _
       then pred (ConfigMap.__len__ d) else ConfigMap.__len__ d)
  ∧ ConfigMap.__len__ d = length (dict_keys d)
  ∧ dict_wf (ConfigMap.__setitem__ d key v)
  ∧ dict_wf (ConfigMap.drop d key).
Proof.
  intros Hwf Hne.
  unfold ConfigMap.__getitem__, ConfigMap.__setitem__, ConfigMap.drop,
    ConfigMap.__len__, dict_getitem.
  rewrite dict_get_set_eq, (dict_get_set_ne _ _ _ _ Hne),
    (dict_get_pop_eq _ _ Hwf), (dict_get_pop_ne _ _ _ Hne),
    dict_set_length, dict_pop_length.
  split_and!; try done.
  - destruct (dict_get key d) eqn:Hk; [done|]. intros _.
    by apply dict_pop_absent.
  - by destruct (dict_get key d).
  - by destruct (dict_get key d).
  - unfold dict_keys. by rewrite length_fmap.
  - by apply dict_wf_set.
  - by apply dict_wf_pop.
Qed.

Lemma ConfigMap_items_witness :
  ConfigMap.__getitem__
    (ConfigMap.drop (ConfigMap.run [ConfigMap.OpSet "MTU" (VInt 1500)]) "MTU")
    "MTU"
  = Raise (KeyError "MTU").
Proof.
  apply (ConfigMap_items (ConfigMap.run [ConfigMap.OpSet "MTU" (VInt 1500)])
           "MTU" "DEVICE" (VInt 9000)).
  - apply NoDup_singleton.
  - discriminate.
Defined.

(** ** Quoting twice *)

Lemma has_whitespace_app (a b : string) :
  has_whitespace (a +:+ b) = has_whitespace a || has_whitespace b.
Proof.
  induction a as [|c a IH]; [done|]. rewrite str_app_cons.
  cbn [has_whitespace]. by rewrite IH, orb_assoc.
Qed.

(** [_quote_value] leaves its own results alone, and a result with
    whitespace in it starts and ends with a double quote. *)
Theorem quote_value_idempotent (s : string) :
  _quote_value (_quote_value s) = _quote_value s
  ∧ (contains_whitespace (_quote_value s) → double_quoted (_quote_value s))
  ∧ (¬ contains_whitespace s → _quote_value s = s).
Proof.
  assert (has_whitespace s = true →
          double_quoted (dquote +:+ s +:+ dquote)
          ∧ has_whitespace (dquote +:+ s +:+ dquote) = true) as Hwrap.
  { intros Hws. split.
    - split; [by exists (s +:+ dquote)|]. exists (dquote +:+ s).
      by rewrite str_app_assoc.
    - by rewrite !has_whitespace_app, Hws, orb_true_r. }
  destruct (has_whitespace s) eqn:Hws.
  - destruct (startswith dquote s && endswith dquote s) eqn:Hq.
    + assert (_quote_value s = s) as Hs
        by (unfold _quote_value; by rewrite Hws, Hq).
      rewrite !Hs. split_and!; [done| |done].
      intros _. by apply double_quoted_spec.
    + assert (_quote_value s = dquote +:+ s +:+ dquote) as Hs
        by (unfold _quote_value; by rewrite Hws, Hq).
      destruct (Hwrap eq_refl) as [Hdq Hws'].
      rewrite !Hs. split_and!.
      * unfold _quote_value. rewrite Hws'.
        by apply double_quoted_spec in Hdq as ->.
      * done.
      * intros Hno. destruct Hno. by apply has_whitespace_spec.
  - assert (_quote_value s = s) as Hs
      by (unfold _quote_value; by rewrite Hws).
    rewrite !Hs. split_and!; [done| |done].
    intros Hc%has_whitespace_spec. congruence.
Qed.

(** ** Copies *)

Ltac in_list :=
  repeat first [apply list_elem_of_here | apply list_elem_of_further].

Ltac dict_simpl :=
  repeat (rewrite dict_get_set_eq
          || rewrite dict_get_set_ne by discriminate).

Lemma Route_copy_eq (r : Route.t) : Route.copy r = r.
Proof. by destruct r. Qed.

(** A copy has the configuration, the kind, the name and the directory of
    the original.  It has the children and the route table of the original
    only when asked for them: otherwise it has no children and the empty
    route table of a new interface. *)
Theorem NetInterface_copy (self : NetInterface.t)
    (copy_children copy_routes : bool) :
  NetInterface.valid_kind (NetInterface.kind self) →
  ∃ c, NetInterface.copy self copy_children copy_routes = Ok c
       ∧ NetInterface._conf c = NetInterface._conf self
       ∧ NetInterface.kind c = NetInterface.kind self
       ∧ NetInterface.name c = NetInterface.name self
       ∧ NetInterface._base_sysconf_dir c
         = NetInterface._base_sysconf_dir self
       ∧ NetInterface.children c
         = (if copy_children then NetInterface.children self else [])
       ∧ NetInterface.routes c
         = (if copy_routes then NetInterface.routes self
            else Route.__init__ (NetInterface.name self)
                   (NetInterface._base_sysconf_dir self)).
Proof.
  intros Hkind%iface_types_valid.
  unfold NetInterface.copy, NetInterface.__init__, NetInterface.set_kind,
    NetInterface.kind in *.
  destruct (dict_get (NetInterface._kind self) NetInterface.iface_types)
    as [label|]; [|by destruct Hkind].
  cbn [bind]. eexists. split; [done|]. rewrite Route_copy_eq.
  by destruct copy_children, copy_routes.
Qed.

Lemma NetInterface_copy_witness :
  ∃ c, NetInterface.copy Sample.eth0_routed false false = Ok c
       ∧ NetInterface.routes c = Route.__init__ "eth0" "etc/sysconfig".
Proof.
  destruct (NetInterface_copy Sample.eth0_routed false false)
    as (c & Hc & _ & _ & _ & _ & _ & Hr).
  - unfold NetInterface.valid_kind. cbn. in_list.
  - by exists c.
Defined.

(** ** The values shared by all interfaces *)

Lemma shared_copy_step (cfg : NetInterface.t) (old_value : option value)
    (new_key : string) :
  let cfg' :=
    match old_value with
    | Some v => if bool_decide (v ≠ VNone)
                then NetInterface.__setitem__ cfg new_key v
                else cfg
    | None => cfg
    end in
  dict_get new_key (NetInterface._conf cfg')
  = match old_value with
    | Some v => if bool_decide (v = VNone)
                then dict_get new_key (NetInterface._conf cfg)
                else Some v
    | None => dict_get new_key (NetInterface._conf cfg)
    end
  ∧ (∀ key, key ≠ new_key →
       dict_get key (NetInterface._conf cfg')
       = dict_get key (NetInterface._conf cfg))
  ∧ NetInterface.name cfg' = NetInterface.name cfg
  ∧ NetInterface.kind cfg' = NetInterface.kind cfg
  ∧ NetInterface.children cfg' = NetInterface.children cfg
  ∧ NetInterface.routes cfg' = NetInterface.routes cfg.
Proof.
  destruct old_value as [v|]; cbn zeta; [|done].
  destruct (decide (v = VNone)) as [->|Hv].
  - rewrite bool_decide_eq_false_2 by (by intros []).
    by rewrite bool_decide_eq_true_2 by done.
  - rewrite bool_decide_eq_true_2 by done.
    rewrite bool_decide_eq_false_2 by done.
    split_and!; try reflexivity.
    + apply dict_get_set_eq.
    + intros key Hkey. by apply dict_get_set_ne.
Qed.

(** [_render_iface_shared] sets [ONBOOT] and [USERCTL] to false and
    [BOOTPROTO] to none, copies [mac_address] to [HWADDR] and [mtu] to
    [MTU] when the interface has them with a value other than None, and
    leaves every other key, the name, the kind, the children and the route
    table as they are. *)
Theorem render_iface_shared_items (ifc : iface) (iface_cfg : NetInterface.t) :
  let cfg' := Renderer._render_iface_shared ifc iface_cfg in
  let copied (old_value : option value) (new_key : string) :=
    match old_value with
    | Some v => if bool_decide (v = VNone)
                then dict_get new_key (NetInterface._conf iface_cfg)
                else Some v
    | None => dict_get new_key (NetInterface._conf iface_cfg)
    end in
  dict_get "ONBOOT" (NetInterface._conf cfg') = Some (VBool false)
  ∧ dict_get "USERCTL" (NetInterface._conf cfg') = Some (VBool false)
  ∧ dict_get "BOOTPROTO" (NetInterface._conf cfg') = Some (VStr "none")
  ∧ dict_get "HWADDR" (NetInterface._conf cfg')
    = copied (if_mac_address ifc) "HWADDR"
  ∧ dict_get "MTU" (NetInterface._conf cfg') = copied (if_mtu ifc) "MTU"
  ∧ (∀ key, key ∉ ["ONBOOT"; "USERCTL"; "BOOTPROTO"; "HWADDR"; "MTU"] →
       dict_get key (NetInterface._conf cfg')
       = dict_get key (NetInterface._conf iface_cfg))
  ∧ NetInterface.name cfg' = NetInterface.name iface_cfg
  ∧ NetInterface.kind cfg' = NetInterface.kind iface_cfg
  ∧ NetInterface.children cfg' = NetInterface.children iface_cfg
  ∧ NetInterface.routes cfg' = NetInterface.routes iface_cfg.
Proof.
  unfold Renderer._render_iface_shared, Renderer.iface_defaults.
  cbn [foldl fst snd].
  set (cfg1 := NetInterface.__setitem__
                 (NetInterface.__setitem__
                    (NetInterface.__setitem__ iface_cfg "ONBOOT"
                       (VBool false)) "USERCTL" (VBool false))
                 "BOOTPROTO" (VStr "none")).
  destruct (shared_copy_step cfg1 (if_mac_address ifc) "HWADDR")
    as (Hmac & Hmac_o & ? & ? & ? & ?).
  cbn zeta in *.
  set (cfg2 := match if_mac_address ifc with
               | Some _ => _
               | None => _
               end) in *.
  destruct (shared_copy_step cfg2 (if_mtu ifc) "MTU")
    as (Hmtu & Hmtu_o & ? & ? & ? & ?).
  cbn zeta in *.
  set (cfg3 := match if_mtu ifc with
               | Some _ => _
               | None => _
               end) in *.
  assert (∀ key, dict_get key (NetInterface._conf cfg1)
                 = dict_get key
                     (dict_set "BOOTPROTO" (VStr "none")
                        (dict_set "USERCTL" (VBool false)
                           (dict_set "ONBOOT" (VBool false)
                              (NetInterface._conf iface_cfg))))) as Hdef1
    by done.
  split_and!.
  - rewrite Hmtu_o, Hmac_o, Hdef1 by done. by dict_simpl.
  - rewrite Hmtu_o, Hmac_o, Hdef1 by done. by dict_simpl.
  - rewrite Hmtu_o, Hmac_o, Hdef1 by done. by dict_simpl.
  - rewrite Hmtu_o, Hmac by done. rewrite Hdef1. dict_simpl.
    destruct (if_mac_address ifc); [case_bool_decide|]; done.
  - rewrite Hmtu, Hmac_o by done. rewrite Hdef1. dict_simpl.
    destruct (if_mtu ifc); [case_bool_decide|]; done.
  - intros key Hkey.
    rewrite Hmtu_o, Hmac_o, Hdef1, !dict_get_set_ne; [done|..];
      intros ?; subst key; apply Hkey; in_list.
  - etrans; [eassumption|]. by etrans; [eassumption|].
  - etrans; [eassumption|]. by etrans; [eassumption|].
  - etrans; [eassumption|]. by etrans; [eassumption|].
  - etrans; [eassumption|]. by etrans; [eassumption|].
Qed.

(** ** The paths of the files *)

(** In a working set, the three files of an interface have paths that
    differ from each other and from the paths of every other interface. *)
Theorem file_paths_distinct (base k k' : string) (cfg cfg' : NetInterface.t) :
  Renderer.built_for base (k, cfg) → Renderer.built_for base (k', cfg') →
  NetInterface.path cfg ≠ Route.path_ipv4 (NetInterface.routes cfg')
  ∧ NetInterface.path cfg ≠ Route.path_ipv6 (NetInterface.routes cfg')
  ∧ Route.path_ipv4 (NetInterface.routes cfg)
    ≠ Route.path_ipv6 (NetInterface.routes cfg')
  ∧ (NetInterface.path cfg = NetInterface.path cfg' ↔ k = k')
  ∧ (Route.path_ipv4 (NetInterface.routes cfg)
     = Route.path_ipv4 (NetInterface.routes cfg') ↔ k = k')
  ∧ (Route.path_ipv6 (NetInterface.routes cfg)
     = Route.path_ipv6 (NetInterface.routes cfg') ↔ k = k').
Proof.
  intros (Hn & Hb & _ & Hrn & Hrb) (Hn' & Hb' & _ & Hrn' & Hrb').
  unfold NetInterface.path, Route.path_ipv4, Route.path_ipv6.
  cbn [fst snd] in *. rewrite Hn, Hb, Hn', Hb', Hrn, Hrb, Hrn', Hrb'.
  split_and!.
  - apply ifcfg_ne_route4.
  - apply ifcfg_ne_route6.
  - apply route4_ne_route6.
  - split; [apply literal_path_inj | by intros ->].
  - split; [apply literal_path_inj | by intros ->].
  - split; [apply literal_path_inj | by intros ->].
Qed.

Lemma file_paths_distinct_witness :
  NetInterface.path Sample.eth0
  ≠ Route.path_ipv4 (NetInterface.routes Sample.eth0_routed).
Proof.
  apply (file_paths_distinct "etc/sysconfig" "eth0" "eth0" Sample.eth0
           Sample.eth0_routed); by repeat split.
Defined.

(** ** The subnet pass: the flags *)

Lemma startswith_app (pre x : string) : startswith pre (pre +:+ x) = true.
Proof. apply startswith_spec. by exists x. Qed.

Lemma static_key_ipaddr (x : string) : static_key ("IPADDR" +:+ x) = true.
Proof. unfold static_key. by rewrite startswith_app. Qed.

Lemma static_key_netmask (x : string) : static_key ("NETMASK" +:+ x) = true.
Proof. unfold static_key. by rewrite startswith_app, orb_true_r. Qed.

Ltac other_key Hkey :=
  let Heq := fresh in
  intros Heq; subst;
  first [ rewrite static_key_ipaddr in Hkey
        | rewrite static_key_netmask in Hkey
        | vm_compute in Hkey ];
  discriminate Hkey.

Ltac keeps_key :=
  let key := fresh "key" in
  let Hkey := fresh "Hkey" in
  intros [= <-]; split; [|done]; intros key Hkey;
  cbn [fst snd NetInterface.__setitem__ NetInterface.set_conf
       NetInterface._conf];
  unfold ConfigMap.__setitem__;
  rewrite !dict_get_set_ne; [done|other_key Hkey..].

Lemma subnet_base_items (iface_cfg cfg' : NetInterface.t) (sn : subnet) :
  Renderer.subnet_base iface_cfg sn = Ok cfg' →
  dict_get "IPV6INIT" (NetInterface._conf cfg')
  = (if wants_ipv6 sn then Some (VBool true)
     else dict_get "IPV6INIT" (NetInterface._conf iface_cfg))
  ∧ dict_get "DHCPV6C" (NetInterface._conf cfg')
    = (if is_dhcp6 sn then Some (VBool true)
       else dict_get "DHCPV6C" (NetInterface._conf iface_cfg))
  ∧ (dict_get "BOOTPROTO" (NetInterface._conf iface_cfg)
     = Some (VStr "none") →
     dict_get "BOOTPROTO" (NetInterface._conf cfg') = Some (VStr "none"))
  ∧ (∀ key, key ∉ ["BOOTPROTO"; "IPV6INIT"; "DHCPV6C"] →
       dict_get key (NetInterface._conf cfg')
       = dict_get key (NetInterface._conf iface_cfg))
  ∧ NetInterface.kind cfg' = NetInterface.kind iface_cfg.
Proof.
  unfold Renderer.subnet_base, wants_ipv6, is_dhcp6, Renderer.is_ipv6_static,
    Renderer.is_static, Renderer.address_text.
  destruct (decide (sn_type sn = Some "dhcp6")) as [E|N1].
  { rewrite !(bool_decide_eq_true_2 _ E). intros [= <-].
    cbn [orb NetInterface.__setitem__ NetInterface.set_conf
         NetInterface._conf]; unfold ConfigMap.__setitem__.
    split_and!; try done.
    - by dict_simpl.
    - by dict_simpl.
    - intros _. by dict_simpl.
    - intros key Hkey. rewrite !dict_get_set_ne; [done|..];
        intros ?; subst key; apply Hkey; in_list. }
  rewrite !(bool_decide_eq_false_2 _ N1).
  destruct (decide (sn_type sn ∈ [Some "dhcp4"; Some "dhcp"])) as [E|N2].
  { rewrite (bool_decide_eq_true_2 _ E). intros [= <-].
    assert (sn_type sn ≠ Some "static") as N3.
    { intros E3. rewrite E3 in E.
      apply list_elem_of_In in E. cbn in E. intuition discriminate. }
    rewrite (bool_decide_eq_false_2 _ N3).
    cbn [orb andb NetInterface.__setitem__ NetInterface.set_conf
         NetInterface._conf]; unfold ConfigMap.__setitem__.
    split_and!; try done.
    - by dict_simpl.
    - by dict_simpl.
    - intros _. by dict_simpl.
    - intros key Hkey. rewrite !dict_get_set_ne; [done|..];
        intros ?; subst key; apply Hkey; in_list. }
  rewrite (bool_decide_eq_false_2 _ N2).
  destruct (decide (sn_type sn = Some "static")) as [E|N3].
  { rewrite !(bool_decide_eq_true_2 _ E).
    destruct (sn_address sn) as [a|] eqn:Ha.
    - rewrite (static_is_ipv6 sn a E Ha). cbn [bind orb andb default id].
      destruct (str_contains ":" a); intros [= <-]; [|done].
      cbn [NetInterface.__setitem__ NetInterface.set_conf
           NetInterface._conf]; unfold ConfigMap.__setitem__.
      split_and!; try done.
      + by dict_simpl.
      + by dict_simpl.
      + by dict_simpl.
      + intros key Hkey. rewrite !dict_get_set_ne; [done|..];
          intros ?; subst key; apply Hkey; in_list.
    - unfold _subnet_is_ipv6. rewrite E, Ha. by cbn. }
  by rewrite (bool_decide_eq_false_2 _ N3).
Qed.

Lemma subnet_static_items (st st' : NetInterface.t * Z * Z) (sn : subnet) :
  Renderer.subnet_static st sn = Ok st' →
  (∀ key, static_key key = false →
     dict_get key (NetInterface._conf st'.1.1)
     = dict_get key (NetInterface._conf st.1.1))
  ∧ NetInterface.kind st'.1.1 = NetInterface.kind st.1.1.
Proof.
  destruct st as [[cfg i4] i6]. unfold Renderer.subnet_static.
  repeat case_bool_decide; try (by intros [= <-]).
  destruct (_subnet_is_ipv6 sn) as [[|]|]; cbn [bind]; [| |done].
  - destruct (Renderer.ipv6_cidr sn) as [cidr|]; cbn [bind]; [|done].
    repeat case_match; try keeps_key.
    destruct (NetInterface.__getitem__ cfg "IPV6ADDR_SECONDARIES") as [old|];
      cbn [bind]; [|done].
    destruct (Renderer.add_str old " "); cbn [bind]; [|done].
    keeps_key.
  - destruct (field "address" (sn_address sn)); cbn [bind];
      repeat case_match; try done; keeps_key.
Qed.

(** When [_render_subnets] returns, [BOOTPROTO] is none, [IPV6INIT] is true
    as soon as one subnet is of type dhcp6 or is static with an IPv6
    address, [DHCPV6C] is true as soon as one subnet is of type dhcp6, and
    both are as before otherwise; the keys other than these three and the
    keys of the static addresses are as before, and so is the kind. *)
Theorem render_subnets_flags (iface_cfg cfg' : NetInterface.t)
    (subnets : list subnet) :
  Renderer._render_subnets iface_cfg subnets = Ok cfg' →
  dict_get "BOOTPROTO" (NetInterface._conf cfg') = Some (VStr "none")
  ∧ dict_get "IPV6INIT" (NetInterface._conf cfg')
    = (if existsb wants_ipv6 subnets then Some (VBool true)
       else dict_get "IPV6INIT" (NetInterface._conf iface_cfg))
  ∧ dict_get "DHCPV6C" (NetInterface._conf cfg')
    = (if existsb is_dhcp6 subnets then Some (VBool true)
       else dict_get "DHCPV6C" (NetInterface._conf iface_cfg))
  ∧ (∀ key, subnet_key key = false →
       dict_get key (NetInterface._conf cfg')
       = dict_get key (NetInterface._conf iface_cfg))
  ∧ NetInterface.kind cfg' = NetInterface.kind iface_cfg.
Proof.
  unfold Renderer._render_subnets.
  destruct (for_each Renderer.subnet_base subnets _) as [cfg1|] eqn:H1;
    cbn [bind]; [|done].
  destruct (for_each Renderer.subnet_static subnets _) as [[[cfg2 i4] i6]|]
    eqn:H2; cbn [bind]; [|done].
  intros [= <-].
  assert ((∀ key, static_key key = false →
             dict_get key (NetInterface._conf cfg2)
             = dict_get key (NetInterface._conf cfg1))
          ∧ NetInterface.kind cfg2 = NetInterface.kind cfg1) as [Hst Hk2].
  { revert H2. apply (for_each_inv
      (λ s, (∀ key, static_key key = false →
               dict_get key (NetInterface._conf s.1.1)
               = dict_get key (NetInterface._conf cfg1))
            ∧ NetInterface.kind s.1.1 = NetInterface.kind cfg1)); [|done].
    intros s sn s' _ [Hs Hk] Hstep.
    destruct (subnet_static_items _ _ _ Hstep) as [Hs' Hk'].
    split; [|congruence]. intros key Hkey. by rewrite Hs', Hs. }
  set (cfg0 := NetInterface.__setitem__ iface_cfg "BOOTPROTO" (VStr "none"))
    in H1.
  assert (dict_get "BOOTPROTO" (NetInterface._conf cfg1) = Some (VStr "none")
          ∧ dict_get "IPV6INIT" (NetInterface._conf cfg1)
            = (if existsb wants_ipv6 subnets then Some (VBool true)
               else dict_get "IPV6INIT" (NetInterface._conf cfg0))
          ∧ dict_get "DHCPV6C" (NetInterface._conf cfg1)
            = (if existsb is_dhcp6 subnets then Some (VBool true)
               else dict_get "DHCPV6C" (NetInterface._conf cfg0))
          ∧ (∀ key, key ∉ ["BOOTPROTO"; "IPV6INIT"; "DHCPV6C"] →
               dict_get key (NetInterface._conf cfg1)
               = dict_get key (NetInterface._conf cfg0))
          ∧ NetInterface.kind cfg1 = NetInterface.kind cfg0)
    as (Hb & H6 & Hd & Ho & Hk1).
  { assert (dict_get "BOOTPROTO" (NetInterface._conf cfg0)
            = Some (VStr "none")) as Hb0 by apply dict_get_set_eq.
    clearbody cfg0. clear Hst Hk2 H2. revert cfg0 H1 Hb0.
    induction subnets as [|sn subnets IH]; intros cfg0; cbn [for_each].
    { by intros [= <-]. }
    destruct (Renderer.subnet_base cfg0 sn) as [cfga|] eqn:Ha; cbn [bind];
      [|done].
    intros Hrest Hb0.
    destruct (subnet_base_items _ _ _ Ha) as (Ha6 & Had & Hab & Hao & Hak).
    destruct (IH cfga Hrest (Hab Hb0)) as (Hb & H6 & Hd & Ho & Hk).
    cbn [existsb]. split_and!; [done| | | |congruence].
    - rewrite H6, Ha6.
      by destruct (wants_ipv6 sn), (existsb wants_ipv6 subnets).
    - rewrite Hd, Had.
      by destruct (is_dhcp6 sn), (existsb is_dhcp6 subnets).
    - intros key Hkey. by rewrite Ho, Hao. }
  assert (∀ key, key ∈ ["BOOTPROTO"; "IPV6INIT"; "DHCPV6C"] →
                 static_key key = false) as Hflags.
  { intros key Hin. apply list_elem_of_In in Hin. cbn in Hin.
    by destruct Hin as [<-|[<-|[<-|[]]]]. }
  split_and!.
  - rewrite Hst by (apply Hflags; in_list). done.
  - rewrite Hst by (apply Hflags; in_list). rewrite H6.
    destruct (existsb wants_ipv6 subnets); [done|]. by apply dict_get_set_ne.
  - rewrite Hst by (apply Hflags; in_list). rewrite Hd.
    destruct (existsb is_dhcp6 subnets); [done|]. by apply dict_get_set_ne.
  - intros key Hkey. unfold subnet_key in Hkey.
    apply orb_false_iff in Hkey as [Hs Hf%bool_decide_eq_false].
    rewrite Hst, Ho by done. apply dict_get_set_ne. intros <-.
    apply Hf. in_list.
  - by rewrite Hk2, Hk1.
Qed.

Lemma render_subnets_flags_witness :
  ∃ cfg', Renderer._render_subnets Sample.eth0
            [Sample.typed "dhcp6"; Sample.static4 "10.0.0.5" []] = Ok cfg'
          ∧ dict_get "DHCPV6C" (NetInterface._conf cfg') = Some (VBool true)
          ∧ dict_get "TYPE" (NetInterface._conf cfg')
            = Some (VStr "Ethernet").
Proof.
  eexists. split; [reflexivity|].
  destruct (render_subnets_flags Sample.eth0 _
              [Sample.typed "dhcp6"; Sample.static4 "10.0.0.5" []] eq_refl)
    as (_ & _ & Hd & Ho & _).
  split; [exact Hd | by rewrite Ho].
Defined.

(** ** The route pass: the whole list *)

Lemma for_each_map {A B S : Type} (body : S → B → result S) (f : A → B)
    (xs : list A) (st : S) :
  for_each body (List.map f xs) st = for_each (λ s x, body s (f x)) xs st.
Proof.
  revert st. induction xs as [|x xs IH]; intros st; [done|].
  cbn [List.map for_each]. destruct (body st (f x)); cbn [bind]; [|done].
  apply IH.
Qed.

(** The two nested loops are one loop over [all_routes]. *)
Lemma render_subnet_routes_flat (iface_cfg : NetInterface.t)
    (route_cfg : Route.t) (subnets : list subnet) :
  Renderer._render_subnet_routes iface_cfg route_cfg subnets
  = for_each (λ st p, Renderer.render_route p.1 st p.2)
             (all_routes subnets) (iface_cfg, route_cfg).
Proof.
  unfold Renderer._render_subnet_routes, all_routes.
  generalize (iface_cfg, route_cfg). clear.
  induction subnets as [|sn subnets IH]; intros st; [done|].
  cbn [flat_map for_each]. rewrite for_each_app, for_each_map. cbn [fst snd].
  destruct (for_each _ (Renderer.subnet_routes sn) st); cbn [bind]; [|done].
  apply IH.
Qed.

Lemma is_default_classified (r : route) (b : bool) :
  _is_default_route r = Ok b → is_default r = b.
Proof. unfold is_default. by intros ->. Qed.

Lemma render_route_effects (sn : subnet) (iface_cfg cfg' : NetInterface.t)
    (route_cfg rc' : Route.t) (r : route) :
  Renderer.render_route sn (iface_cfg, route_cfg) r = Ok (cfg', rc') →
  Route.last_idx rc'
  = (Route.last_idx route_cfg + (if is_default r then 0 else 1))%Z
  ∧ (Route.has_set_default_ipv4 route_cfg = true →
     Route.has_set_default_ipv4 rc' = true)
  ∧ (Route.has_set_default_ipv6 route_cfg = true →
     Route.has_set_default_ipv6 rc' = true)
  ∧ (∀ key, key ∉ ["DEFROUTE"; "GATEWAY"; "IPV6_DEFAULTGW"] →
       dict_get key (NetInterface._conf cfg')
       = dict_get key (NetInterface._conf iface_cfg))
  ∧ dict_get "DEFROUTE" (NetInterface._conf cfg')
    = (if is_default r then Some (VBool true)
       else dict_get "DEFROUTE" (NetInterface._conf iface_cfg))
  ∧ NetInterface.kind cfg' = NetInterface.kind iface_cfg
  ∧ (is_default r = true → Route._conf rc' = Route._conf route_cfg).
Proof.
  intros Hrender.
  destruct (render_route_classified _ _ _ _ Hrender) as [[|] Hdef];
    rewrite (is_default_classified _ _ Hdef).
  - rewrite (render_route_default _ _ _ _ Hdef) in Hrender.
    destruct (Renderer.is_duplicate_default sn route_cfg); [done|].
    cbn zeta in Hrender.
    destruct (rt_gateway r); [destruct (opt_truthy (sn_ipv6 sn))|];
      injection Hrender as <- <-;
      cbn [NetInterface.__setitem__ NetInterface.set_conf NetInterface._conf];
      unfold ConfigMap.__setitem__;
      (split_and!; try done; [cbn; lia| |by dict_simpl]);
      intros key Hkey; rewrite !dict_get_set_ne; try done;
      intros ?; subst key; apply Hkey; in_list.
  - destruct (render_route_indexed _ _ _ _ _ _ Hdef Hrender)
      as (-> & Hidx & H4 & H6 & _).
    split_and!; try done; congruence.
Qed.

Lemma render_routes_effects (l : list (subnet * route))
    (iface_cfg cfg' : NetInterface.t) (route_cfg rc' : Route.t) :
  for_each (λ st p, Renderer.render_route p.1 st p.2) l (iface_cfg, route_cfg)
  = Ok (cfg', rc') →
  let rs := List.map snd l in
  Route.last_idx rc'
  = (Route.last_idx route_cfg
     + Z.of_nat (length (List.filter (λ r, negb (is_default r)) rs)))%Z
  ∧ (Route.has_set_default_ipv4 route_cfg = true →
     Route.has_set_default_ipv4 rc' = true)
  ∧ (Route.has_set_default_ipv6 route_cfg = true →
     Route.has_set_default_ipv6 rc' = true)
  ∧ (∀ key, key ∉ ["DEFROUTE"; "GATEWAY"; "IPV6_DEFAULTGW"] →
       dict_get key (NetInterface._conf cfg')
       = dict_get key (NetInterface._conf iface_cfg))
  ∧ dict_get "DEFROUTE" (NetInterface._conf cfg')
    = (if existsb is_default rs then Some (VBool true)
       else dict_get "DEFROUTE" (NetInterface._conf iface_cfg))
  ∧ NetInterface.kind cfg' = NetInterface.kind iface_cfg
  ∧ (forallb is_default rs = true →
     Route._conf rc' = Route._conf route_cfg).
Proof.
  revert iface_cfg route_cfg.
  induction l as [|[sn r] l IH]; intros cfg rc; cbn [for_each].
  { intros [= <- <-]. cbn. split_and!; try done. lia. }
  cbn [fst snd].
  destruct (Renderer.render_route sn (cfg, rc) r) as [[cfga rca]|] eqn:Ha;
    cbn [bind]; [|done].
  intros Hrest. cbn zeta.
  destruct (render_route_effects _ _ _ _ _ _ Ha)
    as (Hia & H4a & H6a & Hoa & Hda & Hka & Hca).
  destruct (IH _ _ Hrest) as (Hi & H4 & H6 & Ho & Hd & Hk & Hc).
  cbn [List.map List.filter existsb forallb snd].
  split_and!.
  - rewrite Hi, Hia. destruct (is_default r); cbn [negb length]; lia.
  - auto.
  - auto.
  - intros key Hkey. by rewrite Ho, Hoa.
  - rewrite Hd, Hda.
    by destruct (is_default r), (existsb is_default (List.map snd l)).
  - congruence.
  - intros [Hr Hl]%andb_true_iff. by rewrite Hc, Hca.
Qed.

(** When [_render_subnet_routes] returns: [last_idx] has grown by the
    number of routes that are not default routes; a default flag that was
    set is still set; on the interface configuration only [DEFROUTE],
    [GATEWAY] and [IPV6_DEFAULTGW] may differ, [DEFROUTE] being true as
    soon as there is a default route; and with default routes only, the
    route table holds what it held. *)
Theorem render_subnet_routes_effects (iface_cfg cfg' : NetInterface.t)
    (route_cfg rc' : Route.t) (subnets : list subnet) :
  Renderer._render_subnet_routes iface_cfg route_cfg subnets
  = Ok (cfg', rc') →
  Route.last_idx rc'
  = (Route.last_idx route_cfg
     + Z.of_nat (length (indexed_routes subnets)))%Z
  ∧ (Route.has_set_default_ipv4 route_cfg = true →
     Route.has_set_default_ipv4 rc' = true)
  ∧ (Route.has_set_default_ipv6 route_cfg = true →
     Route.has_set_default_ipv6 rc' = true)
  ∧ (∀ key, key ∉ ["DEFROUTE"; "GATEWAY"; "IPV6_DEFAULTGW"] →
       dict_get key (NetInterface._conf cfg')
       = dict_get key (NetInterface._conf iface_cfg))
  ∧ dict_get "DEFROUTE" (NetInterface._conf cfg')
    = (if existsb is_default (List.map snd (all_routes subnets))
       then Some (VBool true)
       else dict_get "DEFROUTE" (NetInterface._conf iface_cfg))
  ∧ NetInterface.kind cfg' = NetInterface.kind iface_cfg
  ∧ (indexed_routes subnets = [] →
     Route._conf rc' = Route._conf route_cfg).
Proof.
  rewrite render_subnet_routes_flat. intros Hloop.
  destruct (render_routes_effects _ _ _ _ _ Hloop)
    as (Hi & H4 & H6 & Ho & Hd & Hk & Hc).
  split_and!; try done.
  intros Hnone. apply Hc. apply forallb_forall. intros r Hr.
  destruct (is_default r) eqn:Hdef; [done|].
  assert (In r (indexed_routes subnets)) as Hin.
  { apply filter_In. by rewrite Hdef. }
  rewrite Hnone in Hin. by destruct Hin.
Qed.

Lemma render_subnet_routes_effects_witness :
  ∃ cfg' rc',
    Renderer._render_subnet_routes Sample.eth0
      (NetInterface.routes Sample.eth0)
      [Sample.static4 "10.0.0.5" [Sample.default4 "10.0.0.1"; Sample.net10]]
    = Ok (cfg', rc')
    ∧ Route.last_idx rc' = 2%Z.
Proof.
  eexists _, _. split; [reflexivity|].
  apply (render_subnet_routes_effects Sample.eth0 _
           (NetInterface.routes Sample.eth0) _
           [Sample.static4 "10.0.0.5"
              [Sample.default4 "10.0.0.1"; Sample.net10]] eq_refl).
Defined.

(** ** The route pass: where the routes are stored *)

Lemma stem_key_inj (a b : string) (i j : Z) :
  a ∈ ["ADDRESS"; "GATEWAY"; "NETMASK"] →
  b ∈ ["ADDRESS"; "GATEWAY"; "NETMASK"] →
  a +:+ pretty i = b +:+ pretty j → a = b ∧ i = j.
Proof.
  intros Ha%list_elem_of_In Hb%list_elem_of_In. cbn in Ha, Hb.
  destruct Ha as [<-|[<-|[<-|[]]]], Hb as [<-|[<-|[<-|[]]]]; intros Heq;
    try (rewrite !str_app_cons in Heq; discriminate Heq);
    apply (inj (String.app _)) in Heq; by apply (inj pretty) in Heq.
Qed.

Lemma render_route_below (sn : subnet) (iface_cfg cfg' : NetInterface.t)
    (route_cfg rc' : Route.t) (r : route) (stem : string) (i : Z) :
  Renderer.render_route sn (iface_cfg, route_cfg) r = Ok (cfg', rc') →
  stem ∈ ["ADDRESS"; "GATEWAY"; "NETMASK"] →
  (i < Route.last_idx route_cfg)%Z →
  dict_get (stem +:+ pretty i) (Route._conf rc')
  = dict_get (stem +:+ pretty i) (Route._conf route_cfg).
Proof.
  intros Hrender Hstem Hi.
  destruct (render_route_classified _ _ _ _ Hrender) as [[|] Hdef].
  - destruct (render_route_effects _ _ _ _ _ _ Hrender)
      as (_ & _ & _ & _ & _ & _ & Hc).
    by rewrite Hc by (by apply is_default_classified).
  - destruct (render_route_indexed _ _ _ _ _ _ Hdef Hrender)
      as (_ & _ & _ & _ & _ & _ & _ & Ho).
    apply Ho. intros Hin. apply list_elem_of_In in Hin. cbn in Hin.
    destruct Hin as [Heq|[Heq|[Heq|[]]]];
      symmetry in Heq; apply stem_key_inj in Heq as [_ ->];
      first [lia | done | in_list].
Qed.

Lemma render_routes_below (l : list (subnet * route))
    (iface_cfg cfg' : NetInterface.t) (route_cfg rc' : Route.t)
    (stem : string) (i : Z) :
  for_each (λ st p, Renderer.render_route p.1 st p.2) l (iface_cfg, route_cfg)
  = Ok (cfg', rc') →
  stem ∈ ["ADDRESS"; "GATEWAY"; "NETMASK"] →
  (i < Route.last_idx route_cfg)%Z →
  dict_get (stem +:+ pretty i) (Route._conf rc')
  = dict_get (stem +:+ pretty i) (Route._conf route_cfg).
Proof.
  intros Hloop Hstem Hi.
  enough ((Route.last_idx route_cfg ≤ Route.last_idx (cfg', rc').2)%Z
          ∧ dict_get (stem +:+ pretty i) (Route._conf (cfg', rc').2)
            = dict_get (stem +:+ pretty i) (Route._conf route_cfg))
    as [_ ?]; [done|].
  revert Hloop. apply (for_each_inv
    (λ s, (Route.last_idx route_cfg ≤ Route.last_idx s.2)%Z
          ∧ dict_get (stem +:+ pretty i) (Route._conf s.2)
            = dict_get (stem +:+ pretty i) (Route._conf route_cfg)));
    [|done].
  intros [cfg1 rc1] [sn r] [cfg2 rc2] _ [Hle Hget] Hstep. cbn [fst snd] in *.
  destruct (render_route_effects _ _ _ _ _ _ Hstep) as (Hidx & _).
  split; [destruct (is_default r); lia|].
  rewrite <- Hget. eapply render_route_below; [done..|lia].
Qed.

Lemma render_routes_indices (l : list (subnet * route))
    (iface_cfg cfg' : NetInterface.t) (route_cfg rc' : Route.t)
    (k : nat) (r : route) :
  for_each (λ st p, Renderer.render_route p.1 st p.2) l (iface_cfg, route_cfg)
  = Ok (cfg', rc') →
  List.filter (λ r, negb (is_default r)) (List.map snd l) !! k = Some r →
  route_stored r (Route.last_idx route_cfg + Z.of_nat k) (Route._conf rc').
Proof.
  revert iface_cfg route_cfg k.
  induction l as [|[sn r0] l IH]; intros cfg rc k; cbn [for_each]; [done|].
  cbn [fst snd List.map List.filter].
  destruct (Renderer.render_route sn (cfg, rc) r0) as [[cfga rca]|] eqn:Ha;
    cbn [bind]; [|done].
  intros Hrest.
  destruct (render_route_effects _ _ _ _ _ _ Ha) as (Hidx & _).
  destruct (render_route_classified _ _ _ _ Ha) as [[|] Hdef];
    rewrite (is_default_classified _ _ Hdef) in *; cbn [negb].
  - intros Hk. replace (Route.last_idx rc) with (Route.last_idx rca) by lia.
    by eapply IH.
  - destruct k as [|k]; cbn [lookup list_lookup].
    + intros [= <-]. rewrite Z.add_0_r.
      destruct (render_route_indexed _ _ _ _ _ _ Hdef Ha)
        as (_ & _ & _ & _ & Hnet & Hgw & Hnm & _).
      cbn zeta in Hnet, Hgw, Hnm.
      split_and!; intros v Hv;
        (erewrite render_routes_below; [|done|in_list|lia]).
      * by rewrite Hnet, Hv.
      * by rewrite Hnm, Hv.
      * by rewrite Hgw, Hv.
    + intros Hk.
      replace (Route.last_idx rc + Z.of_nat (S k))%Z
        with (Route.last_idx rca + Z.of_nat k)%Z by lia.
      by eapply IH.
Qed.

(** When [_render_subnet_routes] returns, the route that is the k-th of
    those that are not default routes is in the route table under the
    index [last_idx + k], with the value of [last_idx] at the start, and
    the entries under a lower index are as they were. *)
Theorem render_subnet_routes_indices (iface_cfg cfg' : NetInterface.t)
    (route_cfg rc' : Route.t) (subnets : list subnet) :
  Renderer._render_subnet_routes iface_cfg route_cfg subnets
  = Ok (cfg', rc') →
  (∀ k r, indexed_routes subnets !! k = Some r →
     route_stored r (Route.last_idx route_cfg + Z.of_nat k)
       (Route._conf rc'))
  ∧ (∀ stem i, stem ∈ ["ADDRESS"; "GATEWAY"; "NETMASK"] →
       (i < Route.last_idx route_cfg)%Z →
       dict_get (stem +:+ pretty i) (Route._conf rc')
       = dict_get (stem +:+ pretty i) (Route._conf route_cfg)).
Proof.
  rewrite render_subnet_routes_flat. intros Hloop. split.
  - intros k r. by eapply render_routes_indices.
  - intros stem i. by eapply render_routes_below.
Qed.

Lemma render_subnet_routes_indices_witness :
  ∃ cfg' rc',
    Renderer._render_subnet_routes Sample.eth0_routed Sample.routes_mixed
      [Sample.static4 "10.0.0.5" [Sample.default4 "10.0.0.1"; Sample.net10]]
    = Ok (cfg', rc')
    ∧ route_stored Sample.net10 3 (Route._conf rc')
    ∧ dict_get "ADDRESS2" (Route._conf rc') = Some (VStr "2001:db8::").
Proof.
  eexists _, _. split; [reflexivity|].
  destruct (render_subnet_routes_indices Sample.eth0_routed _
              Sample.routes_mixed _
              [Sample.static4 "10.0.0.5"
                 [Sample.default4 "10.0.0.1"; Sample.net10]] eq_refl)
    as [Hstored Hbelow].
  split.
  - apply (Hstored 0%nat Sample.net10). reflexivity.
  - apply (Hbelow "ADDRESS" 2%Z); [in_list | reflexivity].
Defined.

(** ** From the routes to a table that can be written *)

Lemma prefix_same_char (c : ascii) (a s : string) :
  String.prefix (String c a) (String c s) = String.prefix a s.
Proof. cbn. by destruct (ascii_dec c c). Qed.

Lemma str_contains_absent (c : ascii) (a s : string) :
  str_contains (String c "") s = false → str_contains (String c a) s = false.
Proof.
  induction s as [|d s IH]; [done|]. cbn [str_contains].
  intros [Hd Hs]%orb_false_iff. rewrite IH, orb_false_r by done.
  apply prefix_first_char. intros ->.
  by rewrite prefix_same_char, prefix_empty in Hd.
Qed.

Lemma no_address_in_gateway (z : Z) :
  str_contains "ADDRESS" ("GATEWAY" +:+ pretty z) = false.
Proof.
  rewrite !str_app_cons, str_app_nil_l. cbn [str_contains].
  rewrite (str_contains_absent _ _ _ (pretty_Z_no_A z)).
  repeat (rewrite prefix_first_char by done || rewrite prefix_same_char).
  done.
Qed.

Lemma no_address_in_netmask (z : Z) :
  str_contains "ADDRESS" ("NETMASK" +:+ pretty z) = false.
Proof.
  rewrite !str_app_cons, str_app_nil_l. cbn [str_contains].
  rewrite (str_contains_absent _ _ _ (pretty_Z_no_A z)).
  repeat (rewrite prefix_first_char by done || rewrite prefix_same_char).
  done.
Qed.

Lemma render_route_complete (sn : subnet) (iface_cfg cfg' : NetInterface.t)
    (route_cfg rc' : Route.t) (r : route) :
  entries_complete (Route._conf route_cfg) →
  (is_default r = false → is_Some (rt_netmask r) ∧ is_Some (rt_gateway r)) →
  Renderer.render_route sn (iface_cfg, route_cfg) r = Ok (cfg', rc') →
  entries_complete (Route._conf rc').
Proof.
  intros Hall Hfields Hrender.
  destruct (render_route_classified _ _ _ _ Hrender) as [[|] Hdef].
  { destruct (render_route_effects _ _ _ _ _ _ Hrender)
      as (_ & _ & _ & _ & _ & _ & Hc).
    by rewrite Hc by (by apply is_default_classified). }
  destruct (Hfields (is_default_classified _ _ Hdef)) as [[nm Hnm] [gw Hgw]].
  destruct (render_route_indexed _ _ _ _ _ _ Hdef Hrender)
    as (_ & _ & _ & _ & Ha & Hg & Hn & Ho).
  cbn zeta in Ha, Hg, Hn. rewrite Hgw in Hg. rewrite Hnm in Hn.
  set (n := Route.last_idx route_cfg) in *.
  assert (∀ key, is_Some (dict_get key (Route._conf route_cfg)) →
                 is_Some (dict_get key (Route._conf rc'))) as Hkeeps.
  { intros key Hkey.
    destruct (decide (key = "ADDRESS" +:+ pretty n)) as [->|Hka].
    { rewrite Ha. by destruct (rt_network r). }
    destruct (decide (key = "GATEWAY" +:+ pretty n)) as [->|Hkg].
    { by rewrite Hg. }
    destruct (decide (key = "NETMASK" +:+ pretty n)) as [->|Hkn].
    { by rewrite Hn. }
    rewrite Ho; [done|]. intros Hin. apply list_elem_of_In in Hin.
    cbn in Hin. intuition. }
  intros key Hkey%dict_get_is_Some Haddr.
  destruct (decide (key = "ADDRESS" +:+ pretty n)) as [->|Hka].
  { unfold Route.complete.
    destruct (index_of_address n) as [_ ->]. by rewrite Hg, Hn. }
  destruct (decide (key = "GATEWAY" +:+ pretty n)) as [->|Hkg].
  { by rewrite no_address_in_gateway in Haddr. }
  destruct (decide (key = "NETMASK" +:+ pretty n)) as [->|Hkn].
  { by rewrite no_address_in_netmask in Haddr. }
  rewrite Ho in Hkey.
  2: { intros Hin. apply list_elem_of_In in Hin. cbn in Hin. intuition. }
  apply dict_get_is_Some in Hkey. destruct (Hall key Hkey Haddr) as [H1 H2].
  split; by apply Hkeeps.
Qed.

Lemma to_string_of_complete (self : Route.t) :
  entries_complete (Route._conf self) →
  Route.to_string self "ipv4"
  = Ok (Route.serialize_ipv4 (Route._conf self))
  ∧ Route.to_string self "ipv6"
    = Ok (Route.serialize_ipv6 (Route._conf self)).
Proof.
  intros Hall. set (conf := Route._conf self) in *.
  assert (sorted (dict_keys conf) ⊆ dict_keys conf) as Hsub.
  { intros k Hk. by rewrite sorted_perm in Hk. }
  assert (∀ f : string → bool,
            Forall (Route.complete conf)
              (List.filter f
                 (List.filter (str_contains "ADDRESS")
                    (sorted (dict_keys conf))))) as Hcomplete.
  { intros f. apply Forall_forall. intros key Hin.
    apply list_elem_of_In, filter_In in Hin as [Hin _].
    apply filter_In in Hin as [Hin Haddr].
    apply Hall; [|done]. apply Hsub. by apply list_elem_of_In. }
  unfold Route.to_string. fold conf. split.
  - rewrite bool_decide_eq_true_2 by in_list. cbn [negb].
    unfold Route.serialize_ipv4, Route.preamble.
    destruct (bool_decide (conf ≠ []));
      (edestruct (to_string_loop_ipv4 conf (sorted (dict_keys conf)))
         as [r' ->]; [exact Hsub | apply Hcomplete |]);
      cbn [bind]; by rewrite ?str_app_nil_r.
  - rewrite bool_decide_eq_true_2 by in_list. cbn [negb].
    unfold Route.serialize_ipv6, Route.preamble.
    destruct (bool_decide (conf ≠ []));
      rewrite (to_string_loop_ipv6 conf _ _ _ Hsub (Hcomplete _));
      cbn [bind]; by rewrite ?str_app_nil_r.
Qed.

(** Both route files can be written after [_render_subnet_routes], when
    every route that is not a default route has a netmask and a gateway,
    and the table was empty, or held complete entries, before. *)
Theorem render_subnet_routes_serializable (iface_cfg cfg' : NetInterface.t)
    (route_cfg rc' : Route.t) (subnets : list subnet) :
  entries_complete (Route._conf route_cfg) →
  Forall (λ r, is_Some (rt_netmask r) ∧ is_Some (rt_gateway r))
         (indexed_routes subnets) →
  Renderer._render_subnet_routes iface_cfg route_cfg subnets
  = Ok (cfg', rc') →
  Route.to_string rc' "ipv4" = Ok (Route.serialize_ipv4 (Route._conf rc'))
  ∧ Route.to_string rc' "ipv6"
    = Ok (Route.serialize_ipv6 (Route._conf rc')).
Proof.
  intros Hall Hfields. rewrite render_subnet_routes_flat. intros Hloop.
  apply to_string_of_complete.
  change rc' with (cfg', rc').2. revert Hloop.
  apply (for_each_inv (λ s, entries_complete (Route._conf s.2))); [|done].
  intros [cfg1 rc1] [sn r] [cfg2 rc2] Hin Hs Hstep. cbn [fst snd] in *.
  eapply render_route_complete; [exact Hs | | exact Hstep].
  intros Hdef. rewrite Forall_forall in Hfields. apply Hfields.
  apply list_elem_of_In, filter_In. rewrite Hdef. split; [|done].
  apply in_map_iff. exists (sn, r). split; [done|].
  by apply list_elem_of_In.
Qed.

Lemma render_subnet_routes_serializable_witness :
  ∃ cfg' rc',
    Renderer._render_subnet_routes Sample.eth0
      (NetInterface.routes Sample.eth0)
      [Sample.static4 "10.0.0.5" [Sample.default4 "10.0.0.1"; Sample.net10]]
    = Ok (cfg', rc')
    ∧ Route.to_string rc' "ipv4"
      = Ok (Route.serialize_ipv4 (Route._conf rc')).
Proof.
  eexists _, _. split; [reflexivity|].
  eapply (render_subnet_routes_serializable Sample.eth0 _
           (NetInterface.routes Sample.eth0) _
           [Sample.static4 "10.0.0.5"
              [Sample.default4 "10.0.0.1"; Sample.net10]]).
  - intros key Hkey. by apply elem_of_nil in Hkey.
  - repeat constructor; vm_compute; eauto.
  - reflexivity.
Defined.

(** ** Route.to_string: the entry that cannot be written *)

Lemma missing_key_None (conf : dict value) (key : string) :
  missing_key conf key = None ↔ Route.complete conf key.
Proof.
  unfold missing_key, Route.complete.
  destruct (dict_get ("NETMASK" +:+ _) conf),
    (dict_get ("GATEWAY" +:+ _) conf); split; try done;
    intros [[? ?] [? ?]]; done.
Qed.

Lemma to_string_step_missing (conf : dict value) (proto : string)
    (buf : string) (reindex : Z) (key k : string) :
  key ∈ dict_keys conf →
  str_contains "ADDRESS" key = true →
  (proto = "ipv4" ∧ Route.is_ipv6_entry conf key = false)
  ∨ (proto = "ipv6" ∧ Route.is_ipv6_entry conf key = true) →
  missing_key conf key = Some k →
  Route.to_string_step conf proto (buf, reindex) key = Raise (KeyError k).
Proof.
  intros Hkey%dict_get_is_Some Haddr Hfam. unfold Route.to_string_step.
  fold (Route.index_of key). rewrite Haddr.
  destruct (dict_getitem_text conf key Hkey) as (a & -> & Ha).
  cbn [bind]. rewrite Ha, is_ipv6_route_colon.
  fold (Route.is_ipv6_entry conf key).
  unfold missing_key, dict_getitem.
  destruct Hfam as [[-> ->]|[-> ->]];
    cbn [andb negb String.eqb Ascii.eqb Bool.eqb];
    destruct (dict_get ("NETMASK" +:+ _) conf); cbn [bind];
    try (by intros [= <-]);
    destruct (dict_get ("GATEWAY" +:+ _) conf); cbn [bind];
    try done; by intros [= <-].
Qed.

Lemma to_string_loop_ipv4_missing (conf : dict value) (keys : list string)
    (buf : string) (reindex : Z) (k : string) :
  keys ⊆ dict_keys conf →
  first_missing conf
    (List.filter (λ key, negb (Route.is_ipv6_entry conf key))
       (List.filter (str_contains "ADDRESS") keys)) = Some k →
  for_each (Route.to_string_step conf "ipv4") keys (buf, reindex)
  = Raise (KeyError k).
Proof.
  revert buf reindex.
  induction keys as [|key keys IH]; intros buf reindex Hsub; [done|].
  assert (key ∈ dict_keys conf) as Hkey by (apply Hsub; by left).
  assert (keys ⊆ dict_keys conf) as Hsub'.
  { intros x Hx. apply Hsub. by right. }
  cbn [List.filter for_each].
  destruct (str_contains "ADDRESS" key) eqn:Haddr; cbn [List.filter].
  - destruct (Route.is_ipv6_entry conf key) eqn:H6; cbn [negb first_missing].
    + rewrite to_string_step_ipv4 by (by rewrite ?Haddr, ?H6).
      rewrite Haddr, H6. cbn [andb negb bind]. by apply IH.
    + destruct (missing_key conf key) as [k'|] eqn:Hmiss.
      * intros [= ->].
        by rewrite (to_string_step_missing conf "ipv4" _ _ key k)
          by (done || by left).
      * apply missing_key_None in Hmiss.
        rewrite to_string_step_ipv4 by done.
        rewrite Haddr, H6. cbn [andb negb bind]. by apply IH.
  - rewrite to_string_step_ipv4 by (by rewrite ?Haddr).
    rewrite Haddr. cbn [andb bind]. by apply IH.
Qed.

Lemma to_string_loop_ipv6_missing (conf : dict value) (keys : list string)
    (buf : string) (reindex : Z) (k : string) :
  keys ⊆ dict_keys conf →
  first_missing conf
    (List.filter (Route.is_ipv6_entry conf)
       (List.filter (str_contains "ADDRESS") keys)) = Some k →
  for_each (Route.to_string_step conf "ipv6") keys (buf, reindex)
  = Raise (KeyError k).
Proof.
  revert buf reindex.
  induction keys as [|key keys IH]; intros buf reindex Hsub; [done|].
  assert (key ∈ dict_keys conf) as Hkey by (apply Hsub; by left).
  assert (keys ⊆ dict_keys conf) as Hsub'.
  { intros x Hx. apply Hsub. by right. }
  cbn [List.filter for_each].
  destruct (str_contains "ADDRESS" key) eqn:Haddr; cbn [List.filter].
  - destruct (Route.is_ipv6_entry conf key) eqn:H6; cbn [first_missing].
    + destruct (missing_key conf key) as [k'|] eqn:Hmiss.
      * intros [= ->].
        by rewrite (to_string_step_missing conf "ipv6" _ _ key k)
          by (done || by right).
      * apply missing_key_None in Hmiss.
        rewrite to_string_step_ipv6 by done.
        rewrite Haddr, H6. cbn [andb bind]. by apply IH.
    + rewrite to_string_step_ipv6 by (by rewrite ?Haddr, ?H6).
      rewrite Haddr, H6. cbn [andb bind]. by apply IH.
  - rewrite to_string_step_ipv6 by (by rewrite ?Haddr).
    rewrite Haddr. cbn [andb bind]. by apply IH.
Qed.

(** [to_string] raises the [KeyError] of the first netmask or gateway that
    an entry of the family asked for lacks, the netmask being looked up
    before the gateway and the entries being taken in the order of their
    keys; the entries of the other family are not looked at. *)
Theorem Route_to_string_missing (self : Route.t) (k : string) :
  let conf := Route._conf self in
  (first_missing conf (Route.ipv4_keys conf) = Some k →
   Route.to_string self "ipv4" = Raise (KeyError k))
  ∧ (first_missing conf (Route.ipv6_keys conf) = Some k →
     Route.to_string self "ipv6" = Raise (KeyError k)).
Proof.
  intros conf.
  assert (sorted (dict_keys conf) ⊆ dict_keys conf) as Hsub.
  { intros x Hx. by rewrite sorted_perm in Hx. }
  unfold Route.to_string. fold conf. split; intros Hmiss.
  - rewrite bool_decide_eq_true_2 by in_list. cbn [negb].
    by rewrite (to_string_loop_ipv4_missing conf _ _ _ k Hsub Hmiss).
  - rewrite bool_decide_eq_true_2 by in_list. cbn [negb].
    by rewrite (to_string_loop_ipv6_missing conf _ _ _ k Hsub Hmiss).
Qed.

Lemma Route_to_string_missing_witness :
  Route.to_string
    (Route.__setitem__ (Route.__init__ "eth0" "etc/sysconfig") "ADDRESS1"
       (VStr "10.1.0.0")) "ipv4"
  = Raise (KeyError "NETMASK1").
Proof. apply (Route_to_string_missing _ "NETMASK1"). reflexivity. Defined.

(** ** The VLAN pass *)

Lemma str_rfind_go_absent (c : ascii) (s : string) (i last : Z) :
  str_contains (String c "") s = false →
  str_rfind_go (String c "") s i last = last.
Proof.
  revert i last. induction s as [|d s IH]; intros i last; [done|].
  cbn [str_contains]. intros [Hd Hs]%orb_false_iff.
  cbn [str_rfind_go]. rewrite Hd. by apply IH.
Qed.

Lemma str_rfind_go_last (c : ascii) (base suffix : string) (i last : Z) :
  str_contains (String c "") suffix = false →
  str_rfind_go (String c "") (base +:+ String c suffix) i last
  = (i + Z.of_nat (String.length base))%Z.
Proof.
  intros Hsuffix. revert i last.
  induction base as [|d base IH]; intros i last.
  - rewrite str_app_nil_l. cbn [str_rfind_go].
    rewrite prefix_same_char, prefix_empty, str_rfind_go_absent by done.
    cbn [String.length]. lia.
  - rewrite str_app_cons. cbn [str_rfind_go String.length]. rewrite IH. lia.
Qed.

Lemma substring_prefix (a b : string) :
  String.substring 0 (String.length a) (a +:+ b) = a.
Proof.
  induction a as [|c a IH]; [by destruct b|].
  rewrite str_app_cons. cbn [String.length String.substring]. by rewrite IH.
Qed.

Lemma str_slice_to_prefix (a b : string) :
  str_slice_to (a +:+ b) (Z.of_nat (String.length a)) = a.
Proof.
  unfold str_slice_to. rewrite str_length_app.
  destruct (Z.ltb_spec (Z.of_nat (String.length a)) 0); [lia|].
  rewrite Z.min_l, Nat2Z.id by lia. apply substring_prefix.
Qed.

Lemma str_slice_to_minus_one (body : string) (c : ascii) :
  str_slice_to (body +:+ String c "") (-1) = body.
Proof.
  unfold str_slice_to. rewrite str_length_app. cbn [String.length].
  change (-1 <? 0)%Z with true. cbv iota.
  replace (Z.to_nat _) with (String.length body) by lia.
  apply substring_prefix.
Qed.

(** [_render_vlan_interfaces] on one VLAN: a name that [iface_contents]
    does not have raises [KeyError]; otherwise [VLAN] is set to true and
    [PHYSDEV] to the name up to its last dot.  A name without a dot gives
    the name without its last character. *)
Theorem render_vlan_cases (iface_contents : dict NetInterface.t)
    (iface_name : string) :
  match dict_get iface_name iface_contents with
  | None =>
      Passes.render_vlan iface_contents iface_name
      = Raise (KeyError iface_name)
  | Some cfg =>
      ∃ cfg',
        Passes.render_vlan iface_contents iface_name
        = Ok (dict_set iface_name cfg' iface_contents)
        ∧ dict_get "VLAN" (NetInterface._conf cfg') = Some (VBool true)
        ∧ (∀ base suffix,
             iface_name = base +:+ "." +:+ suffix →
             str_contains "." suffix = false →
             dict_get "PHYSDEV" (NetInterface._conf cfg')
             = Some (VStr base))
        ∧ (∀ body c,
             iface_name = body +:+ String c "" →
             str_contains "." iface_name = false →
             dict_get "PHYSDEV" (NetInterface._conf cfg')
             = Some (VStr body))
        ∧ (∀ key, key ∉ ["VLAN"; "PHYSDEV"] →
             dict_get key (NetInterface._conf cfg')
             = dict_get key (NetInterface._conf cfg))
        ∧ NetInterface.name cfg' = NetInterface.name cfg
        ∧ NetInterface.kind cfg' = NetInterface.kind cfg
        ∧ NetInterface.children cfg' = NetInterface.children cfg
        ∧ NetInterface.routes cfg' = NetInterface.routes cfg
  end.
Proof.
  unfold Passes.render_vlan, dict_getitem.
  destruct (dict_get iface_name iface_contents) as [cfg|]; [|done].
  cbn [bind]. eexists. split; [done|].
  cbn [NetInterface.__setitem__ NetInterface.set_conf NetInterface._conf].
  unfold ConfigMap.__setitem__. split_and!; try done.
  - by dict_simpl.
  - intros base suffix -> Hsuffix. dict_simpl. do 2 f_equal.
    unfold str_rfind.
    change ("." +:+ suffix) with (String "." suffix).
    rewrite str_rfind_go_last by done. cbn [Z.add].
    apply str_slice_to_prefix.
  - intros body c -> Hdot. dict_simpl. do 2 f_equal.
    unfold str_rfind. rewrite str_rfind_go_absent by done.
    apply str_slice_to_minus_one.
  - intros key Hkey. rewrite !dict_get_set_ne; try done;
      intros ?; subst key; apply Hkey; in_list.
Qed.

Example render_vlan_eth0_100 :
  (let* iface_contents :=
     Passes.render_vlan [("eth0.100", Sample.eth0)] "eth0.100" in
   let* cfg := dict_getitem "eth0.100" iface_contents in
   Ok (dict_get "PHYSDEV" (NetInterface._conf cfg)))
  = Ok (Some (VStr "eth0")).
Proof. reflexivity. Qed.

(** ** The bonding options *)

Lemma str_join_spaced (items : list string) :
  str_join " " items = spaced items.
Proof.
  unfold str_join. destruct items as [|item rest]; [done|].
  cbn [spaced]. revert item.
  induction rest as [|item' rest IH]; intros item.
  { cbn. by rewrite str_app_nil_r. }
  change (String.concat " " (item :: item' :: rest))
    with (item +:+ " " +:+ String.concat " " (item' :: rest)).
  rewrite IH. cbn [List.map str_concat foldr]. by rewrite !str_app_assoc.
Qed.

Lemma bond_opt_text_spec (tpl : string) (bond_value : bond_value) :
  Passes.bond_opt_text tpl bond_value = option_text tpl bond_value.
Proof.
  destruct bond_value as [[s|[|]|z|]|items]; cbn; try done.
  by rewrite str_join_spaced.
Qed.

(** [BONDING_OPTS] holds, separated by spaces and in the order mode,
    xmit_hash_policy, miimon, the options that the interface has under
    the spelling with underscores or, failing that, with hyphens, the
    items of a tuple or list being separated by spaces as well; without
    any of them the configuration is left as it is. *)
Theorem render_bonding_opts_cases (iface_cfg : NetInterface.t)
    (ifc : bond_iface) :
  let cfg' := Passes._render_bonding_opts iface_cfg ifc in
  Passes.bond_opts_of (bi_opts ifc) = bonding_opts (bi_opts ifc)
  ∧ (bonding_opts (bi_opts ifc) = [] → cfg' = iface_cfg)
  ∧ (bonding_opts (bi_opts ifc) ≠ [] →
     dict_get "BONDING_OPTS" (NetInterface._conf cfg')
     = Some (VStr (spaced (bonding_opts (bi_opts ifc)))))
  ∧ (∀ key, key ≠ "BONDING_OPTS" →
       dict_get key (NetInterface._conf cfg')
       = dict_get key (NetInterface._conf iface_cfg))
  ∧ NetInterface.name cfg' = NetInterface.name iface_cfg
  ∧ NetInterface.kind cfg' = NetInterface.kind iface_cfg
  ∧ NetInterface.children cfg' = NetInterface.children iface_cfg
  ∧ NetInterface.routes cfg' = NetInterface.routes iface_cfg.
Proof.
  assert (Passes.bond_opts_of (bi_opts ifc) = bonding_opts (bi_opts ifc))
    as Hopts.
  { unfold Passes.bond_opts_of, bonding_opts, bond_option,
      Passes.bond_tpl_opts.
    cbn [foldl fst snd Passes.first_present].
    change (str_replace "_" "-" "bond_mode") with "bond-mode".
    change (str_replace "_" "-" "bond_xmit_hash_policy")
      with "bond-xmit-hash-policy".
    change (str_replace "_" "-" "bond_miimon") with "bond-miimon".
    generalize (bi_opts ifc). intros opts.
    destruct (dict_get "bond_mode" opts), (dict_get "bond-mode" opts),
      (dict_get "bond_xmit_hash_policy" opts),
      (dict_get "bond-xmit-hash-policy" opts),
      (dict_get "bond_miimon" opts), (dict_get "bond-miimon" opts);
      by rewrite ?bond_opt_text_spec. }
  cbn zeta. unfold Passes._render_bonding_opts. rewrite Hopts.
  case_bool_decide as Hne.
  - cbn [NetInterface.__setitem__ NetInterface.set_conf NetInterface._conf].
    unfold ConfigMap.__setitem__. rewrite str_join_spaced.
    split_and!; try done.
    + intros _. by dict_simpl.
    + intros key Hkey. by rewrite dict_get_set_ne.
  - by split_and!.
Qed.

Example bonding_opts_of_both_spellings :
  bonding_opts
    [("bond-mode", BScalar (VStr "active-backup"));
     ("bond_mode", BScalar (VStr "802.3ad"));
     ("bond-miimon", BScalar (VInt 100));
     ("bond_xmit_hash_policy", BSeq ["layer3+4"; "x"])]
  = ["mode=802.3ad"; "xmit_hash_policy=layer3+4 x"; "miimon=100"].
Proof. reflexivity. Qed.

(** ** The passes on the working set *)

Lemma evolves_refl (a : NetInterface.t) : evolves a a.
Proof. by split_and!. Qed.

Lemma evolves_trans (a b c : NetInterface.t) :
  evolves a b → evolves b c → evolves a c.
Proof.
  intros (? & ? & ? & [? ?] & ?) (? & ? & ? & [? ?] & ?).
  split_and!; [congruence | congruence | auto | | auto].
  split; congruence.
Qed.

Lemma evolves_setitem (cfg : NetInterface.t) (key : string) (v : value) :
  key ≠ "TYPE" → key ≠ "DEVICE" →
  evolves cfg (NetInterface.__setitem__ cfg key v).
Proof.
  intros Ht Hd. split_and!; try done.
  intros Hm. apply (apply_mirrors cfg (NetInterface.SetItem key v)); [|done].
  cbn. apply bool_decide_eq_false_2. by intros [?|?].
Qed.

Lemma evolves_set_kind (cfg cfg' : NetInterface.t) (kind : string) :
  NetInterface.set_kind cfg kind = Ok cfg' → evolves cfg cfg'.
Proof.
  intros Hset. pose proof (apply_mirrors cfg (NetInterface.SetKind kind)) as Hm.
  cbn [NetInterface.apply] in Hm. rewrite Hset in Hm.
  unfold NetInterface.set_kind in Hset.
  destruct (dict_get kind NetInterface.iface_types); [|done].
  injection Hset as <-. split_and!; try done. by apply Hm.
Qed.

Lemma evolves_set_children (cfg : NetInterface.t)
    (children : list NetInterface.t) :
  (NetInterface.children cfg = [] → children = []) →
  evolves cfg (NetInterface.set_children cfg children).
Proof. intros Hc. by split_and!. Qed.

Lemma updated_refl (R : NetInterface.t → NetInterface.t → Prop)
    (c : dict NetInterface.t) :
  (∀ a, R a a) → updated R c c.
Proof. intros HR. split; [done|]. intros k cfg Hk. eauto. Qed.

Lemma updated_trans (R : NetInterface.t → NetInterface.t → Prop)
    (c1 c2 c3 : dict NetInterface.t) :
  (∀ a b c, R a b → R b c → R a c) →
  updated R c1 c2 → updated R c2 c3 → updated R c1 c3.
Proof.
  intros HR [Hk12 H12] [Hk23 H23]. split; [congruence|].
  intros k cfg3 H3. destruct (H23 k cfg3 H3) as (cfg2 & H2 & HR23).
  destruct (H12 k cfg2 H2) as (cfg1 & H1 & HR12). eauto.
Qed.

Lemma updated_set (R : NetInterface.t → NetInterface.t → Prop)
    (c : dict NetInterface.t) (k : string) (cfg cfg' : NetInterface.t) :
  (∀ a, R a a) → dict_get k c = Some cfg → R cfg cfg' →
  updated R c (dict_set k cfg' c).
Proof.
  intros HR Hk Hcfg. split.
  - rewrite dict_keys_set, decide_True; [done|].
    apply dict_get_is_Some. by rewrite Hk.
  - intros k0 cfg0. destruct (decide (k = k0)) as [<-|Hne].
    + rewrite dict_get_set_eq. intros [= <-]. eauto.
    + rewrite dict_get_set_ne by done. eauto.
Qed.

Lemma updated_mono (R R' : NetInterface.t → NetInterface.t → Prop)
    (c c' : dict NetInterface.t) :
  (∀ a b, R a b → R' a b) → updated R c c' → updated R' c c'.
Proof.
  intros HR [Hk H]. split; [done|]. intros k cfg' Hcfg'.
  destruct (H k cfg' Hcfg') as (cfg & ? & ?). eauto.
Qed.

Lemma for_each_updated {A : Type}
    (R : NetInterface.t → NetInterface.t → Prop)
    (body : dict NetInterface.t → A → result (dict NetInterface.t))
    (items : list A) (c c' : dict NetInterface.t) :
  (∀ a, R a a) → (∀ a b c, R a b → R b c → R a c) →
  (∀ s x s', body s x = Ok s' → updated R s s') →
  for_each body items c = Ok c' → updated R c c'.
Proof.
  intros Hrefl Htrans Hbody.
  apply (for_each_inv (λ s, updated R c s)); [|by apply updated_refl].
  intros s x s' _ Hs Hstep. eapply updated_trans; [done..|]. by eapply Hbody.
Qed.

Lemma updated_keys (R : NetInterface.t → NetInterface.t → Prop)
    (c c' : dict NetInterface.t) (k : string) :
  updated R c c' → k ∈ dict_keys c → ∃ cfg', dict_get k c' = Some cfg'.
Proof.
  intros [Hkeys _] Hk. rewrite <- Hkeys in Hk.
  by apply dict_get_is_Some in Hk.
Qed.

Lemma mark_all_total (mark : NetInterface.t → result NetInterface.t)
    (cfgs : list NetInterface.t) :
  (∀ cfg, ∃ cfg', mark cfg = Ok cfg') →
  ∃ cfgs', Passes.mark_all mark cfgs = Ok cfgs' ∧ (cfgs = [] → cfgs' = []).
Proof.
  intros Hmark. induction cfgs as [|cfg cfgs [cfgs' [IH _]]].
  { by exists []. }
  destruct (Hmark cfg) as [cfg' Hcfg']. cbn [Passes.mark_all].
  rewrite Hcfg', IH. cbn [bind]. by eexists.
Qed.

Lemma mark_bond_master_spec (cfg : NetInterface.t) :
  ∃ cfg', Passes.mark_bond_master cfg = Ok cfg'
          ∧ evolves cfg cfg' ∧ bonding_master cfg'
          ∧ NetInterface.children cfg' = NetInterface.children cfg
          ∧ ∀ key, key ∉ ["BONDING_MASTER"; "TYPE"] →
                   dict_get key (NetInterface._conf cfg')
                   = dict_get key (NetInterface._conf cfg).
Proof.
  unfold Passes.mark_bond_master.
  destruct (NetInterface.set_kind
              (NetInterface.__setitem__ cfg "BONDING_MASTER" (VBool true))
              "bond") as [cfg'|] eqn:Hset; [|done].
  exists cfg'. split; [done|]. split.
  { eapply evolves_trans; [|by eapply evolves_set_kind].
    by apply evolves_setitem. }
  injection Hset as <-. unfold bonding_master.
  cbn [NetInterface.__setitem__ NetInterface.set_conf NetInterface._conf
       NetInterface.kind NetInterface._kind NetInterface.children].
  unfold ConfigMap.__setitem__.
  split_and!; try done; try (by dict_simpl).
  intros key Hkey. rewrite !dict_get_set_ne; try done;
    intros ?; subst key; apply Hkey; in_list.
Qed.

Lemma evolves_bonding_opts (cfg : NetInterface.t) (ifc : bond_iface) :
  evolves cfg (Passes._render_bonding_opts cfg ifc)
  ∧ ∀ key, key ≠ "BONDING_OPTS" →
           dict_get key (NetInterface._conf
                           (Passes._render_bonding_opts cfg ifc))
           = dict_get key (NetInterface._conf cfg).
Proof.
  unfold Passes._render_bonding_opts. case_bool_decide.
  - split; [by apply evolves_setitem|]. intros key Hkey.
    by apply dict_get_set_ne.
  - split; [apply evolves_refl | done].
Qed.

(** [_render_bond_interfaces] on one member of a bond.  A member that
    [iface_contents] does not have raises [KeyError], and so do a member
    without [bond-master] and a master that [iface_contents] does not
    have.  Otherwise the member has [MASTER] and [SLAVE], the master has
    [BONDING_MASTER] and is of kind bond with [TYPE] Bond, and nothing
    else changes in [iface_contents] but the bonding options of the
    member. *)
Theorem render_bond_cases (iface_contents : dict NetInterface.t)
    (ifc : bond_iface) :
  match dict_get (bi_name ifc) iface_contents, bi_bond_master ifc with
  | None, _ =>
      Passes.render_bond iface_contents ifc = Raise (KeyError (bi_name ifc))
  | Some _, None =>
      Passes.render_bond iface_contents ifc = Raise (KeyError "bond-master")
  | Some _, Some master_name =>
      if bool_decide (master_name ∈ dict_keys iface_contents) then
        ∃ contents',
          Passes.render_bond iface_contents ifc = Ok contents'
          ∧ updated evolves iface_contents contents'
          ∧ (∀ k, k ≠ bi_name ifc → k ≠ master_name →
               dict_get k contents' = dict_get k iface_contents)
          ∧ (∃ cfg, dict_get (bi_name ifc) contents' = Some cfg
                    ∧ enslaved master_name cfg)
          ∧ (∃ cfg, dict_get master_name contents' = Some cfg
                    ∧ bonding_master cfg)
      else
        Passes.render_bond iface_contents ifc = Raise (KeyError master_name)
  end.
Proof.
  unfold Passes.render_bond, dict_getitem.
  destruct (dict_get (bi_name ifc) iface_contents) as [cfg|] eqn:Hcfg;
    [|done].
  cbn [bind]. destruct (bi_bond_master ifc) as [m|]; [|done].
  cbn [field bind].
  destruct (evolves_bonding_opts cfg ifc) as [Hopts Hopts_keys].
  set (cfg1 := Passes._render_bonding_opts cfg ifc) in *.
  set (cfg3 := NetInterface.__setitem__
                 (NetInterface.__setitem__ cfg1 "MASTER" (VStr m))
                 "SLAVE" (VBool true)).
  assert (evolves cfg cfg3) as Hcfg3.
  { eapply evolves_trans; [exact Hopts|].
    eapply evolves_trans; by apply evolves_setitem. }
  assert (enslaved m cfg3) as Hslave.
  { unfold enslaved, cfg3.
    cbn [NetInterface.__setitem__ NetInterface.set_conf NetInterface._conf].
    unfold ConfigMap.__setitem__. split; by dict_simpl. }
  pose proof (updated_set evolves iface_contents (bi_name ifc) cfg cfg3
                evolves_refl Hcfg Hcfg3) as Hup1.
  set (c1 := dict_set (bi_name ifc) cfg3 iface_contents) in *.
  case_bool_decide as Hm.
  2: { assert (dict_get m c1 = None) as ->; [|done].
       apply dict_get_None. by rewrite (proj1 Hup1). }
  destruct (updated_keys _ _ _ m Hup1 Hm) as [master Hmaster].
  rewrite Hmaster. cbn [bind].
  destruct (mark_bond_master_spec master)
    as (master' & -> & Hev & Hbm & Hch & Hkeys).
  cbn [bind].
  destruct (mark_all_total Passes.mark_bond_master
              (NetInterface.children master'))
    as (children & -> & Hnil).
  { intros x. destruct (mark_bond_master_spec x) as (? & ? & _). eauto. }
  cbn [bind]. eexists. split; [done|].
  assert (evolves master (NetInterface.set_children master' children))
    as Hmaster'.
  { eapply evolves_trans; [exact Hev|]. by apply evolves_set_children. }
  split_and!.
  - eapply updated_trans; [apply evolves_trans | exact Hup1 |].
    by eapply updated_set; [apply evolves_refl|..].
  - intros k Hk Hkm. unfold c1. by rewrite !dict_get_set_ne.
  - destruct (decide (m = bi_name ifc)) as [->|Hne].
    + rewrite dict_get_set_eq. eexists. split; [done|].
      unfold c1 in Hmaster. rewrite dict_get_set_eq in Hmaster.
      injection Hmaster as <-. destruct Hslave as [H1 H2].
      split; cbn [NetInterface.set_children NetInterface._conf];
        (rewrite Hkeys; [done|]); intros Hin;
        apply list_elem_of_In in Hin; cbn in Hin;
        intuition discriminate.
    + rewrite dict_get_set_ne by done. unfold c1.
      rewrite dict_get_set_eq. eauto.
  - rewrite dict_get_set_eq. eexists. split; [done|]. exact Hbm.
Qed.

Example render_bond_two_members :
  (let* c :=
     Passes._render_bond_interfaces
       [mk_bond_iface "eth0" (Some "bond0")
          [("bond-mode", BScalar (VStr "802.3ad"))];
        mk_bond_iface "bond0" (Some "bond0") []]
       [("eth0", Sample.eth0);
        ("bond0", NetInterface.set_name Sample.eth0 "bond0")] in
   let* eth0 := dict_getitem "eth0" c in
   let* bond0 := dict_getitem "bond0" c in
   let* eth0_text := NetInterface.to_string eth0 in
   Ok (eth0_text, NetInterface.kind bond0,
       dict_get "MASTER" (NetInterface._conf bond0)))
  = Ok (_make_header "#" +:+ nl +:+ "BONDING_OPTS=mode=802.3ad" +:+ nl
        +:+ "DEVICE=eth0" +:+ nl +:+ "MASTER=bond0" +:+ nl
        +:+ "SLAVE=yes" +:+ nl +:+ "TYPE=Ethernet" +:+ nl,
        "bond", Some (VStr "bond0")).
Proof. reflexivity. Qed.

(** ** The bridge pass *)

Lemma marked_refl (n : string) (a : NetInterface.t) : marked n a a.
Proof. split_and!; [apply evolves_refl | done..]. Qed.

Lemma marked_trans (n : string) (a b c : NetInterface.t) :
  marked n a b → marked n b c → marked n a c.
Proof.
  intros (Hab & Hk1 & Ho1 & Hb1) (Hbc & Hk2 & Ho2 & Hb2). split_and!.
  - by eapply evolves_trans.
  - congruence.
  - intros key Hkey. by rewrite Ho2, Ho1.
  - auto.
Qed.

Lemma render_bridge_port_spec (n : string) (c : dict NetInterface.t)
    (p : string) :
  match dict_get p c with
  | None => Passes.render_bridge_port n c p = Raise (KeyError p)
  | Some cfg =>
      ∃ cfg', Passes.render_bridge_port n c p = Ok (dict_set p cfg' c)
              ∧ marked n cfg cfg'
              ∧ dict_get "BRIDGE" (NetInterface._conf cfg') = Some (VStr n)
  end.
Proof.
  unfold Passes.render_bridge_port, dict_getitem.
  destruct (dict_get p c) as [cfg|]; [|done].
  cbn [bind Passes.mark_bridged].
  destruct (mark_all_total (Passes.mark_bridged n)
              (NetInterface.children
                 (NetInterface.__setitem__ cfg "BRIDGE" (VStr n))))
    as (children & -> & Hnil).
  { intros x. by eexists. }
  cbn [bind]. eexists. split; [done|]. split; [|apply dict_get_set_eq].
  split_and!.
  - eapply evolves_trans; [by apply (evolves_setitem cfg "BRIDGE")|].
    by apply evolves_set_children.
  - done.
  - intros key Hkey. by apply dict_get_set_ne.
  - intros _. apply dict_get_set_eq.
Qed.

Lemma bridge_ports_loop (n : string) (ports : list string)
    (c : dict NetInterface.t) :
  Forall (λ p, p ∈ dict_keys c) ports →
  ∃ c', for_each (Passes.render_bridge_port n) ports c = Ok c'
        ∧ updated (marked n) c c'
        ∧ (∀ p, p ∈ ports →
             ∃ cfg, dict_get p c' = Some cfg
                    ∧ dict_get "BRIDGE" (NetInterface._conf cfg)
                      = Some (VStr n))
        ∧ (∀ k, k ∉ ports → dict_get k c' = dict_get k c).
Proof.
  revert c. induction ports as [|p ports IH]; intros c Hports.
  { exists c. split_and!; try done.
    - apply updated_refl, marked_refl.
    - intros p Hp. by apply elem_of_nil in Hp. }
  apply Forall_cons in Hports as [Hp Hports]. cbn [for_each].
  pose proof (render_bridge_port_spec n c p) as Hstep.
  apply dict_get_is_Some in Hp as [cfg Hcfg]. rewrite Hcfg in Hstep.
  destruct Hstep as (cfg' & -> & Hmarked & Hbridge). cbn [bind].
  pose proof (updated_set (marked n) c p cfg cfg' (marked_refl n) Hcfg Hmarked)
    as Hup1.
  destruct (IH (dict_set p cfg' c)) as (c' & -> & Hup & Hin & Hout).
  { rewrite (proj1 Hup1). done. }
  exists c'. split; [done|]. split_and!.
  - eapply updated_trans; [apply marked_trans | exact Hup1 | exact Hup].
  - intros q [->|Hq]%elem_of_cons; [|by apply Hin].
    destruct (updated_keys _ _ _ p Hup) as [cfg2 Hcfg2].
    { rewrite (proj1 Hup1). apply dict_get_is_Some. by rewrite Hcfg. }
    exists cfg2. split; [done|].
    destruct ((proj2 Hup) p cfg2 Hcfg2) as (cfg1 & Hcfg1 & _ & _ & _ & Hb).
    rewrite dict_get_set_eq in Hcfg1. injection Hcfg1 as <-. by apply Hb.
  - intros k [Hkp Hk]%not_elem_of_cons.
    rewrite Hout by done. by apply dict_get_set_ne.
Qed.

Lemma bridge_ports_missing (n : string) (l1 l2 : list string) (p : string)
    (c : dict NetInterface.t) :
  Forall (λ p, p ∈ dict_keys c) l1 → p ∉ dict_keys c →
  for_each (Passes.render_bridge_port n) (l1 ++ p :: l2) c
  = Raise (KeyError p).
Proof.
  intros Hl1 Hp. rewrite for_each_app.
  destruct (bridge_ports_loop n l1 c Hl1) as (c1 & -> & [Hkeys _] & _).
  cbn [bind for_each].
  pose proof (render_bridge_port_spec n c1 p) as Hstep.
  rewrite <- Hkeys in Hp. apply dict_get_None in Hp. rewrite Hp in Hstep.
  by rewrite Hstep.
Qed.

Lemma bridge_opts_spec (cfg : NetInterface.t) (opts : dict value) :
  let cfg' :=
    foldl (λ cfg (entry : string * string),
             match dict_get entry.1 opts with
             | Some v => NetInterface.__setitem__ cfg entry.2 v
             | None => cfg
             end)
          cfg Passes.bridge_opts_keys in
  evolves cfg cfg'
  ∧ NetInterface.kind cfg' = NetInterface.kind cfg
  ∧ (∀ key, key ∉ ["STP"; "AGEING"; "PRIO"] →
       dict_get key (NetInterface._conf cfg')
       = dict_get key (NetInterface._conf cfg))
  ∧ (∀ old_key new_key v,
       (old_key, new_key) ∈ Passes.bridge_opts_keys →
       dict_get old_key opts = Some v →
       dict_get new_key (NetInterface._conf cfg') = Some v).
Proof.
  unfold Passes.bridge_opts_keys. cbn [foldl fst snd].
  destruct (dict_get "bridge_stp" opts) as [stp|] eqn:Hstp,
    (dict_get "bridge_ageing" opts) as [ageing|] eqn:Hageing,
    (dict_get "bridge_bridgeprio" opts) as [prio|] eqn:Hprio;
    (split_and!;
     [ repeat (eapply evolves_trans; [|by apply evolves_setitem]);
       apply evolves_refl
     | reflexivity
     | intros key Hkey;
       cbn [NetInterface.__setitem__ NetInterface.set_conf
            NetInterface._conf];
       unfold ConfigMap.__setitem__;
       rewrite ?dict_get_set_ne; [done|..];
       intros ?; subst key; apply Hkey; in_list
     | intros old_key new_key v Hin Hv;
       apply list_elem_of_In in Hin; cbn in Hin;
       destruct Hin as [[= <- <-]|[[= <- <-]|[[= <- <-]|[]]]];
       cbn [NetInterface.__setitem__ NetInterface.set_conf
            NetInterface._conf];
       unfold ConfigMap.__setitem__;
       first [ congruence | dict_simpl; congruence ] ]).
Qed.

(** [_render_bridge_interfaces] on one bridge.  A bridge that
    [iface_contents] does not have raises [KeyError], and so does the
    first of its ports that [iface_contents] does not have.  Otherwise the
    bridge is of kind bridge with [TYPE] Bridge and has under [STP],
    [AGEING] and [PRIO] the options that the interface has, every port has
    [BRIDGE] set to the name of the bridge, and the other configurations
    are as they were. *)
Theorem render_bridge_cases (iface_contents : dict NetInterface.t)
    (ifc : bridge_iface) :
  let ports := default [] (br_ports ifc) in
  match dict_get (br_name ifc) iface_contents with
  | None =>
      Passes.render_bridge iface_contents ifc
      = Raise (KeyError (br_name ifc))
  | Some _ =>
      (Forall (λ p, p ∈ dict_keys iface_contents) ports →
       ∃ contents',
         Passes.render_bridge iface_contents ifc = Ok contents'
         ∧ updated evolves iface_contents contents'
         ∧ (∀ k, k ≠ br_name ifc → k ∉ ports →
              dict_get k contents' = dict_get k iface_contents)
         ∧ (∃ cfg, dict_get (br_name ifc) contents' = Some cfg
                   ∧ bridge_configured (br_opts ifc) cfg)
         ∧ (∀ p, p ∈ ports →
              ∃ cfg, dict_get p contents' = Some cfg
                     ∧ dict_get "BRIDGE" (NetInterface._conf cfg)
                       = Some (VStr (br_name ifc))))
      ∧ (∀ l1 p l2,
           ports = l1 ++ p :: l2 →
           Forall (λ p, p ∈ dict_keys iface_contents) l1 →
           p ∉ dict_keys iface_contents →
           Passes.render_bridge iface_contents ifc = Raise (KeyError p))
  end.
Proof.
  intros ports. unfold Passes.render_bridge, dict_getitem. fold ports.
  destruct (dict_get (br_name ifc) iface_contents) as [cfg|] eqn:Hcfg;
    [|done].
  cbn [bind].
  destruct (NetInterface.set_kind cfg "bridge") as [cfg1|] eqn:Hset; [|done].
  cbn [bind].
  destruct (bridge_opts_spec cfg1 (br_opts ifc)) as (Hev & Hkind & Ho & Hopts).
  cbn zeta in Hev, Hkind, Ho, Hopts.
  set (cfg2 := foldl _ cfg1 Passes.bridge_opts_keys) in *.
  assert (evolves cfg cfg2) as Hcfg2.
  { eapply evolves_trans; [by eapply evolves_set_kind | done]. }
  assert (bridge_configured (br_opts ifc) cfg2) as Hbridge.
  { injection Hset as <-. split_and!; [by rewrite Hkind| |done].
    rewrite Ho; [apply dict_get_set_eq|].
    intros Hin. apply list_elem_of_In in Hin. cbn in Hin.
    intuition discriminate. }
  pose proof (updated_set evolves iface_contents (br_name ifc) cfg cfg2
                evolves_refl Hcfg Hcfg2) as Hup1.
  set (c1 := dict_set (br_name ifc) cfg2 iface_contents) in *.
  split.
  - intros Hports.
    destruct (bridge_ports_loop (br_name ifc) ports c1)
      as (c' & -> & Hup & Hin & Hout).
    { by rewrite (proj1 Hup1). }
    exists c'. split; [done|]. split_and!.
    + eapply updated_trans; [apply evolves_trans | exact Hup1 |].
      eapply updated_mono; [|exact Hup]. by intros a b [? _].
    + intros k Hk Hkp. rewrite Hout by done. unfold c1.
      by apply dict_get_set_ne.
    + destruct (updated_keys _ _ _ (br_name ifc) Hup) as [cfg3 Hcfg3].
      { rewrite (proj1 Hup1). apply dict_get_is_Some. by rewrite Hcfg. }
      exists cfg3. split; [done|].
      destruct ((proj2 Hup) _ _ Hcfg3) as (cfg2' & Hcfg2' & _ & Hk3 & Ho3 & _).
      unfold c1 in Hcfg2'. rewrite dict_get_set_eq in Hcfg2'.
      injection Hcfg2' as <-.
      destruct Hbridge as (Hbk & Hbt & Hbo). split_and!.
      * congruence.
      * by rewrite Ho3.
      * intros old_key new_key v Hkeys Hv. rewrite Ho3; [by eapply Hbo|].
        apply list_elem_of_In in Hkeys. cbn in Hkeys.
        destruct Hkeys as [[= <- <-]|[[= <- <-]|[[= <- <-]|[]]]]; done.
    + done.
  - intros l1 p l2 -> Hl1 Hp. apply bridge_ports_missing.
    + by rewrite (proj1 Hup1).
    + by rewrite (proj1 Hup1).
Qed.

Lemma render_bridge_cases_witness :
  ∃ contents',
    Passes.render_bridge
      [("br0", NetInterface.set_name Sample.eth0 "br0");
       ("eth0", Sample.eth0)]
      (mk_bridge_iface "br0" [("bridge_stp", VStr "off")] (Some ["eth0"]))
    = Ok contents'
    ∧ ∃ cfg, dict_get "eth0" contents' = Some cfg
             ∧ dict_get "BRIDGE" (NetInterface._conf cfg)
               = Some (VStr "br0").
Proof.
  destruct (render_bridge_cases
              [("br0", NetInterface.set_name Sample.eth0 "br0");
               ("eth0", Sample.eth0)]
              (mk_bridge_iface "br0" [("bridge_stp", VStr "off")]
                 (Some ["eth0"])))
    as [Hok _].
  destruct Hok as (contents' & Hrender & _ & _ & _ & Hports).
  - repeat constructor.
  - exists contents'. split; [exact Hrender|]. apply Hports. cbn. in_list.
Defined.

(** ** _render_sysconfig: from the network state to the files *)

Lemma mirrors_transfer (a b : NetInterface.t) :
  NetInterface.kind b = NetInterface.kind a →
  NetInterface.name b = NetInterface.name a →
  dict_get "TYPE" (NetInterface._conf b)
  = dict_get "TYPE" (NetInterface._conf a) →
  dict_get "DEVICE" (NetInterface._conf b)
  = dict_get "DEVICE" (NetInterface._conf a) →
  NetInterface.mirrors a → NetInterface.mirrors b.
Proof.
  intros Hk Hn Ht Hd [(label & Hl & Hty) Hdev]. split.
  - exists label. by rewrite Hk, Ht.
  - by rewrite Hd, Hn.
Qed.

Lemma render_subnets_keeps (iface_cfg cfg' : NetInterface.t)
    (subnets : list subnet) :
  Renderer._render_subnets iface_cfg subnets = Ok cfg' →
  (∀ key, subnet_key key = false →
     dict_get key (NetInterface._conf cfg')
     = dict_get key (NetInterface._conf iface_cfg))
  ∧ NetInterface.kind cfg' = NetInterface.kind iface_cfg.
Proof.
  unfold Renderer._render_subnets.
  destruct (for_each Renderer.subnet_base subnets _) as [cfg1|] eqn:H1;
    cbn [bind]; [|done].
  destruct (for_each Renderer.subnet_static subnets _) as [[[cfg2 i4] i6]|]
    eqn:H2; cbn [bind]; [|done].
  intros [= <-].
  assert (∀ key, subnet_key key = false →
                 static_key key = false
                 ∧ key ∉ ["BOOTPROTO"; "IPV6INIT"; "DHCPV6C"]) as Hkeys.
  { intros key [Hs Hf%bool_decide_eq_false]%orb_false_iff. done. }
  change cfg2 with (cfg2, i4, i6).1.1. revert H2.
  apply (for_each_inv
    (λ s, (∀ key, subnet_key key = false →
             dict_get key (NetInterface._conf s.1.1)
             = dict_get key (NetInterface._conf iface_cfg))
          ∧ NetInterface.kind s.1.1 = NetInterface.kind iface_cfg)).
  { intros s sn s' _ [Hs Hk] Hstep.
    destruct (subnet_static_items _ _ _ Hstep) as [Hs' Hk'].
    split; [|congruence]. intros key Hkey.
    rewrite Hs' by (by apply Hkeys). by apply Hs. }
  cbn [fst]. revert H1.
  apply (for_each_inv
    (λ s, (∀ key, subnet_key key = false →
             dict_get key (NetInterface._conf s)
             = dict_get key (NetInterface._conf iface_cfg))
          ∧ NetInterface.kind s = NetInterface.kind iface_cfg)).
  { intros s sn s' _ [Hs Hk] Hstep.
    destruct (subnet_base_items _ _ _ Hstep) as (_ & _ & _ & Hs' & Hk').
    split; [|congruence]. intros key Hkey.
    rewrite Hs' by (by apply Hkeys). by apply Hs. }
  split; [|done]. intros key Hkey. apply dict_get_set_ne. intros <-.
  destruct (Hkeys _ Hkey) as [_ Hf]. apply Hf. in_list.
Qed.

Lemma render_physical_evolves (ifc : iface) (iface_cfg cfg' : NetInterface.t) :
  Renderer.render_physical ifc iface_cfg = Ok cfg' → evolves iface_cfg cfg'.
Proof.
  unfold Renderer.render_physical.
  destruct (Renderer._render_subnets iface_cfg _) as [cfg1|] eqn:H1;
    cbn [bind]; [|done].
  destruct (Renderer._render_subnet_routes cfg1 _ _) as [[cfg2 rc2]|] eqn:H2;
    cbn [bind]; [|done].
  intros [= <-].
  destruct (render_subnets_same _ _ _ H1) as [(Hn1 & Hb1 & Hc1) Hr1].
  destruct (render_subnet_routes_same _ _ _ _ H2)
    as [(Hn2 & Hb2 & Hc2) [Htn Htb]].
  destruct (render_subnets_keeps _ _ _ H1) as [Hkeys1 Hk1].
  rewrite render_subnet_routes_flat in H2.
  destruct (render_routes_effects _ _ _ _ _ H2)
    as (_ & _ & _ & Hkeys2 & _ & Hk2 & _).
  cbn [fst snd] in *.
  split_and!.
  - cbn. unfold NetInterface.name in *. congruence.
  - cbn. congruence.
  - cbn. congruence.
  - split; cbn; congruence.
  - apply mirrors_transfer.
    + cbn. unfold NetInterface.kind in *. congruence.
    + cbn. unfold NetInterface.name in *. congruence.
    + cbn. rewrite Hkeys2, Hkeys1; [done..|].
      intros Hin. apply list_elem_of_In in Hin. cbn in Hin.
      intuition discriminate.
    + cbn. rewrite Hkeys2, Hkeys1; [done..|].
      intros Hin. apply list_elem_of_In in Hin. cbn in Hin.
      intuition discriminate.
Qed.

Lemma physical_iface_updated (c c' : dict NetInterface.t) (ifc : iface) :
  Passes.physical_iface c ifc = Ok c' → updated evolves c c'.
Proof.
  unfold Passes.physical_iface, dict_getitem.
  destruct (dict_get (if_name ifc) c) as [cfg|] eqn:Hcfg; cbn [bind]; [|done].
  destruct (Renderer.render_physical ifc cfg) as [cfg'|] eqn:Hr; cbn [bind];
    [|done].
  intros [= <-]. eapply updated_set; [apply evolves_refl | done |].
  by eapply render_physical_evolves.
Qed.

Lemma render_bond_updated (c c' : dict NetInterface.t) (ifc : bond_iface) :
  Passes.render_bond c ifc = Ok c' → updated evolves c c'.
Proof.
  unfold Passes.render_bond, dict_getitem.
  destruct (dict_get (bi_name ifc) c) as [cfg|] eqn:Hcfg; cbn [bind]; [|done].
  destruct (bi_bond_master ifc) as [m|]; cbn [field bind]; [|done].
  match goal with
  | |- context [dict_set (bi_name ifc) ?x c] => set (cfg3 := x)
  end.
  assert (evolves cfg cfg3) as Hcfg3.
  { eapply evolves_trans; [apply (evolves_bonding_opts cfg ifc)|].
    eapply evolves_trans; by apply evolves_setitem. }
  pose proof (updated_set evolves c (bi_name ifc) cfg cfg3
                evolves_refl Hcfg Hcfg3) as Hup1.
  destruct (dict_get m (dict_set (bi_name ifc) cfg3 c)) as [master|] eqn:Hm;
    cbn [bind]; [|done].
  destruct (mark_bond_master_spec master) as (master' & -> & Hev & _).
  cbn [bind].
  destruct (mark_all_total Passes.mark_bond_master
              (NetInterface.children master'))
    as (children & -> & Hnil).
  { intros x. destruct (mark_bond_master_spec x) as (? & ? & _). eauto. }
  cbn [bind]. intros [= <-].
  eapply updated_trans; [apply evolves_trans | exact Hup1 |].
  eapply updated_set; [apply evolves_refl | exact Hm |].
  eapply evolves_trans; [exact Hev|]. by apply evolves_set_children.
Qed.

Lemma render_vlan_updated (c c' : dict NetInterface.t) (iface_name : string) :
  Passes.render_vlan c iface_name = Ok c' → updated evolves c c'.
Proof.
  unfold Passes.render_vlan, dict_getitem.
  destruct (dict_get iface_name c) as [cfg|] eqn:Hcfg; cbn [bind]; [|done].
  intros [= <-]. eapply updated_set; [apply evolves_refl | done |].
  eapply evolves_trans; by apply evolves_setitem.
Qed.

Lemma render_bridge_updated (c c' : dict NetInterface.t) (ifc : bridge_iface) :
  Passes.render_bridge c ifc = Ok c' → updated evolves c c'.
Proof.
  unfold Passes.render_bridge, dict_getitem.
  destruct (dict_get (br_name ifc) c) as [cfg|] eqn:Hcfg; cbn [bind]; [|done].
  destruct (NetInterface.set_kind cfg "bridge") as [cfg1|] eqn:Hset;
    cbn [bind]; [|done].
  destruct (bridge_opts_spec cfg1 (br_opts ifc)) as (Hev & _).
  cbn zeta in Hev.
  set (cfg2 := foldl _ cfg1 Passes.bridge_opts_keys) in *.
  intros Hports.
  eapply updated_trans; [apply evolves_trans | |].
  - eapply updated_set; [apply evolves_refl | exact Hcfg |].
    eapply evolves_trans; [by eapply evolves_set_kind | exact Hev].
  - revert Hports.
    apply for_each_updated; [apply evolves_refl | apply evolves_trans |].
    intros s p s' Hstep.
    pose proof (render_bridge_port_spec (br_name ifc) s p) as Hspec.
    destruct (dict_get p s) as [pc|] eqn:Hpc; [|congruence].
    destruct Hspec as (pc' & Heq & [Hpev _] & _).
    rewrite Heq in Hstep. injection Hstep as <-.
    by eapply updated_set; [apply evolves_refl|..].
Qed.

Lemma shared_evolves (ifc : iface) (iface_cfg : NetInterface.t) :
  evolves iface_cfg (Renderer._render_iface_shared ifc iface_cfg).
Proof.
  unfold Renderer._render_iface_shared, Renderer.iface_defaults.
  cbn [foldl fst snd].
  destruct (if_mac_address ifc), (if_mtu ifc); repeat case_bool_decide;
    repeat (eapply evolves_trans; [|by apply evolves_setitem]);
    apply evolves_refl.
Qed.

Lemma Forall_dict_set {V : Type} (P : string * V → Prop) (k : string) (v : V)
    (d : dict V) :
  Forall P d → P (k, v) → Forall P (dict_set k v d).
Proof.
  intros Hd Hkv. induction d as [|[k' v'] d IH]; cbn [dict_set].
  { by apply Forall_singleton. }
  apply Forall_cons in Hd as [Hhd Hd].
  destruct (decide (k = k')); apply Forall_cons; auto.
Qed.

Lemma init_iface_spec (base : string) (c : dict NetInterface.t) (ifc : iface) :
  ∃ cfg, Passes.init_iface base c ifc = Ok (dict_set (if_name ifc) cfg c)
         ∧ Renderer.built_for base (if_name ifc, cfg)
         ∧ NetInterface.mirrors cfg.
Proof.
  unfold Passes.init_iface.
  destruct (Renderer.new_iface_cfg base ifc) as [cfg|] eqn:Hnew.
  2: { unfold Renderer.new_iface_cfg, NetInterface.__init__ in Hnew.
       by cbn in Hnew. }
  exists cfg. cbn [bind]. split; [done|].
  split; [by apply new_iface_cfg_built|].
  unfold Renderer.new_iface_cfg in Hnew.
  pose proof (init_mirrors (if_name ifc) base "ethernet") as Hinit.
  destruct (NetInterface.__init__ (if_name ifc) base "ethernet") as [cfg0|];
    cbn [bind] in Hnew; [|done].
  injection Hnew as <-. destruct Hinit as [_ Hm].
  by apply (shared_evolves ifc cfg0).
Qed.

Lemma init_loop (base : string) (interfaces : list iface)
    (c c' : dict NetInterface.t) :
  let good (item : string * NetInterface.t) :=
    Renderer.built_for base item ∧ NetInterface.mirrors item.2 in
  for_each (Passes.init_iface base) interfaces c = Ok c' →
  dict_wf c → Forall good c →
  dict_wf c' ∧ Forall good c'
  ∧ (∀ k, k ∈ dict_keys c → k ∈ dict_keys c')
  ∧ (∀ k, k ∈ dict_keys c' →
       k ∈ dict_keys c ∨ ∃ ifc, ifc ∈ interfaces ∧ if_name ifc = k)
  ∧ ∀ ifc, ifc ∈ interfaces → if_name ifc ∈ dict_keys c'.
Proof.
  intros good. revert c.
  induction interfaces as [|ifc interfaces IH]; intros c; cbn [for_each].
  { intros [= <-] Hwf Hgood. split_and!; try done; [by left|].
    intros ifc Hin. by apply elem_of_nil in Hin. }
  destruct (init_iface_spec base c ifc) as (cfg & -> & Hbuilt & Hm).
  cbn [bind]. intros Hrest Hwf Hgood.
  destruct (IH _ Hrest) as (Hwf' & Hgood' & Hsub & Hfrom & Hall).
  { by apply dict_wf_set. }
  { by apply Forall_dict_set. }
  assert (∀ k, k ∈ dict_keys (dict_set (if_name ifc) cfg c)
               ↔ k = if_name ifc ∨ k ∈ dict_keys c) as Hset.
  { intros k. rewrite dict_keys_set. case_decide.
    - split; [by right | by intros [->|?]].
    - rewrite elem_of_app, list_elem_of_singleton. tauto. }
  split_and!; try done.
  - intros k Hk. apply Hsub, Hset. by right.
  - intros k Hk. destruct (Hfrom k Hk) as [[->|?]%Hset|(i & ? & ?)].
    + right. exists ifc. split; [by left | done].
    + by left.
    + right. exists i. split; [by right | done].
  - intros i [->|Hi]%elem_of_cons; [|by apply Hall].
    apply Hsub, Hset. by left.
Qed.

Lemma evolves_built (base k : string) (a b : NetInterface.t) :
  evolves a b → Renderer.built_for base (k, a) →
  Renderer.built_for base (k, b).
Proof.
  intros (Hn & Hb & Hc & [Htn Htb] & _) (Hn' & Hb' & Hc' & Htn' & Htb').
  cbn [fst snd] in *. split_and!; cbn [fst snd]; try congruence. auto.
Qed.

Lemma collect_iface_ifcfg (base : string) (c c' : dict string) (k k0 : string)
    (cfg : NetInterface.t) :
  Renderer.built_for base (k, cfg) →
  NetInterface._conf cfg ≠ [] →
  Renderer.collect_iface c (k, cfg) = Ok c' →
  dict_get (base +:+ "/network-scripts/ifcfg-" +:+ k0) c'
  = (if decide (k0 = k) then returned (NetInterface.to_string cfg)
     else dict_get (base +:+ "/network-scripts/ifcfg-" +:+ k0) c)
  ∧ ∀ p, p ∈ dict_keys c' →
         p ∈ dict_keys c
         ∨ p ∈ [base +:+ "/network-scripts/ifcfg-" +:+ k;
                base +:+ "/network-scripts/route-" +:+ k;
                base +:+ "/network-scripts/route6-" +:+ k].
Proof.
  destruct cfg as [conf children routes kind name base'].
  intros (Hname & Hbase & Hchildren & Hrname & Hrbase) Hconf.
  cbn in Hname, Hbase, Hchildren, Hrname, Hrbase, Hconf.
  subst name base' children.
  unfold Renderer.collect_iface, NetInterface.to_string, NetInterface.path,
    Route.path_ipv4, Route.path_ipv6.
  cbn [snd NetInterface._conf NetInterface.children NetInterface.routes
       NetInterface.__len__ NetInterface.name NetInterface._iface_name
       NetInterface._base_sysconf_dir List.last for_each].
  rewrite ConfigMap_to_string_eq. cbn [bind returned].
  unfold NetInterface.__len__. cbn [NetInterface._conf].
  assert ((ConfigMap.__len__ conf =? 0)%nat = false) as ->.
  { apply Nat.eqb_neq. unfold ConfigMap.__len__. by destruct conf. }
  cbn [negb orb bind NetInterface.routes]. rewrite Hrname, Hrbase.
  set (text := _make_header "#" +:+ _).
  assert (∀ (p : string) (t : string) (d : dict string) q,
            q ∈ dict_keys (dict_set p t d) → q ∈ dict_keys d ∨ q = p)
    as Hkeys.
  { intros p t d q. rewrite dict_keys_set. case_decide; [by left|].
    rewrite elem_of_app, list_elem_of_singleton. tauto. }
  assert (dict_get (base +:+ "/network-scripts/ifcfg-" +:+ k0)
            (dict_set (base +:+ "/network-scripts/ifcfg-" +:+ k) text c)
          = (if decide (k0 = k) then Some text
             else dict_get (base +:+ "/network-scripts/ifcfg-" +:+ k0) c))
    as Hifcfg.
  { destruct (decide (k0 = k)) as [->|Hne]; [apply dict_get_set_eq|].
    apply dict_get_set_ne. intros Heq%literal_path_inj. by apply Hne. }
  destruct (Route.__len__ routes =? 0)%nat; cbn [negb].
  - intros [= <-]. split; [done|]. intros p [?| ->]%Hkeys; [by left|].
    right. in_list.
  - destruct (Route.to_string routes "ipv4") as [t4|e]; cbn [bind]; [|done].
    destruct (Route.to_string routes "ipv6") as [t6|e]; cbn [bind]; [|done].
    intros [= <-]. split.
    + rewrite dict_get_set_ne.
      2: { intros Heq. symmetry in Heq. by apply ifcfg_ne_route6 in Heq. }
      rewrite dict_get_set_ne; [done|].
      intros Heq. symmetry in Heq. by apply ifcfg_ne_route4 in Heq.
    + intros p [[[?| ->]%Hkeys| ->]%Hkeys| ->]%Hkeys; [by left|right; in_list..].
Qed.

Lemma collect_ifcfg_others (base : string) (l : dict NetInterface.t)
    (c c' : dict string) (k : string) :
  Forall (λ item, Renderer.built_for base item
                  ∧ NetInterface._conf item.2 ≠ []) l →
  k ∉ dict_keys l →
  for_each Renderer.collect_iface l c = Ok c' →
  dict_get (base +:+ "/network-scripts/ifcfg-" +:+ k) c'
  = dict_get (base +:+ "/network-scripts/ifcfg-" +:+ k) c.
Proof.
  intros Hgood Hk.
  apply (for_each_inv
           (λ s, dict_get (base +:+ "/network-scripts/ifcfg-" +:+ k) s
                 = dict_get (base +:+ "/network-scripts/ifcfg-" +:+ k) c));
    [|done].
  intros s [k' cfg] s' Hin Hs Hstep.
  rewrite Forall_forall in Hgood. destruct (Hgood _ Hin) as [Hb Hconf].
  destruct (collect_iface_ifcfg base s s' k' k cfg Hb Hconf Hstep) as [-> _].
  rewrite decide_False; [done|]. intros ->. apply Hk.
  unfold dict_keys. apply list_elem_of_fmap. by exists (k', cfg).
Qed.

Lemma collect_ifcfg (base : string) (l : dict NetInterface.t)
    (c c' : dict string) (k : string) (cfg : NetInterface.t) :
  Forall (λ item, Renderer.built_for base item
                  ∧ NetInterface._conf item.2 ≠ []) l →
  dict_wf l → (k, cfg) ∈ l →
  for_each Renderer.collect_iface l c = Ok c' →
  dict_get (base +:+ "/network-scripts/ifcfg-" +:+ k) c'
  = returned (NetInterface.to_string cfg).
Proof.
  intros Hgood Hwf Hin Hloop.
  apply list_elem_of_split in Hin as (l1 & l2 & ->).
  unfold dict_wf, dict_keys in Hwf. rewrite fmap_app, fmap_cons in Hwf.
  apply NoDup_app in Hwf as (_ & _ & [Hl2 _]%NoDup_cons).
  apply Forall_app in Hgood as [_ [[Hb Hconf] Hg2]%Forall_cons].
  rewrite for_each_app in Hloop.
  destruct (for_each Renderer.collect_iface l1 c) as [c1|]; [|done].
  cbn [bind for_each] in Hloop.
  destruct (Renderer.collect_iface c1 (k, cfg)) as [c2|] eqn:H2; [|done].
  cbn [bind] in Hloop.
  rewrite (collect_ifcfg_others base l2 c2 c' k Hg2 Hl2 Hloop).
  destruct (collect_iface_ifcfg base c1 c2 k k cfg Hb Hconf H2) as [-> _].
  by rewrite decide_True.
Qed.

Lemma collect_keys (base : string) (l : dict NetInterface.t)
    (c' : dict string) (p : string) :
  Forall (λ item, Renderer.built_for base item
                  ∧ NetInterface._conf item.2 ≠ []) l →
  for_each Renderer.collect_iface l [] = Ok c' →
  p ∈ dict_keys c' →
  ∃ k, k ∈ dict_keys l
       ∧ p ∈ [base +:+ "/network-scripts/ifcfg-" +:+ k;
              base +:+ "/network-scripts/route-" +:+ k;
              base +:+ "/network-scripts/route6-" +:+ k].
Proof.
  intros Hgood Hloop. revert p. revert Hloop.
  apply (for_each_inv
           (λ s, ∀ p, p ∈ dict_keys s →
              ∃ k, k ∈ dict_keys l
                   ∧ p ∈ [base +:+ "/network-scripts/ifcfg-" +:+ k;
                          base +:+ "/network-scripts/route-" +:+ k;
                          base +:+ "/network-scripts/route6-" +:+ k])).
  - intros s [k cfg] s' Hin Hs Hstep p Hp.
    rewrite Forall_forall in Hgood. destruct (Hgood _ Hin) as [Hb Hconf].
    destruct (collect_iface_ifcfg base s s' k k cfg Hb Hconf Hstep)
      as [_ Hkeys].
    destruct (Hkeys p Hp) as [?|?]; [by apply Hs|].
    exists k. split; [|done]. unfold dict_keys.
    apply list_elem_of_fmap. by exists (k, cfg).
  - intros p Hp. by apply elem_of_nil in Hp.
Qed.

Lemma mirrors_nonempty (cfg : NetInterface.t) :
  NetInterface.mirrors cfg → NetInterface._conf cfg ≠ [].
Proof. intros [_ Hdev] Hnil. by rewrite Hnil in Hdev. Qed.

(** The working set that [_render_sysconfig] hands to the collection. *)
Lemma render_sysconfig_working_set (base : string)
    (interfaces physical : list iface) (bonds : list bond_iface)
    (vlans : list string) (bridges : list bridge_iface)
    (contents : dict string) :
  Passes._render_sysconfig base interfaces physical bonds vlans bridges
  = Ok contents →
  ∃ c, Renderer.collect c = Ok contents
       ∧ dict_wf c
       ∧ Forall (λ item, Renderer.built_for base item
                         ∧ NetInterface.mirrors item.2) c
       ∧ (∀ k, k ∈ dict_keys c ↔ ∃ ifc, ifc ∈ interfaces ∧ if_name ifc = k).
Proof.
  unfold Passes._render_sysconfig.
  destruct (for_each (Passes.init_iface base) interfaces []) as [c0|] eqn:H0;
    cbn [bind]; [|done].
  destruct (Passes._render_physical_interfaces physical c0) as [c1|] eqn:H1;
    cbn [bind]; [|done].
  destruct (Passes._render_bond_interfaces bonds c1) as [c2|] eqn:H2;
    cbn [bind]; [|done].
  destruct (Passes._render_vlan_interfaces vlans c2) as [c3|] eqn:H3;
    cbn [bind]; [|done].
  destruct (Passes._render_bridge_interfaces bridges c3) as [c4|] eqn:H4;
    cbn [bind]; [|done].
  intros Hcollect. exists c4. split; [done|].
  destruct (init_loop base interfaces [] c0 H0 dict_wf_nil (Forall_nil_2 _))
    as (Hwf0 & Hgood0 & _ & Hfrom & Hall).
  assert (updated evolves c0 c4) as [Hkeys Hup].
  { pose proof (for_each_updated evolves _ _ _ _ evolves_refl evolves_trans
                  (λ s x s', physical_iface_updated s s' x) H1) as U1.
    pose proof (for_each_updated evolves _ _ _ _ evolves_refl evolves_trans
                  (λ s x s', render_bond_updated s s' x) H2) as U2.
    pose proof (for_each_updated evolves _ _ _ _ evolves_refl evolves_trans
                  (λ s x s', render_vlan_updated s s' x) H3) as U3.
    pose proof (for_each_updated evolves _ _ _ _ evolves_refl evolves_trans
                  (λ s x s', render_bridge_updated s s' x) H4) as U4.
    eapply updated_trans; [apply evolves_trans | exact U1 |].
    eapply updated_trans; [apply evolves_trans | exact U2 |].
    eapply updated_trans; [apply evolves_trans | exact U3 | exact U4]. }
  assert (dict_wf c4) as Hwf4 by (unfold dict_wf; by rewrite Hkeys).
  split_and!; [done| |].
  - apply Forall_forall. intros [k cfg'] Hin.
    apply (dict_get_elem _ _ _ Hwf4) in Hin.
    destruct (Hup k cfg' Hin) as (cfg & Hcfg & Hev).
    apply (dict_get_elem _ _ _ Hwf0) in Hcfg.
    rewrite Forall_forall in Hgood0. destruct (Hgood0 _ Hcfg) as [Hb Hm].
    split; [by eapply evolves_built | by apply Hev].
  - intros k. rewrite Hkeys. split.
    + intros Hk. destruct (Hfrom k Hk) as [Hnil|?]; [|done].
      by apply elem_of_nil in Hnil.
    + intros (ifc & Hin & <-). by apply Hall.
Qed.

(** When [_render_sysconfig] returns, every interface of the network
    state has its file [ifcfg-<name>], which is the text of a
    configuration of that name whose [TYPE] and [DEVICE] agree with its
    kind and its name; and every path of the output is the [ifcfg-],
    [route-] or [route6-] file of an interface of the network state. *)
Theorem render_sysconfig_files (base : string)
    (interfaces physical : list iface) (bonds : list bond_iface)
    (vlans : list string) (bridges : list bridge_iface)
    (contents : dict string) :
  Passes._render_sysconfig base interfaces physical bonds vlans bridges
  = Ok contents →
  (∀ ifc, ifc ∈ interfaces →
     ∃ cfg text,
       NetInterface.name cfg = if_name ifc
       ∧ NetInterface.mirrors cfg
       ∧ NetInterface.to_string cfg = Ok text
       ∧ dict_get (base +:+ "/network-scripts/ifcfg-" +:+ if_name ifc)
           contents = Some text)
  ∧ (∀ p, p ∈ dict_keys contents →
       ∃ ifc, ifc ∈ interfaces
              ∧ p ∈ [base +:+ "/network-scripts/ifcfg-" +:+ if_name ifc;
                     base +:+ "/network-scripts/route-" +:+ if_name ifc;
                     base +:+ "/network-scripts/route6-" +:+ if_name ifc]).
Proof.
  intros Hrender.
  destruct (render_sysconfig_working_set _ _ _ _ _ _ _ Hrender)
    as (c & Hcollect & Hwf & Hgood & Hnames).
  assert (Forall (λ item, Renderer.built_for base item
                          ∧ NetInterface._conf item.2 ≠ []) c) as Hgood'.
  { eapply Forall_impl; [exact Hgood|]. intros item [? ?].
    split; [done | by apply mirrors_nonempty]. }
  unfold Renderer.collect in Hcollect. split.
  - intros ifc Hin.
    assert (if_name ifc ∈ dict_keys c) as Hk by (apply Hnames; eauto).
    apply dict_get_is_Some in Hk as [cfg Hcfg].
    apply (dict_get_elem _ _ _ Hwf) in Hcfg.
    rewrite Forall_forall in Hgood.
    destruct (Hgood _ Hcfg) as [(Hn & _) Hm]. cbn [fst snd] in *.
    pose proof (collect_ifcfg base c [] contents _ cfg Hgood' Hwf Hcfg
                  Hcollect) as Hfile.
    unfold NetInterface.to_string in *.
    rewrite ConfigMap_to_string_eq in *. cbn [returned] in Hfile.
    exists cfg. eexists.
    split_and!; [done | done | apply ConfigMap_to_string_eq | exact Hfile].
  - intros p Hp.
    destruct (collect_keys base c contents p Hgood' Hcollect Hp)
      as (k & (ifc & Hin & <-)%Hnames & Hpaths).
    eauto.
Qed.

Lemma render_sysconfig_files_witness :
  ∃ contents,
    Passes._render_sysconfig "etc/sysconfig"
      [Sample.iface_static; mk_iface "eth0.100" None None None]
      [Sample.iface_static] [] ["eth0.100"] []
    = Ok contents
    ∧ ∃ text,
        dict_get "etc/sysconfig/network-scripts/ifcfg-eth0.100" contents
        = Some text.
Proof.
  eexists. split; [vm_compute; reflexivity|].
  match goal with
  | |- context [dict_get _ ?c] =>
      destruct (render_sysconfig_files "etc/sysconfig"
                  [Sample.iface_static; mk_iface "eth0.100" None None None]
                  [Sample.iface_static] [] ["eth0.100"] [] c) as [Hfiles _]
  end.
  { vm_compute. reflexivity. }
  destruct (Hfiles (mk_iface "eth0.100" None None None))
    as (cfg & text & _ & _ & _ & Htext).
  - in_list.
  - exists text. exact Htext.
Defined.

(** ** The passes on sample inputs *)

Lemma render_vlan_cases_witness :
  ∃ cfg',
    Passes.render_vlan [("vlan100", Sample.eth0)] "vlan100"
    = Ok (dict_set "vlan100" cfg' [("vlan100", Sample.eth0)])
    ∧ dict_get "PHYSDEV" (NetInterface._conf cfg') = Some (VStr "vlan10").
Proof.
  destruct (render_vlan_cases [("vlan100", Sample.eth0)] "vlan100")
    as (cfg' & Hrender & _ & _ & Hnodot & _).
  exists cfg'. split; [exact Hrender|].
  apply (Hnodot "vlan10" "0"%char); reflexivity.
Defined.

Lemma render_bond_cases_witness :
  Passes.render_bond [("eth0", Sample.eth0)]
    (mk_bond_iface "eth0" (Some "bond0") [])
  = Raise (KeyError "bond0").
Proof.
  exact (render_bond_cases [("eth0", Sample.eth0)]
           (mk_bond_iface "eth0" (Some "bond0") [])).
Defined.

(** ** What the subnet pass and the route pass raise *)

Lemma for_each_raise {A S : Type} (P : S → Prop) (body : S → A → result S)
    (items : list A) (st : S) (e : exn) :
  (∀ s x s', x ∈ items → P s → body s x = Ok s' → P s') →
  P st → for_each body items st = Raise e →
  ∃ x s, x ∈ items ∧ P s ∧ body s x = Raise e.
Proof.
  revert st.
  induction items as [|x items IH]; intros st Hbody Hst; cbn [for_each];
    [done|].
  destruct (body st x) as [s1|e1] eqn:Hx; cbn [bind].
  - intros Hrest. destruct (IH s1) as (y & s & Hy & Hs & Hraise); [| |done|].
    + intros s y s' Hy. apply Hbody. by right.
    + eapply Hbody; [by left | done..].
    + exists y, s. split; [by right | done].
  - intros [= ->]. exists x, st. split; [by left | done].
Qed.

Lemma for_each_ok_all {A S : Type} (Q : A → Prop) (body : S → A → result S)
    (items : list A) (st st' : S) :
  (∀ s x s', body s x = Ok s' → Q x) →
  for_each body items st = Ok st' → Forall Q items.
Proof.
  intros Hbody. revert st.
  induction items as [|x items IH]; intros st; cbn [for_each]; [done|].
  destruct (body st x) as [s1|] eqn:Hx; cbn [bind]; [|done].
  intros Hrest. apply Forall_cons. split; [by eapply Hbody | by eapply IH].
Qed.

Lemma subnet_base_missing_address (iface_cfg : NetInterface.t) (sn : subnet) :
  sn_type sn = Some "static" → sn_address sn = None →
  Renderer.subnet_base iface_cfg sn = Raise (KeyError "address").
Proof.
  intros Hty Haddr. unfold Renderer.subnet_base, _subnet_is_ipv6.
  rewrite Hty, Haddr.
  rewrite bool_decide_eq_false_2 by discriminate.
  rewrite bool_decide_eq_false_2.
  2: { intros Hin. apply list_elem_of_In in Hin. cbn in Hin.
       intuition discriminate. }
  by rewrite bool_decide_eq_true_2.
Qed.

Lemma subnet_base_accepts (iface_cfg cfg' : NetInterface.t) (sn : subnet) :
  Renderer.subnet_base iface_cfg sn = Ok cfg' →
  Renderer.known_subnet_type sn = true ∧ Renderer.static_has_address sn.
Proof.
  intros Hok.
  destruct (subnet_base_cases iface_cfg sn)
    as [[Hknown _]|[_ Hraise]]; [|congruence].
  split; [done|]. intros Hty.
  destruct (sn_address sn) eqn:Haddr; [done|].
  rewrite (subnet_base_missing_address _ _ Hty Haddr) in Hok. discriminate.
Qed.

(** [_render_subnets] raises nothing but the [ValueError] of a subnet of
    unknown type and the [KeyError] of a static subnet without address:
    the secondary IPv6 addresses are appended to a string that the same
    call has written. *)
Theorem render_subnets_raises (iface_cfg : NetInterface.t)
    (subnets : list subnet) (e : exn) :
  Renderer._render_subnets iface_cfg subnets = Raise e →
  ∃ sn, sn ∈ subnets
        ∧ ((Renderer.known_subnet_type sn = false
            ∧ e = Renderer.unknown_subnet_type sn iface_cfg)
           ∨ (sn_type sn = Some "static" ∧ sn_address sn = None
              ∧ e = KeyError "address")).
Proof.
  unfold Renderer._render_subnets.
  destruct (for_each Renderer.subnet_base subnets _) as [cfg1|e1] eqn:H1;
    cbn [bind].
  - assert (Forall (λ sn, Renderer.known_subnet_type sn = true
                          ∧ Renderer.static_has_address sn) subnets)
      as Hall.
    { eapply for_each_ok_all; [|exact H1]. intros s x s'.
      apply subnet_base_accepts. }
    apply Forall_and in Hall as [Hknown Haddr].
    destruct (subnet_static_loop cfg1 subnets Hknown Haddr) as (cfg' & -> & _).
    done.
  - intros [= ->].
    apply (for_each_raise
             (λ s, NetInterface.name s = NetInterface.name iface_cfg))
      in H1 as (sn & s & Hin & Hname & Hraise).
    2: { intros s x s' _ Hs Hstep.
         destruct (subnet_base_same _ _ _ Hstep) as [(? & _) _].
         congruence. }
    2: done.
    exists sn. split; [done|].
    destruct (subnet_base_cases s sn)
      as [[_ [(? & Hok & _)|(Hty & Haddr & Hke)]]|[Hunknown Hve]].
    + congruence.
    + right. split_and!; [done..|]. congruence.
    + left. split; [done|]. rewrite Hve in Hraise.
      injection Hraise as <-. unfold Renderer.unknown_subnet_type.
      by rewrite Hname.
Qed.

Lemma render_subnets_raises_witness :
  ∃ sn, sn ∈ [Sample.typed "dhcp"; Sample.typed "static"]
        ∧ sn_type sn = Some "static" ∧ sn_address sn = None.
Proof.
  destruct (render_subnets_raises Sample.eth0
              [Sample.typed "dhcp"; Sample.typed "static"]
              (KeyError "address") eq_refl)
    as (sn & Hin & [[Hknown _]|(Hty & Haddr & _)]).
  - exfalso. apply list_elem_of_In in Hin. cbn in Hin.
    destruct Hin as [<-|[<-|[]]]; discriminate Hknown.
  - by exists sn.
Defined.

Lemma render_route_raises (sn : subnet) (iface_cfg : NetInterface.t)
    (route_cfg : Route.t) (r : route) (e : exn) :
  Renderer.render_route sn (iface_cfg, route_cfg) r = Raise e →
  (rt_network r = None ∧ e = KeyError "network")
  ∨ (rt_network r ∈ [Some (VStr "::"); Some (VStr "0.0.0.0")]
     ∧ rt_netmask r = None ∧ e = KeyError "netmask")
  ∨ (canonical_default r
     ∧ Renderer.is_duplicate_default sn route_cfg = true
     ∧ e = Renderer.duplicate_default_route iface_cfg).
Proof.
  unfold Renderer.render_route.
  destruct (_is_default_route r) as [[|]|e'] eqn:Hdef; cbn [bind].
  - apply is_default_route_spec in Hdef.
    destruct (Renderer.is_duplicate_default sn route_cfg).
    + intros [= <-]. right. right. done.
    + by destruct (rt_gateway r), (opt_truthy (sn_ipv6 sn)).
  - done.
  - intros [= <-]. revert Hdef. unfold _is_default_route.
    destruct (rt_network r) as [n|]; cbn [field bind].
    2: { intros [= <-]. by left. }
    destruct (rt_netmask r) as [m|]; cbn [field bind].
    + by destruct (py_eq n (VStr "::")), (py_eq m (VInt 0)),
        (py_eq n (VStr "0.0.0.0")), (py_eq m (VStr "0.0.0.0")).
    + destruct (py_eq n (VStr "::")) eqn:H6; cbn [bind].
      { apply py_eq_str in H6 as ->. intros [= <-]. right. left.
        split_and!; [in_list | done..]. }
      destruct (py_eq n (VStr "0.0.0.0")) eqn:H4; cbn [bind]; [|done].
      apply py_eq_str in H4 as ->. intros [= <-]. right. left.
      split_and!; [in_list | done..].
Qed.

(** [_render_subnet_routes] raises nothing but the [KeyError] of a route
    without [network], the [KeyError] of a route to [::] or [0.0.0.0]
    without [netmask], and the [ValueError] of a second default route,
    which names the interface and takes a subnet whose [ipv4] or [ipv6]
    flag is true. *)
Theorem render_subnet_routes_raises (iface_cfg : NetInterface.t)
    (route_cfg : Route.t) (subnets : list subnet) (e : exn) :
  Renderer._render_subnet_routes iface_cfg route_cfg subnets = Raise e →
  ∃ sn r,
    (sn, r) ∈ all_routes subnets
    ∧ ((rt_network r = None ∧ e = KeyError "network")
       ∨ (rt_network r ∈ [Some (VStr "::"); Some (VStr "0.0.0.0")]
          ∧ rt_netmask r = None ∧ e = KeyError "netmask")
       ∨ (canonical_default r
          ∧ opt_truthy (sn_ipv4 sn) || opt_truthy (sn_ipv6 sn) = true
          ∧ e = Renderer.duplicate_default_route iface_cfg)).
Proof.
  rewrite render_subnet_routes_flat. intros Hloop.
  apply (for_each_raise
           (λ s, NetInterface.name s.1 = NetInterface.name iface_cfg))
    in Hloop as ([sn r] & [cfg rc] & Hin & Hname & Hraise).
  2: { intros s x s' _ Hs Hstep.
       destruct (render_route_same _ _ _ _ Hstep) as [(? & _) _].
       congruence. }
  2: done.
  exists sn, r. split; [done|]. cbn [fst snd] in *.
  destruct (render_route_raises _ _ _ _ _ Hraise)
    as [?|[?|(Hcanon & Hdup & ->)]]; [by left | by right; left |].
  right. right. split_and!; [done| |].
  - unfold Renderer.is_duplicate_default in Hdup.
    destruct (opt_truthy (sn_ipv4 sn)), (opt_truthy (sn_ipv6 sn)); done.
  - unfold Renderer.duplicate_default_route. by rewrite Hname.
Qed.

Lemma render_subnet_routes_raises_witness :
  ∃ sn r,
    (sn, r) ∈ all_routes
                [Sample.static4 "10.0.0.5" [mk_route None None None]]
    ∧ rt_network r = None.
Proof.
  destruct (render_subnet_routes_raises Sample.eth0
              (NetInterface.routes Sample.eth0)
              [Sample.static4 "10.0.0.5" [mk_route None None None]]
              (KeyError "network") eq_refl)
    as (sn & r & Hin & [[Hnet _]|[(_ & _ & [=])|(_ & _ & [=])]]).
  by exists sn, r.
Defined.
